(** * Mechanic-Shop-V4: the request handlers and their business rules

    A shallow embedding of the Flask handlers of [application/blueprints]
    and of the model methods of [application/models.py], with the theorems
    that settle the specification's claims about them.

    Conventions of the embedding.
    - A Python value that comes out of a JSON body is a [pyval]; Python
      [int] is [Z] (unbounded, as in Python), Python [float] is an IEEE
      binary64 number, written with the Standard Library's [spec_float]
      at precision 53 and exponent bound 1024.
    - A builtin that can raise returns a [result]; an exception that no
      handler code catches reaches the application's generic error
      handler and becomes a 500 response.
    - The relational store is a record of tables.  A handler is a function
      from the committed store and the request to a response and the
      committed store after the request: what a handler does between its
      queries is visible to its later queries (the session flushes before
      each query) and becomes the new store at [db.session.commit()]; a
      handler that returns before committing, or whose transaction is
      rolled back, leaves the store as it was.
    - The tables hold unbounded integers and texts.  A value that is
      outside its column makes the commit of the program raise; the
      model has no such failure, and the statements about written values
      assume that they fit ([fits_integer], [fits_string],
      [fits_offset]).
    - An instance that was committed is read again from its row at its
      next use; a [Numeric] column comes back as a [Decimal].
    - A request carries the JSON value of its body; a request whose body
      is not JSON is answered 415 by [request.json] and is outside the
      model. *)

From Stdlib Require Import ZArith List Bool Ascii String Lia Permutation Sorted.
From Stdlib Require Import SpecFloat.
From stdpp Require Import base option list gmap strings pretty.

Local Open Scope string_scope.
Local Open Scope Z_scope.

Set Warnings "-clear-no-such-hyp".

(* ===================================================================== *)
(** ** Python values and the builtins the handlers use                    *)
(* ===================================================================== *)

Module Py.

(** IEEE binary64, the format of a Python [float]. *)
Definition prec : Z := 53.
Definition emax : Z := 1024.
Abbreviation float := spec_float.

Definition fadd : float -> float -> float := SFadd prec emax.
Definition fmul : float -> float -> float := SFmul prec emax.
Definition fdiv : float -> float -> float := SFdiv prec emax.

(** [float(n)] for an [int] that is in range: the nearest binary64. *)
Definition float_of_Z (n : Z) : float := binary_normalize prec emax n 0 false.

#[warnings="-register-all"]
Inductive pyval : Type :=
  | PNone
  | PBool (b : bool)
  | PInt (n : Z)
  | PFloat (f : float)
  | PStr (s : string)
  | PList (l : list pyval)
  | PDict (d : list (string * pyval)).

Inductive exn : Type :=
  | TypeError | ValueError | OverflowError | AttributeError | KeyError
  | ZeroDivisionError.

Inductive result (A : Type) : Type :=
  | Ok (a : A)
  | Raise (e : exn).
Arguments Ok {A} a.
Arguments Raise {A} e.

Definition bind {A B} (r : result A) (k : A -> result B) : result B :=
  match r with
  | Ok a => k a
  | Raise e => Raise e
  end.

(** The items of a [dict], in insertion order; a key occurs once. *)
Abbreviation dict := (list (string * pyval)).

Fixpoint dict_lookup (k : string) (d : dict) : option pyval :=
  match d with
  | [] => None
  | (k', v) :: r => if String.eqb k' k then Some v else dict_lookup k r
  end.

(** [d[k] = v] *)
Fixpoint dict_set (k : string) (v : pyval) (d : dict) : dict :=
  match d with
  | [] => [(k, v)]
  | (k', v') :: r =>
      if String.eqb k' k then (k, v) :: r else (k', v') :: dict_set k v r
  end.

Definition is_str (k : string) (v : pyval) : bool :=
  match v with
  | PStr s => String.eqb s k
  | _ => false
  end.

Definition is_substring (k s : string) : bool :=
  match String.index 0 k s with
  | Some _ => true
  | None => false
  end.

Definition float_is_zero (f : float) : bool :=
  match f with
  | S754_zero _ => true
  | _ => false
  end.

(** Truth value testing, [bool(v)]. *)
Definition truthy (v : pyval) : bool :=
  match v with
  | PNone => false
  | PBool b => b
  | PInt n => negb (n =? 0)
  | PFloat f => negb (float_is_zero f)
  | PStr s => negb (String.eqb s "")
  | PList l => match l with [] => false | _ => true end
  | PDict d => match d with [] => false | _ => true end
  end.

(** [k in v] for a [str] k. *)
Definition contains (k : string) (v : pyval) : result bool :=
  match v with
  | PDict d => Ok (bool_decide (is_Some (dict_lookup k d)))
  | PList l => Ok (existsb (is_str k) l)
  | PStr s => Ok (is_substring k s)
  | _ => Raise TypeError
  end.

(** [v[k]] for a [str] k. *)
Definition getitem (v : pyval) (k : string) : result pyval :=
  match v with
  | PDict d =>
      match dict_lookup k d with
      | Some x => Ok x
      | None => Raise KeyError
      end
  | _ => Raise TypeError
  end.

(** [v.get(k, default)] *)
Definition get (v : pyval) (k : string) (dflt : pyval) : result pyval :=
  match v with
  | PDict d => Ok (default dflt (dict_lookup k d))
  | _ => Raise AttributeError
  end.

(** [int(f)] for a [float]: truncation towards zero. *)
Definition int_of_float (f : float) : result Z :=
  match f with
  | S754_nan => Raise ValueError
  | S754_infinity _ => Raise OverflowError
  | S754_zero _ => Ok 0
  | S754_finite s m e =>
      let a := match e with
               | Z0 => Zpos m
               | Zpos p => Zpos m * 2 ^ e
               | Zneg p => Zpos m / 2 ^ Zpos p
               end in
      Ok (if s then - a else a)
  end.

Section Int.
(** [int(s)] for a [str]: the integer the text denotes, [None] where
    Python raises [ValueError].  The grammar of integer literals is the
    interpreter's; the handlers only depend on whether it yields an
    integer. *)
Variable int_of_str : string -> option Z.

(** [int(v)] *)
Definition int (v : pyval) : result Z :=
  match v with
  | PInt n => Ok n
  | PBool b => Ok (if b then 1 else 0)
  | PFloat f => int_of_float f
  | PStr s =>
      match int_of_str s with
      | Some n => Ok n
      | None => Raise ValueError
      end
  | PNone | PList _ | PDict _ => Raise TypeError
  end.
End Int.

(** [a / b] for two [int]s: the correctly rounded quotient. *)
Definition truediv (a b : Z) : result float :=
  if b =? 0 then Raise ZeroDivisionError
  else if a =? 0 then Ok (S754_zero (b <? 0))
  else
    match fdiv (S754_finite (a <? 0) (Z.to_pos (Z.abs a)) 0)
               (S754_finite (b <? 0) (Z.to_pos (Z.abs b)) 0) with
    | S754_infinity _ => Raise OverflowError
    | q => Ok q
    end.

(** Round a non-negative rational [n / d] to the nearest integer, ties to
    the even one. *)
Definition round_half_even (n d : Z) : Z :=
  let q := n / d in
  let r := n mod d in
  match 2 * r ?= d with
  | Lt => q
  | Gt => q + 1
  | Eq => if Z.even q then q else q + 1
  end.

(** [round(x, ndigits)] for a [float] x and [0 <= ndigits]: the decimal
    with [ndigits] digits after the point that is nearest to the exact
    value of [x] (ties to even), read back as the nearest [float]. *)
Definition round (x : float) (ndigits : Z) : float :=
  match x with
  | S754_finite s m e =>
      let scale := 10 ^ ndigits in
      let k := match e with
               | Zneg p => round_half_even (Zpos m * scale) (2 ^ Zpos p)
               | _ => Zpos m * scale * 2 ^ e
               end in
      if k =? 0 then S754_zero s
      else fdiv (S754_finite s (Z.to_pos k) 0)
                (S754_finite false (Z.to_pos scale) 0)
  | _ => x
  end.

(** [str.lower()] on the ASCII letters. *)
Definition lower_ascii (c : ascii) : ascii :=
  let n := nat_of_ascii c in
  if (65 <=? n)%nat && (n <=? 90)%nat then ascii_of_nat (n + 32) else c.

Fixpoint lower (s : string) : string :=
  match s with
  | EmptyString => EmptyString
  | String c r => String (lower_ascii c) (lower r)
  end.

(** [dict(v)]: a copy of a [dict], or the [dict] of a list of
    [[key, value]] pairs.  The keys of the model's [dict] are strings; any
    other argument is answered with the exception Python raises for an
    argument that is not a sequence of pairs. *)
Fixpoint dict_of_pairs (l : list pyval) : result dict :=
  match l with
  | [] => Ok []
  | PList [PStr k; v] :: r => bind (dict_of_pairs r) (fun d =>
      Ok (match dict_lookup k d with
          | Some v' => (k, v') :: filter (fun kv => negb (String.eqb kv.1 k)) d
          | None => (k, v) :: d
          end))
  | PList [_; _] :: _ => Raise TypeError
  | PList _ :: _ => Raise ValueError
  | _ => Raise TypeError
  end.

Definition dict_of (v : pyval) : result dict :=
  match v with
  | PDict d => Ok d
  | PList l => dict_of_pairs l
  | PStr s => if String.eqb s "" then Ok [] else Raise ValueError
  | _ => Raise TypeError
  end.




End Py.

(* ===================================================================== *)
(** ** What the handlers take from outside the repository                  *)
(* ===================================================================== *)

(** Text grammars and the password hash are the interpreter's and the
    libraries'; the handlers only use them through these functions. *)
Class External := {
  (** [int(s)]: [None] where Python raises [ValueError] *)
  int_of_str : string -> option Z;
  (** marshmallow's [validate.Email] *)
  is_email : string -> bool;
  (** marshmallow's [fields.DateTime] deserialisation, as a timestamp *)
  datetime_of_str : string -> option Z;
  (** werkzeug's [check_password_hash(pwhash, password)] *)
  check_password_hash : string -> string -> bool;
  (** flask_jwt_extended's [create_access_token(identity)] at a time *)
  create_access_token : string -> Z -> string;
}.

(* ===================================================================== *)
(** ** application/models.py                                              *)
(* ===================================================================== *)

Module Customer.
Record t := {
  customer_id : Z;
  first_name : string;
  last_name : string;
  email : string;
  phone : string;
  address : option string;
  city : option string;
  state : option string;
  postal_code : option string;
  password_hash : string;
  created_at : Z;
}.

Definition check_password `{External} (self : t) (password : string) : bool :=
  check_password_hash (password_hash self) password.
End Customer.

Module Vehicle.
Record t := {
  vehicle_id : Z;
  customer_id : Z;
  vin : string;
  make : string;
  model : string;
  year : Z;
  color : string;
}.
End Vehicle.

Module Mechanic.
Record t := {
  mechanic_id : Z;
  full_name : string;
  email : string;
  phone : string;
  salary : Z;
  is_active : bool;
}.
End Mechanic.

Module ServiceTicket.
Record t := {
  ticket_id : Z;
  vehicle_id : Z;
  customer_id : Z;
  status : string;
  opened_at : Z;
  closed_at : option Z;
  problem_description : string;
  odometer_miles : Z;
  priority : Z;
}.
End ServiceTicket.

Module TicketMechanic.
Record t := {
  ticket_id : Z;
  mechanic_id : Z;
  role : string;
  minutes_worked : Z;
}.
End TicketMechanic.

Module Part.
Record t := {
  part_id : Z;
  part_number : string;
  name : string;
  description : option string;
  category : string;
  manufacturer : option string;
  current_cost_cents : Z;
  quantity_in_stock : Z;
  reorder_level : Z;
  supplier : option string;
}.

Definition needs_reorder (self : t) : bool :=
  quantity_in_stock self <=? reorder_level self.

(** [self.quantity_in_stock = q] *)
Definition set_quantity_in_stock (q : Z) (self : t) : t :=
  {| part_id := part_id self;
     part_number := part_number self;
     name := name self;
     description := description self;
     category := category self;
     manufacturer := manufacturer self;
     current_cost_cents := current_cost_cents self;
     quantity_in_stock := q;
     reorder_level := reorder_level self;
     supplier := supplier self |}.
End Part.

Module TicketPart.

(** What the attribute [markup_percentage] holds.  The constructor call
    [TicketPart(markup_percentage=...)] leaves the number it was given on
    the instance; an instance loaded or refreshed from its row holds what
    the column [db.Numeric(5, 2)] returns, a [decimal.Decimal].  The digits
    of the [Decimal] are not modelled: [given] is the number that was
    written. *)
Inductive markup : Type :=
  | Float (f : Py.float)
  | Decimal (given : Py.float).

Record t := {
  ticket_id : Z;
  part_id : Z;
  quantity_used : Z;
  unit_cost_cents : Z;
  markup_percentage : markup;
  installed_date : Z;
  warranty_months : option Z;
  installed_by_mechanic_id : option Z;
}.

(** [float * Decimal] has no implementation on either side: Python raises
    [TypeError].  [Decimal / 100] before it is a [Decimal]. *)
Definition get_total_cost (self : t) : Py.result Py.float :=
  Py.bind (Py.truediv (quantity_used self * unit_cost_cents self) 100)
    (fun base_cost =>
       match markup_percentage self with
       | Float markup_percentage =>
           let markup :=
             Py.fmul base_cost
               (Py.fdiv markup_percentage (Py.float_of_Z 100)) in
           Py.Ok (Py.round (Py.fadd base_cost markup) 2)
       | Decimal _ => Py.Raise Py.TypeError
       end).

(** The instance after [db.session.commit()]: the session expires its
    attributes, and the next access reads them from the row. *)
Definition refreshed (self : t) : t :=
  {| ticket_id := ticket_id self;
     part_id := part_id self;
     quantity_used := quantity_used self;
     unit_cost_cents := unit_cost_cents self;
     markup_percentage :=
       match markup_percentage self with
       | Float f | Decimal f => Decimal f
       end;
     installed_date := installed_date self;
     warranty_months := warranty_months self;
     installed_by_mechanic_id := installed_by_mechanic_id self |}.
End TicketPart.

(* ===================================================================== *)
(** ** The store                                                          *)
(* ===================================================================== *)

(** One table per model.  A table with an integer primary key is a map
    from the key; a junction table is a map from its composite key.  The
    mechanics are kept as the list of rows in the order in which
    [select(Mechanic)] returns them, which the activity listing exposes. *)
Record DB := {
  customers : gmap Z Customer.t;
  vehicles : gmap Z Vehicle.t;
  mechanics : list Mechanic.t;
  parts : gmap Z Part.t;
  service_tickets : gmap Z ServiceTicket.t;
  ticket_mechanics : gmap (Z * Z) TicketMechanic.t;
  ticket_parts : gmap (Z * Z) TicketPart.t;
}.

Definition set_customers (x : gmap Z Customer.t) (db : DB) : DB :=
  {| customers := x; vehicles := vehicles db; mechanics := mechanics db;
     parts := parts db; service_tickets := service_tickets db;
     ticket_mechanics := ticket_mechanics db; ticket_parts := ticket_parts db |}.

Definition set_vehicles (x : gmap Z Vehicle.t) (db : DB) : DB :=
  {| customers := customers db; vehicles := x; mechanics := mechanics db;
     parts := parts db; service_tickets := service_tickets db;
     ticket_mechanics := ticket_mechanics db; ticket_parts := ticket_parts db |}.

Definition set_parts (x : gmap Z Part.t) (db : DB) : DB :=
  {| customers := customers db; vehicles := vehicles db; mechanics := mechanics db;
     parts := x; service_tickets := service_tickets db;
     ticket_mechanics := ticket_mechanics db; ticket_parts := ticket_parts db |}.

Definition set_ticket_mechanics (x : gmap (Z * Z) TicketMechanic.t) (db : DB) : DB :=
  {| customers := customers db; vehicles := vehicles db; mechanics := mechanics db;
     parts := parts db; service_tickets := service_tickets db;
     ticket_mechanics := x; ticket_parts := ticket_parts db |}.

Definition set_ticket_parts (x : gmap (Z * Z) TicketPart.t) (db : DB) : DB :=
  {| customers := customers db; vehicles := vehicles db; mechanics := mechanics db;
     parts := parts db; service_tickets := service_tickets db;
     ticket_mechanics := ticket_mechanics db; ticket_parts := x |}.

(** [db.session.get(Mechanic, mechanic_id)] *)
Definition get_mechanic (db : DB) (mechanic_id : Z) : option Mechanic.t :=
  List.find (fun m => Mechanic.mechanic_id m =? mechanic_id) (mechanics db).

(** [len(mechanic.ticket_mechanics)]: the rows of the junction table whose
    [mechanic_id] is the mechanic's. *)
Definition ticket_count (db : DB) (m : Mechanic.t) : Z :=
  Z.of_nat (length (filter
    (fun kv : Z * Z * TicketMechanic.t => kv.1.2 = Mechanic.mechanic_id m)
    (map_to_list (ticket_mechanics db)))).

(** A request as a handler reads it: the parsed JSON body, the query
    string, the identity of the verified token and the clock.  [json] is
    what [request.json] returns, so [PNone] is the body [null].  A request
    whose body is not JSON has no [json]: reading [request.json] raises
    and the answer is 415; such requests are outside the model.  The
    handlers of the GET and DELETE routes do not read [json]. *)
Record Request := {
  json : Py.pyval;
  args : list (string * string);
  jwt_identity : string;
  utcnow : Z;
}.

Record Response := {
  body : Py.pyval;
  status : Z;
}.

(** [jsonify({"error": msg}), code] *)
Definition error (msg : string) (code : Z) : Response :=
  {| body := Py.PDict [("error", Py.PStr msg)]; status := code |}.

(** The application's handler for an exception no route catches.  The
    bodies of the application's error handlers also carry an identifier of
    the occurrence and a timestamp, which are left out. *)
Definition internal_server_error : Response :=
  {| body := Py.PDict [
       ("error", Py.PStr "Internal Server Error");
       ("message", Py.PStr "An unexpected error occurred.")
     ];
     status := 500 |}.

(* ===================================================================== *)
(** ** Schemas                                                            *)
(* ===================================================================== *)

(** marshmallow as the schemas of the blueprints use it: field
    deserialisers, [required], [load_default], [allow_none], the [Length]
    validator the auto-schemas derive from a column's width, and the
    rejection of unknown keys.  A load yields the loaded data or the
    messages of the [ValidationError], keyed by field. *)
Module Marshmallow.

Abbreviation messages := Py.dict.

Definition msg (s : string) : Py.pyval := Py.PList [Py.PStr s].

(** [fields.Int()] *)
Definition Int `{External} (v : Py.pyval) : Z + Py.pyval :=
  match v with
  | Py.PInt n => inl n
  | Py.PFloat f =>
      match Py.int_of_float f with
      | Py.Ok n => inl n
      | Py.Raise Py.OverflowError => inr (msg "Number too large.")
      | Py.Raise _ => inr (msg "Not a valid integer.")
      end
  | Py.PStr s =>
      match int_of_str s with
      | Some n => inl n
      | None => inr (msg "Not a valid integer.")
      end
  | _ => inr (msg "Not a valid integer.")
  end.

(** [fields.Str()] *)
Definition Str (v : Py.pyval) : string + Py.pyval :=
  match v with
  | Py.PStr s => inl s
  | _ => inr (msg "Not a valid string.")
  end.

(** [fields.Str(validate=validate.Length(max=n))] *)
Definition StrMax (n : nat) (v : Py.pyval) : string + Py.pyval :=
  match Str v with
  | inl s =>
      if (String.length s <=? n)%nat then inl s
      else inr (msg ("Longer than maximum length " +:+ pretty n +:+ "."))
  | inr m => inr m
  end.

(** [fields.Email()] *)
Definition Email `{External} (v : Py.pyval) : string + Py.pyval :=
  match Str v with
  | inl s => if is_email s then inl s else inr (msg "Not a valid email address.")
  | inr m => inr m
  end.

(** [fields.DateTime()] *)
Definition DateTime `{External} (v : Py.pyval) : Z + Py.pyval :=
  match v with
  | Py.PStr s =>
      match datetime_of_str s with
      | Some t => inl t
      | None => inr (msg "Not a valid datetime.")
      end
  | _ => inr (msg "Not a valid datetime.")
  end.

(** The elements of [fields.List(inner)], from index [i] on. *)
Fixpoint list_items {A} (inner : Py.pyval -> A + Py.pyval) (i : nat)
    (l : list Py.pyval) : list A * messages :=
  match l with
  | [] => ([], [])
  | v :: r =>
      let '(vs, errs) := list_items inner (S i) r in
      match v with
      | Py.PNone => (vs, (pretty i, msg "Field may not be null.") :: errs)
      | _ =>
          match inner v with
          | inl a => (a :: vs, errs)
          | inr m => (vs, (pretty i, m) :: errs)
          end
      end
  end.

(** [fields.List(inner)] *)
Definition List {A} (inner : Py.pyval -> A + Py.pyval) (v : Py.pyval)
    : list A + Py.pyval :=
  match v with
  | Py.PList l =>
      match list_items inner 0 l with
      | (vs, []) => inl vs
      | (_, errs) => inr (Py.PDict errs)
      end
  | _ => inr (msg "Not a valid list.")
  end.

(** A field with [required=True]. *)
Definition required {A} (f : Py.pyval -> A + Py.pyval) (name : string)
    (d : Py.dict) : A + Py.pyval :=
  match Py.dict_lookup name d with
  | None => inr (msg "Missing data for required field.")
  | Some Py.PNone => inr (msg "Field may not be null.")
  | Some v => f v
  end.

(** A field with [load_default=dflt]. *)
Definition load_default {A} (f : Py.pyval -> A + Py.pyval) (dflt : A)
    (name : string) (d : Py.dict) : A + Py.pyval :=
  match Py.dict_lookup name d with
  | None => inl dflt
  | Some Py.PNone => inr (msg "Field may not be null.")
  | Some v => f v
  end.

(** A field that is neither required nor defaulted: absent from the
    loaded data when the input has no such key. *)
Definition optional {A} (f : Py.pyval -> A + Py.pyval) (name : string)
    (d : Py.dict) : option A + Py.pyval :=
  match Py.dict_lookup name d with
  | None => inl None
  | Some Py.PNone => inr (msg "Field may not be null.")
  | Some v => match f v with inl a => inl (Some a) | inr m => inr m end
  end.

(** A field that is not required and has [allow_none=True]: absent, or
    loaded as [None], or loaded as a value. *)
Definition optional_none {A} (f : Py.pyval -> A + Py.pyval)
    (name : string) (d : Py.dict) : option (option A) + Py.pyval :=
  match Py.dict_lookup name d with
  | None => inl None
  | Some Py.PNone => inl (Some None)
  | Some v => match f v with inl a => inl (Some (Some a)) | inr m => inr m end
  end.

Definition errs {A} (name : string) (r : A + Py.pyval) : messages :=
  match r with
  | inl _ => []
  | inr m => [(name, m)]
  end.

(** The keys of the input that the schema does not declare. *)
Definition unknown (declared : list string) (d : Py.dict) : messages :=
  omap (fun kv : string * Py.pyval =>
          if bool_decide (kv.1 ∈ declared) then None
          else Some (kv.1, msg "Unknown field.")) d.

Definition invalid_input_type : messages :=
  [("_schema", msg "Invalid input type.")].

End Marshmallow.

(** service_ticket/serviceTicketSchemas.py *)
Module EditTicketMechanicsSchema.
Import Marshmallow.

Record data := {
  add_ids : option (list Z);
  remove_ids : option (list Z);
  role : option string;
  minutes_worked : option Z;
}.

Definition load `{External} (v : Py.pyval) : data + messages :=
  match v with
  | Py.PDict d =>
      let a := load_default (List Int) [] "add_ids" d in
      let r := load_default (List Int) [] "remove_ids" d in
      let ro := load_default Str "Technician" "role" d in
      let mw := load_default Int 0 "minutes_worked" d in
      let u := unknown ["add_ids"; "remove_ids"; "role"; "minutes_worked"] d in
      match a, r, ro, mw, u with
      | inl a, inl r, inl ro, inl mw, [] =>
          inl {| add_ids := Some a; remove_ids := Some r;
                 role := Some ro; minutes_worked := Some mw |}
      | _, _, _, _, _ =>
          inr (errs "add_ids" a ++ errs "remove_ids" r ++ errs "role" ro
               ++ errs "minutes_worked" mw ++ u)%list
      end
  | _ => inr invalid_input_type
  end.
End EditTicketMechanicsSchema.

(** auth/authSchemas.py *)
Module LoginSchema.
Import Marshmallow.

Record data := {
  email : string;
  password : string;
}.

Definition load `{External} (v : Py.pyval) : data + messages :=
  match v with
  | Py.PDict d =>
      let e := required Email "email" d in
      let p := required Str "password" d in
      let u := unknown ["email"; "password"] d in
      match e, p, u with
      | inl e, inl p, [] => inl {| email := e; password := p |}
      | _, _, _ => inr (errs "email" e ++ errs "password" p ++ u)%list
      end
  | _ => inr invalid_input_type
  end.
End LoginSchema.

(* ===================================================================== *)
(** ** Typed columns                                                      *)
(* ===================================================================== *)

(** A handler may hand a raw JSON value to a typed column.  The store of
    the model holds values of the column's Python type; a raw value of
    another type is answered by the storage layer with an error and the
    transaction is rolled back (the application's handlers for
    [DataError] and [IntegrityError]). *)
Module Column.

(** an [int] column that is nullable *)
Definition opt_int (v : Py.pyval) : option (option Z) :=
  match v with
  | Py.PNone => Some None
  | Py.PInt n => Some (Some n)
  | Py.PBool b => Some (Some (if b then 1 else 0))
  | _ => None
  end.

(** a numeric column that is not nullable *)
Definition numeric (v : Py.pyval) : option Py.float :=
  match v with
  | Py.PFloat f => Some f
  | Py.PInt n => Some (Py.float_of_Z n)
  | Py.PBool b => Some (Py.float_of_Z (if b then 1 else 0))
  | _ => None
  end.

(** The text of an integer key in an f-string. *)
Definition key_text (v : Py.pyval) : string :=
  match v with
  | Py.PInt n => pretty n
  | Py.PBool true => "True"
  | Py.PBool false => "False"
  | _ => ""
  end.

Definition opt_str (o : option string) : Py.pyval :=
  match o with
  | Some s => Py.PStr s
  | None => Py.PNone
  end.

Definition data_error : Response :=
  {| body := Py.PDict [("error", Py.PStr "Database Data Error");
                       ("message", Py.PStr "Invalid data format or type")];
     status := 400 |}.

Definition integrity_error : Response :=
  {| body := Py.PDict [("error", Py.PStr "Database Integrity Error");
                       ("message", Py.PStr "Database constraint violation occurred")];
     status := 400 |}.
End Column.

(** [not request.json or key not in request.json] *)
Definition json_lacks (req : Request) (key : string) : Py.result bool :=
  if negb (Py.truthy (json req)) then Py.Ok true
  else Py.bind (Py.contains key (json req)) (fun b => Py.Ok (negb b)).

(* ===================================================================== *)
(** ** blueprints/inventory/routes.py                                     *)
(* ===================================================================== *)

Module Inventory.

(** [part_schema.dump(part)] *)
Definition part_schema_dump (part : Part.t) : Py.pyval :=
  Py.PDict [
    ("part_id", Py.PInt (Part.part_id part));
    ("part_number", Py.PStr (Part.part_number part));
    ("name", Py.PStr (Part.name part));
    ("description", Column.opt_str (Part.description part));
    ("category", Py.PStr (Part.category part));
    ("manufacturer", Column.opt_str (Part.manufacturer part));
    ("current_cost_cents", Py.PInt (Part.current_cost_cents part));
    ("quantity_in_stock", Py.PInt (Part.quantity_in_stock part));
    ("reorder_level", Py.PInt (Part.reorder_level part));
    ("supplier", Column.opt_str (Part.supplier part));
    ("needs_reorder", Py.PBool (Part.needs_reorder part))
  ].

(** PATCH /inventory/<part_id>/adjust-quantity *)
Definition adjust_part_quantity `{External} (db : DB) (part_id : Z)
    (req : Request) : Response * DB :=
  match parts db !! part_id with
  | None => (error "Part not found" 404, db)
  | Some part =>
      match json_lacks req "adjustment" with
      | Py.Raise _ => (internal_server_error, db)
      | Py.Ok true => (error "adjustment field is required" 400, db)
      | Py.Ok false =>
          match Py.getitem (json req) "adjustment" with
          | Py.Raise _ => (internal_server_error, db)
          | Py.Ok adjustment =>
              match Py.int int_of_str adjustment with
              | Py.Raise Py.ValueError | Py.Raise Py.TypeError =>
                  (error "adjustment must be an integer" 400, db)
              | Py.Raise _ => (internal_server_error, db)
              | Py.Ok adjustment =>
                  let new_quantity := Part.quantity_in_stock part + adjustment in
                  if new_quantity <? 0 then
                    (error "Adjustment would result in negative quantity" 400, db)
                  else
                    let part := Part.set_quantity_in_stock new_quantity part in
                    let db := set_parts (<[part_id := part]> (parts db)) db in
                    ({| body := Py.PDict [
                          ("message", Py.PStr "Quantity adjusted successfully");
                          ("part", part_schema_dump part);
                          ("adjustment", Py.PInt adjustment);
                          ("previous_quantity",
                             Py.PInt (Part.quantity_in_stock part - adjustment));
                          ("new_quantity", Py.PInt (Part.quantity_in_stock part))
                        ];
                        status := 200 |}, db)
              end
          end
      end
  end.

End Inventory.

(* ===================================================================== *)
(** ** blueprints/service_ticket/routes.py                                *)
(* ===================================================================== *)

Module ServiceTicketRoutes.

(** The foreign key of [TicketPart.installed_by_mechanic_id]. *)
Definition installer_exists (db : DB) (installer : option Z) : bool :=
  match installer with
  | None => true
  | Some m => bool_decide (is_Some (get_mechanic db m))
  end.

(** The tail of [add_part_to_ticket]: the [TicketPart] row, the stock
    decrement, the commit and the response. *)
Definition add_part_to_ticket_commit (db : DB)
    (ticket_id part_id : Z) (part : Part.t) (quantity_used : Z)
    (markup_percentage warranty_months installed_by_mechanic_id : Py.pyval)
    (now : Z) : Response * DB :=
  match Column.numeric markup_percentage,
        Column.opt_int warranty_months,
        Column.opt_int installed_by_mechanic_id with
  | Some markup, Some warranty, Some installer =>
      if installer_exists db installer then
        let ticket_part := {|
          TicketPart.ticket_id := ticket_id;
          TicketPart.part_id := part_id;
          TicketPart.quantity_used := quantity_used;
          TicketPart.unit_cost_cents := Part.current_cost_cents part;
          TicketPart.markup_percentage := TicketPart.Float markup;
          TicketPart.installed_date := now;
          TicketPart.warranty_months := warranty;
          TicketPart.installed_by_mechanic_id := installer |} in
        (* Reduce part quantity in stock *)
        let part :=
          Part.set_quantity_in_stock
            (Part.quantity_in_stock part - quantity_used) part in
        (* db.session.commit(): both rows are written, and the instances
           are read again from their rows when the response is built *)
        let ticket_part := TicketPart.refreshed ticket_part in
        let db :=
          set_ticket_parts (<[(ticket_id, part_id) := ticket_part]> (ticket_parts db))
            (set_parts (<[part_id := part]> (parts db)) db) in
        match TicketPart.get_total_cost ticket_part with
        | Py.Raise _ => (internal_server_error, db)
        | Py.Ok total_cost =>
            ({| body := Py.PDict [
                  ("message", Py.PStr "Part successfully added to ticket");
                  ("ticket_id", Py.PInt ticket_id);
                  ("part_id", Py.PInt part_id);
                  ("part_name", Py.PStr (Part.name part));
                  ("quantity_used", Py.PInt quantity_used);
                  ("unit_cost_cents", Py.PInt (Part.current_cost_cents part));
                  ("total_cost", Py.PFloat total_cost);
                  ("remaining_stock", Py.PInt (Part.quantity_in_stock part))
                ];
                status := 200 |}, db)
        end
      else (Column.integrity_error, db)
  | _, _, _ => (Column.data_error, db)
  end.

(** POST /service_tickets/<ticket_id>/parts/<part_id> *)
Definition add_part_to_ticket `{External} (db : DB) (ticket_id part_id : Z)
    (req : Request) : Response * DB :=
  match service_tickets db !! ticket_id with
  | None => (error "Service ticket not found" 404, db)
  | Some ticket =>
  match parts db !! part_id with
  | None => (error "Part not found" 404, db)
  | Some part =>
  match ticket_parts db !! (ticket_id, part_id) with
  | Some existing => (error "Part is already added to this ticket" 400, db)
  | None =>
  match json_lacks req "quantity_used" with
  | Py.Raise _ => (internal_server_error, db)
  | Py.Ok true => (error "quantity_used is required" 400, db)
  | Py.Ok false =>
  match Py.getitem (json req) "quantity_used" with
  | Py.Raise _ => (internal_server_error, db)
  | Py.Ok quantity_used =>
  match Py.int int_of_str quantity_used with
  | Py.Raise Py.ValueError | Py.Raise Py.TypeError =>
      (error "quantity_used must be a positive integer" 400, db)
  | Py.Raise _ => (internal_server_error, db)
  | Py.Ok quantity_used =>
      if quantity_used <=? 0 then
        (error "quantity_used must be positive" 400, db)
      else if Part.quantity_in_stock part <? quantity_used then
        ({| body := Py.PDict [
              ("error", Py.PStr "Insufficient parts in stock");
              ("requested", Py.PInt quantity_used);
              ("available", Py.PInt (Part.quantity_in_stock part))
            ];
            status := 400 |}, db)
      else
        match Py.get (json req) "markup_percentage" (Py.PFloat (Py.float_of_Z 30)),
              Py.get (json req) "warranty_months" Py.PNone,
              Py.get (json req) "installed_by_mechanic_id" Py.PNone with
        | Py.Ok markup_percentage, Py.Ok warranty_months,
          Py.Ok installed_by_mechanic_id =>
            if Py.truthy installed_by_mechanic_id then
              match Column.opt_int installed_by_mechanic_id with
              | Some (Some m) =>
                  match get_mechanic db m with
                  | None =>
                      (error ("Mechanic " +:+ Column.key_text installed_by_mechanic_id
                             +:+ " not found") 404, db)
                  | Some mechanic =>
                      add_part_to_ticket_commit db ticket_id part_id part
                        quantity_used markup_percentage warranty_months
                        installed_by_mechanic_id (utcnow req)
                  end
              | _ => (Column.data_error, db)
              end
            else
              add_part_to_ticket_commit db ticket_id part_id part
                quantity_used markup_percentage warranty_months
                installed_by_mechanic_id (utcnow req)
        | _, _, _ => (internal_server_error, db)
        end
  end end end end end end.

End ServiceTicketRoutes.

Module ServiceTicketEdit.

(** The local variables of the two loops of [edit_ticket_mechanics]:
    the junction table as the session sees it, and the three lists of
    the response. *)
Record locals := {
  table : gmap (Z * Z) TicketMechanic.t;
  added_mechanics : list Z;
  removed_mechanics : list Z;
  errors : list string;
}.

(** One iteration of [for mechanic_id in remove_ids]. *)
Definition remove_step (ticket_id : Z) (st : locals) (mechanic_id : Z) : locals :=
  match table st !! (ticket_id, mechanic_id) with
  | Some ticket_mechanic =>
      {| table := delete (ticket_id, mechanic_id) (table st);
         added_mechanics := added_mechanics st;
         removed_mechanics := removed_mechanics st ++ [mechanic_id];
         errors := errors st |}
  | None =>
      {| table := table st;
         added_mechanics := added_mechanics st;
         removed_mechanics := removed_mechanics st;
         errors := errors st ++
           ["Mechanic " +:+ pretty mechanic_id +:+ " is not assigned to this ticket"] |}
  end.

(** One iteration of [for mechanic_id in add_ids]. *)
Definition add_step (db : DB) (ticket_id : Z) (role : string)
    (minutes_worked : Z) (st : locals) (mechanic_id : Z) : locals :=
  match get_mechanic db mechanic_id with
  | None =>
      {| table := table st;
         added_mechanics := added_mechanics st;
         removed_mechanics := removed_mechanics st;
         errors := errors st ++
           ["Mechanic " +:+ pretty mechanic_id +:+ " does not exist"] |}
  | Some mechanic =>
      match table st !! (ticket_id, mechanic_id) with
      | Some existing =>
          {| table := table st;
             added_mechanics := added_mechanics st;
             removed_mechanics := removed_mechanics st;
             errors := errors st ++
               ["Mechanic " +:+ pretty mechanic_id +:+
                " is already assigned to this ticket"] |}
      | None =>
          let new_ticket_mechanic := {|
            TicketMechanic.ticket_id := ticket_id;
            TicketMechanic.mechanic_id := mechanic_id;
            TicketMechanic.role := role;
            TicketMechanic.minutes_worked := minutes_worked |} in
          {| table := <[(ticket_id, mechanic_id) := new_ticket_mechanic]> (table st);
             added_mechanics := added_mechanics st ++ [mechanic_id];
             removed_mechanics := removed_mechanics st;
             errors := errors st |}
      end
  end.

Definition remove_loop (ticket_id : Z) (remove_ids : list Z) (st : locals) : locals :=
  foldl (remove_step ticket_id) st remove_ids.

Definition add_loop (db : DB) (ticket_id : Z) (role : string)
    (minutes_worked : Z) (add_ids : list Z) (st : locals) : locals :=
  foldl (add_step db ticket_id role minutes_worked) st add_ids.

Definition ids (l : list Z) : Py.pyval := Py.PList (Py.PInt <$> l).

Definition response (ticket_id : Z) (st : locals) : Response :=
  let response := [
    ("message", Py.PStr "Ticket mechanics updated successfully");
    ("ticket_id", Py.PInt ticket_id);
    ("added_mechanics", ids (added_mechanics st));
    ("removed_mechanics", ids (removed_mechanics st))
  ] in
  {| body := Py.PDict
       (match errors st with
        | [] => response
        | _ => response ++ [("errors", Py.PList (Py.PStr <$> errors st))]
        end);
     status := 200 |}.

(** PUT /service_tickets/<ticket_id>/edit *)
Definition edit_ticket_mechanics `{External} (db : DB) (ticket_id : Z)
    (req : Request) : Response * DB :=
  match service_tickets db !! ticket_id with
  | None => (error "Service ticket not found." 404, db)
  | Some ticket =>
      if negb (Py.truthy (json req)) then
        (error "No JSON data provided" 400, db)
      else
        match EditTicketMechanicsSchema.load (json req) with
        | inr messages => ({| body := Py.PDict messages; status := 400 |}, db)
        | inl data =>
            let add_ids := default [] (EditTicketMechanicsSchema.add_ids data) in
            let remove_ids := default [] (EditTicketMechanicsSchema.remove_ids data) in
            let role := default "Technician" (EditTicketMechanicsSchema.role data) in
            let minutes_worked :=
              default 0 (EditTicketMechanicsSchema.minutes_worked data) in
            let st := {| table := ticket_mechanics db;
                         added_mechanics := [];
                         removed_mechanics := [];
                         errors := [] |} in
            (* Remove mechanics from the ticket *)
            let st := remove_loop ticket_id remove_ids st in
            (* Add mechanics to the ticket *)
            let st := add_loop db ticket_id role minutes_worked add_ids st in
            (response ticket_id st, set_ticket_mechanics (table st) db)
        end
  end.

End ServiceTicketEdit.

(* ===================================================================== *)
(** ** blueprints/customer                                                *)
(* ===================================================================== *)

(** customer/customerSchemas.py: the auto-schemas of [Customer] (without
    [password_hash]) and of [Vehicle] (with its foreign key).  A column
    that is not nullable and has no default is required; a string column
    carries the length of its type. *)
Module CustomerSchema.
Import Marshmallow.

Definition declared : list string :=
  ["customer_id"; "first_name"; "last_name"; "email"; "phone"; "address";
   "city"; "state"; "postal_code"; "created_at"].

(** The messages of [customer_schema.load(v)]; empty when it loads. *)
Definition validate `{External} (v : Py.pyval) : messages :=
  match v with
  | Py.PDict d =>
      (errs "customer_id" (optional Int "customer_id" d)
       ++ errs "first_name" (required (StrMax 255) "first_name" d)
       ++ errs "last_name" (required (StrMax 255) "last_name" d)
       ++ errs "email" (required (StrMax 255) "email" d)
       ++ errs "phone" (required (StrMax 50) "phone" d)
       ++ errs "address" (optional_none (StrMax 255) "address" d)
       ++ errs "city" (optional_none (StrMax 100) "city" d)
       ++ errs "state" (optional_none (StrMax 50) "state" d)
       ++ errs "postal_code" (optional_none (StrMax 20) "postal_code" d)
       ++ errs "created_at" (optional DateTime "created_at" d)
       ++ unknown declared d)%list
  | _ => invalid_input_type
  end.

(** [customer_schema.dump(customer)] *)
Definition dump (c : Customer.t) : Py.pyval :=
  Py.PDict [
    ("customer_id", Py.PInt (Customer.customer_id c));
    ("first_name", Py.PStr (Customer.first_name c));
    ("last_name", Py.PStr (Customer.last_name c));
    ("email", Py.PStr (Customer.email c));
    ("phone", Py.PStr (Customer.phone c));
    ("address", Column.opt_str (Customer.address c));
    ("city", Column.opt_str (Customer.city c));
    ("state", Column.opt_str (Customer.state c));
    ("postal_code", Column.opt_str (Customer.postal_code c));
    ("created_at", Py.PInt (Customer.created_at c))
  ].
End CustomerSchema.

Module VehicleSchema.
Import Marshmallow.

Record data := {
  vehicle_id : option Z;
  customer_id : Z;
  vin : string;
  make : string;
  model : string;
  year : Z;
  color : string;
}.

Definition declared : list string :=
  ["vehicle_id"; "customer_id"; "vin"; "make"; "model"; "year"; "color"].

Definition load `{External} (d : Py.dict) : data + messages :=
  let vehicle_id := optional Int "vehicle_id" d in
  let customer_id := required Int "customer_id" d in
  let vin := required (StrMax 100) "vin" d in
  let make := required (StrMax 100) "make" d in
  let model := required (StrMax 100) "model" d in
  let year := required Int "year" d in
  let color := required (StrMax 50) "color" d in
  let u := unknown declared d in
  match vehicle_id, customer_id, vin, make, model, year, color, u with
  | inl vehicle_id, inl customer_id, inl vin, inl make, inl model,
    inl year, inl color, [] =>
      inl {| vehicle_id := vehicle_id; customer_id := customer_id;
             vin := vin; make := make; model := model; year := year;
             color := color |}
  | _, _, _, _, _, _, _, _ =>
      inr (errs "vehicle_id" vehicle_id ++ errs "customer_id" customer_id
           ++ errs "vin" vin ++ errs "make" make ++ errs "model" model
           ++ errs "year" year ++ errs "color" color ++ u)%list
  end.

(** [vehicle_schema.dump(vehicle)] *)
Definition dump (v : Vehicle.t) : Py.pyval :=
  Py.PDict [
    ("vehicle_id", Py.PInt (Vehicle.vehicle_id v));
    ("customer_id", Py.PInt (Vehicle.customer_id v));
    ("vin", Py.PStr (Vehicle.vin v));
    ("make", Py.PStr (Vehicle.make v));
    ("model", Py.PStr (Vehicle.model v));
    ("year", Py.PInt (Vehicle.year v));
    ("color", Py.PStr (Vehicle.color v))
  ].
End VehicleSchema.

Module CustomerRoutes.

Definition text (v : Py.pyval) : option string :=
  match v with
  | Py.PStr s => Some s
  | _ => None
  end.

Definition opt_text (v : Py.pyval) : option (option string) :=
  match v with
  | Py.PStr s => Some (Some s)
  | Py.PNone => Some None
  | _ => None
  end.

(** [if hasattr(customer, key): setattr(customer, key, value)] on a
    column of [Customer]; [None] when the value is not of the column's
    type.  After [customer_schema.load] has accepted the body, every key
    is one of these columns. *)
Definition setattr `{External} (c : Customer.t) (key : string)
    (value : Py.pyval) : option Customer.t :=
  let '(Customer.Build_t id fn ln em ph ad ci st pc pw cr) := c in
  if String.eqb key "customer_id" then
    match value with
    | Py.PInt n => Some (Customer.Build_t n fn ln em ph ad ci st pc pw cr)
    | _ => None
    end
  else if String.eqb key "first_name" then
    s ← text value; Some (Customer.Build_t id s ln em ph ad ci st pc pw cr)
  else if String.eqb key "last_name" then
    s ← text value; Some (Customer.Build_t id fn s em ph ad ci st pc pw cr)
  else if String.eqb key "email" then
    s ← text value; Some (Customer.Build_t id fn ln s ph ad ci st pc pw cr)
  else if String.eqb key "phone" then
    s ← text value; Some (Customer.Build_t id fn ln em s ad ci st pc pw cr)
  else if String.eqb key "address" then
    s ← opt_text value; Some (Customer.Build_t id fn ln em ph s ci st pc pw cr)
  else if String.eqb key "city" then
    s ← opt_text value; Some (Customer.Build_t id fn ln em ph ad s st pc pw cr)
  else if String.eqb key "state" then
    s ← opt_text value; Some (Customer.Build_t id fn ln em ph ad ci s pc pw cr)
  else if String.eqb key "postal_code" then
    s ← opt_text value; Some (Customer.Build_t id fn ln em ph ad ci st s pw cr)
  else if String.eqb key "created_at" then
    s ← text value; t ← datetime_of_str s;
    Some (Customer.Build_t id fn ln em ph ad ci st pc pw t)
  else Some c.

(** [for key, value in request.json.items(): ...] *)
Definition setattrs `{External} (c : Customer.t) (items : Py.dict)
    : option Customer.t :=
  foldl (fun (o : option Customer.t) (kv : string * Py.pyval) =>
           c ← o; setattr c kv.1 kv.2) (Some c) items.

(** Some row of a table refers to the customer. *)
Definition referenced (db : DB) (customer_id : Z) : bool :=
  existsb (fun kv : Z * Vehicle.t => Vehicle.customer_id kv.2 =? customer_id)
          (map_to_list (vehicles db))
  || existsb (fun kv : Z * ServiceTicket.t =>
                ServiceTicket.customer_id kv.2 =? customer_id)
             (map_to_list (service_tickets db)).

(** The commit of an updated customer row: the unique index on the
    email, the primary key and the foreign keys that point to it. *)
Definition commit_update (db : DB) (customer_id : Z) (c : Customer.t)
    : option DB :=
  if existsb (fun kc : Z * Customer.t =>
                negb (kc.1 =? customer_id)
                && String.eqb (Customer.email kc.2) (Customer.email c))
             (map_to_list (customers db))
  then None
  else if Customer.customer_id c =? customer_id then
    Some (set_customers (<[customer_id := c]> (customers db)) db)
  else if bool_decide (is_Some (customers db !! Customer.customer_id c))
          || referenced db customer_id
  then None
  else
    Some (set_customers
            (<[Customer.customer_id c := c]> (delete customer_id (customers db)))
            db).

(** PUT /customers/<customer_id> *)
Definition update_customer `{External} (db : DB) (customer_id : Z)
    (req : Request) : Response * DB :=
  (* Get current user from JWT token (convert from string to int) *)
  match int_of_str (jwt_identity req) with
  | None => (internal_server_error, db)
  | Some current_user_id =>
      (* Users can only update their own information *)
      if negb (current_user_id =? customer_id) then
        (error "Unauthorized to update this customer" 403, db)
      else
        match customers db !! customer_id with
        | None => (error "Customer not found." 404, db)
        | Some customer =>
            if negb (Py.truthy (json req)) then
              (error "No JSON data provided" 400, db)
            else
              match CustomerSchema.validate (json req), json req with
              | [], Py.PDict items =>
                  match setattrs customer items with
                  | None => (Column.data_error, db)
                  | Some customer =>
                      match commit_update db customer_id customer with
                      | None => (Column.integrity_error, db)
                      | Some db =>
                          ({| body := CustomerSchema.dump customer;
                              status := 200 |}, db)
                      end
                  end
              | messages, _ =>
                  ({| body := Py.PDict messages; status := 400 |}, db)
              end
        end
  end.

(** DELETE /customers/<customer_id> *)
Definition delete_customer `{External} (db : DB) (customer_id : Z)
    (req : Request) : Response * DB :=
  match int_of_str (jwt_identity req) with
  | None => (internal_server_error, db)
  | Some current_user_id =>
      (* Users can only delete their own account *)
      if negb (current_user_id =? customer_id) then
        (error "Unauthorized to delete this customer" 403, db)
      else
        match customers db !! customer_id with
        | None => (error "Customer not found." 404, db)
        | Some customer =>
            if referenced db customer_id then (Column.integrity_error, db)
            else
              ({| body := Py.PDict [
                    ("message",
                     Py.PStr ("Customer id: " +:+ pretty customer_id +:+
                              ", successfully deleted."))
                  ];
                  status := 200 |},
               set_customers (delete customer_id (customers db)) db)
        end
  end.

(** POST /customers/<customer_id>/vehicles *)
Definition create_vehicle `{External} (db : DB) (customer_id : Z)
    (req : Request) : Response * DB :=
  match int_of_str (jwt_identity req) with
  | None => (internal_server_error, db)
  | Some current_user_id =>
      (* Users can only add vehicles to their own account *)
      if negb (current_user_id =? customer_id) then
        (error "Unauthorized to add vehicles for this customer" 403, db)
      else
        (* Verify customer exists *)
        match customers db !! customer_id with
        | None => (error "Customer not found" 404, db)
        | Some customer =>
            if negb (Py.truthy (json req)) then
              (error "No JSON data provided" 400, db)
            else
              (* Add customer_id to the request data before validation *)
              match Py.dict_of (json req) with
              | Py.Raise _ => (internal_server_error, db)
              | Py.Ok request_data =>
                  let request_data :=
                    Py.dict_set "customer_id" (Py.PInt customer_id) request_data in
                  match VehicleSchema.load request_data with
                  | inr messages =>
                      ({| body := Py.PDict messages; status := 400 |}, db)
                  | inl vehicle_data =>
                      (* Check if VIN already exists *)
                      if existsb
                           (fun kv : Z * Vehicle.t =>
                              String.eqb (Vehicle.vin kv.2)
                                         (VehicleSchema.vin vehicle_data))
                           (map_to_list (vehicles db))
                      then (error "VIN already exists in the system" 400, db)
                      else
                        (* a key that is not in the table, when the body
                           gives none; which one the counter of the backend
                           picks is not modelled *)
                        let vehicle_id :=
                          default (fresh (dom (vehicles db)))
                                  (VehicleSchema.vehicle_id vehicle_data) in
                        if bool_decide (is_Some (vehicles db !! vehicle_id))
                        then (Column.integrity_error, db)
                        else
                          let new_vehicle := {|
                            Vehicle.vehicle_id := vehicle_id;
                            Vehicle.customer_id :=
                              VehicleSchema.customer_id vehicle_data;
                            Vehicle.vin := VehicleSchema.vin vehicle_data;
                            Vehicle.make := VehicleSchema.make vehicle_data;
                            Vehicle.model := VehicleSchema.model vehicle_data;
                            Vehicle.year := VehicleSchema.year vehicle_data;
                            Vehicle.color := VehicleSchema.color vehicle_data |} in
                          ({| body := VehicleSchema.dump new_vehicle;
                              status := 201 |},
                           set_vehicles (<[vehicle_id := new_vehicle]> (vehicles db)) db)
                  end
              end
        end
  end.

End CustomerRoutes.

(* ===================================================================== *)
(** ** blueprints/auth/routes.py                                          *)
(* ===================================================================== *)

Module AuthRoutes.

Definition invalid_credentials : Response :=
  error "Invalid email or password" 401.

(** [select(Customer).where(Customer.email == email)], [.first()] *)
Definition customer_by_email (db : DB) (email : string) : option Customer.t :=
  snd <$> List.find
    (fun kc : Z * Customer.t => String.eqb (Customer.email kc.2) email)
    (map_to_list (customers db)).

(** POST /auth/login *)
Definition login `{External} (db : DB) (req : Request) : Response * DB :=
  if negb (Py.truthy (json req)) then
    (error "No JSON data provided" 400, db)
  else
    match LoginSchema.load (json req) with
    | inr messages => ({| body := Py.PDict messages; status := 400 |}, db)
    | inl login_data =>
        (* Find customer by email *)
        match customer_by_email db (LoginSchema.email login_data) with
        | None => (invalid_credentials, db)
        | Some customer =>
            (* Check if customer exists and password is correct *)
            if negb (Customer.check_password customer
                       (LoginSchema.password login_data))
            then (invalid_credentials, db)
            else
              let access_token :=
                create_access_token (pretty (Customer.customer_id customer))
                                    (utcnow req) in
              ({| body := Py.PDict [
                    ("message", Py.PStr "Login successful");
                    ("access_token", Py.PStr access_token);
                    ("customer", CustomerSchema.dump customer)
                  ];
                  status := 200 |}, db)
        end
    end.

End AuthRoutes.

(* ===================================================================== *)
(** ** blueprints/mechanic/routes.py                                      *)
(* ===================================================================== *)

Module MechanicRoutes.

(** [request.args.get(key, dflt)] *)
Definition args_get (req : Request) (key dflt : string) : string :=
  default dflt
    (snd <$> List.find (fun kv : string * string => String.eqb kv.1 key)
                       (args req)).





End MechanicRoutes.

(* ===================================================================== *)
(** ** blueprints/inventory/routes.py: reading and deleting parts          *)
(* ===================================================================== *)

Module InventoryParts.

(** GET /inventory/<part_id> *)
Definition get_part (db : DB) (part_id : Z) : Response * DB :=
  match parts db !! part_id with
  | Some part =>
      ({| body := Inventory.part_schema_dump part; status := 200 |}, db)
  | None => (error "Part not found" 404, db)
  end.

(** [request.args.get(key)] *)
Definition args_find (req : Request) (key : string) : option string :=
  snd <$> List.find (fun kv : string * string => String.eqb kv.1 key)
                    (args req).

(** [select(Part)], with [.where(Part.category == category)] when the
    query string has a category that is not empty, then
    [.scalars().all()]. *)
Definition select_parts (db : DB) (category : option string) : list Part.t :=
  let rows := (map_to_list (parts db)).*2 in
  match category with
  | Some c =>
      if negb (String.eqb c "") then
        List.filter (fun part => String.eqb (Part.category part) c) rows
      else rows
  | None => rows
  end.

(** The list [parts] of [get_parts] before it is dumped. *)
Definition listed_parts (db : DB) (req : Request) : list Part.t :=
  let low_stock :=
    String.eqb (Py.lower (MechanicRoutes.args_get req "low_stock" "false"))
               "true" in
  let category := args_find req "category" in
  let parts := select_parts db category in
  (* Filter for low stock items if requested *)
  if low_stock then List.filter Part.needs_reorder parts else parts.

(** GET /inventory *)
Definition get_parts (db : DB) (req : Request) : Response * DB :=
  ({| body := Py.PList (Inventory.part_schema_dump <$> listed_parts db req);
      status := 200 |}, db).

(** [part.usage_history] is not empty: some row of [ticket_parts] has the
    part in its key. *)
Definition used (db : DB) (part_id : Z) : bool :=
  existsb (fun kv : Z * Z * TicketPart.t => kv.1.2 =? part_id)
          (map_to_list (ticket_parts db)).

(** DELETE /inventory/<part_id>.  The rows of [usage_history] have the
    part's key in their own primary key, which the unit of work cannot
    blank out: the flush raises and nothing is deleted. *)
Definition delete_part (db : DB) (part_id : Z) : Response * DB :=
  match parts db !! part_id with
  | None => (error "Part not found" 404, db)
  | Some part =>
      if used db part_id then (internal_server_error, db)
      else
        ({| body := Py.PDict [
              ("message",
               Py.PStr ("Part id: " +:+ pretty part_id +:+
                        ", successfully deleted"))
            ];
            status := 200 |},
         set_parts (delete part_id (parts db)) db)
  end.

End InventoryParts.

(* ===================================================================== *)
(** ** blueprints/service_ticket/routes.py: one mechanic at a time         *)
(* ===================================================================== *)

Module ServiceTicketAssign.

(** The column [TicketMechanic.role], for a role that is a text.  What a
    backend makes of another JSON value in a [String] column differs from
    one backend to the other (SQLite stores the text of a number) and is
    not modelled: the model refuses it. *)
Definition role_column (v : Py.pyval) : option string :=
  match v with
  | Py.PStr s => Some s
  | _ => None
  end.

(** The column [TicketMechanic.minutes_worked]. *)
Definition minutes_column (v : Py.pyval) : option Z :=
  match v with
  | Py.PInt n => Some n
  | Py.PBool b => Some (if b then 1 else 0)
  | _ => None
  end.

(** [role] and [minutes_worked] as the handler reads them: the defaults,
    replaced by what the body says when the body is true as a Python
    value. *)
Definition role_and_minutes (req : Request) : Py.result (Py.pyval * Py.pyval) :=
  if Py.truthy (json req) then
    Py.bind (Py.get (json req) "role" (Py.PStr "Technician")) (fun role =>
    Py.bind (Py.get (json req) "minutes_worked" (Py.PInt 0)) (fun minutes_worked =>
    Py.Ok (role, minutes_worked)))
  else Py.Ok (Py.PStr "Technician", Py.PInt 0).

(** PUT /service_tickets/<ticket_id>/assign-mechanic/<mechanic_id> *)
Definition assign_mechanic (db : DB) (ticket_id mechanic_id : Z)
    (req : Request) : Response * DB :=
  (* Verify service ticket exists *)
  match service_tickets db !! ticket_id with
  | None => (error "Service ticket not found." 404, db)
  | Some ticket =>
  (* Verify mechanic exists *)
  match get_mechanic db mechanic_id with
  | None => (error "Mechanic not found." 404, db)
  | Some mechanic =>
  (* Check if mechanic is already assigned to this ticket *)
  match ticket_mechanics db !! (ticket_id, mechanic_id) with
  | Some existing =>
      (error "Mechanic is already assigned to this ticket." 400, db)
  | None =>
  match role_and_minutes req with
  | Py.Raise _ => (internal_server_error, db)
  | Py.Ok (role, minutes_worked) =>
      match role_column role, minutes_column minutes_worked with
      | Some r, Some m =>
          let new_assignment := {|
            TicketMechanic.ticket_id := ticket_id;
            TicketMechanic.mechanic_id := mechanic_id;
            TicketMechanic.role := r;
            TicketMechanic.minutes_worked := m |} in
          ({| body := Py.PDict [
                ("message",
                 Py.PStr ("Mechanic " +:+ pretty mechanic_id +:+
                          " successfully assigned to ticket " +:+
                          pretty ticket_id));
                ("ticket_id", Py.PInt ticket_id);
                ("mechanic_id", Py.PInt mechanic_id);
                ("role", role);
                ("minutes_worked", minutes_worked)
              ];
              status := 200 |},
           set_ticket_mechanics
             (<[(ticket_id, mechanic_id) := new_assignment]> (ticket_mechanics db))
             db)
      | _, _ =>
          match role, minutes_worked with
          | Py.PNone, _ | _, Py.PNone => (Column.integrity_error, db)
          | _, _ => (Column.data_error, db)
          end
      end
  end end end end.

(** PUT /service_tickets/<ticket_id>/remove-mechanic/<mechanic_id> *)
Definition remove_mechanic (db : DB) (ticket_id mechanic_id : Z)
    : Response * DB :=
  (* Verify service ticket exists *)
  match service_tickets db !! ticket_id with
  | None => (error "Service ticket not found." 404, db)
  | Some ticket =>
  (* Verify mechanic exists *)
  match get_mechanic db mechanic_id with
  | None => (error "Mechanic not found." 404, db)
  | Some mechanic =>
  (* Find the TicketMechanic relationship *)
  match ticket_mechanics db !! (ticket_id, mechanic_id) with
  | None => (error "Mechanic is not assigned to this ticket." 404, db)
  | Some ticket_mechanic =>
      ({| body := Py.PDict [
            ("message",
             Py.PStr ("Mechanic " +:+ pretty mechanic_id +:+
                      " successfully removed from ticket " +:+
                      pretty ticket_id));
            ("ticket_id", Py.PInt ticket_id);
            ("mechanic_id", Py.PInt mechanic_id)
          ];
          status := 200 |},
       set_ticket_mechanics (delete (ticket_id, mechanic_id) (ticket_mechanics db))
                            db)
  end end end.

End ServiceTicketAssign.

(* ===================================================================== *)
(** ** blueprints/customer/routes.py: reading customers, and vehicles      *)
(* ===================================================================== *)

Module CustomerListing.

(** [request.args.get(key, dflt, type=int)]: the default when the key is
    missing and when its text is not an integer. *)
Definition args_get_int `{External} (req : Request) (key : string) (dflt : Z)
    : Z :=
  match InventoryParts.args_find req key with
  | Some s => default dflt (int_of_str s)
  | None => dflt
  end.

(** The rows of [select(Customer)], in the order of the table. *)
Definition rows (db : DB) : list Customer.t := (map_to_list (customers db)).*2.

(** [select(Customer).limit(per_page).offset(offset)] with
    [offset = (page - 1) * per_page]. *)
Definition page_rows (db : DB) (page per_page : Z) : list Customer.t :=
  let offset := (page - 1) * per_page in
  take (Z.to_nat per_page) (drop (Z.to_nat offset) (rows db)).

(** [(total_customers + per_page - 1) // per_page] *)
Definition total_pages (db : DB) (per_page : Z) : Z :=
  (Z.of_nat (length (rows db)) + per_page - 1) / per_page.

(** GET /customers *)
Definition get_customers `{External} (db : DB) (req : Request)
    : Response * DB :=
  let page := args_get_int req "page" 1 in
  let per_page := args_get_int req "per_page" 10 in
  (* Validate pagination parameters *)
  if page <? 1 then (error "Page must be >= 1" 400, db)
  else if (per_page <? 1) || (100 <? per_page) then
    (error "Per page must be between 1 and 100" 400, db)
  else
    let customers := page_rows db page per_page in
    let total_customers := Z.of_nat (length (rows db)) in
    let total_pages := total_pages db per_page in
    ({| body := Py.PDict [
          ("customers", Py.PList (CustomerSchema.dump <$> customers));
          ("pagination", Py.PDict [
             ("page", Py.PInt page);
             ("per_page", Py.PInt per_page);
             ("total_customers", Py.PInt total_customers);
             ("total_pages", Py.PInt total_pages);
             ("has_next", Py.PBool (page <? total_pages));
             ("has_prev", Py.PBool (1 <? page))
           ])
        ];
        status := 200 |}, db).

(** GET /customers/<customer_id> *)
Definition get_customer (db : DB) (customer_id : Z) : Response * DB :=
  match customers db !! customer_id with
  | Some customer =>
      ({| body := CustomerSchema.dump customer; status := 200 |}, db)
  | None => (error "Customer not found." 404, db)
  end.

End CustomerListing.

Module VehicleRoutes.

(** [select(Vehicle).where(Vehicle.customer_id == customer_id)] *)
Definition vehicles_of (db : DB) (customer_id : Z) : list Vehicle.t :=
  List.filter (fun v => Vehicle.customer_id v =? customer_id)
              (map_to_list (vehicles db)).*2.

(** GET /customers/<customer_id>/vehicles *)
Definition get_customer_vehicles (db : DB) (customer_id : Z) : Response * DB :=
  (* Verify customer exists *)
  match customers db !! customer_id with
  | None => (error "Customer not found" 404, db)
  | Some customer =>
      ({| body := Py.PList (VehicleSchema.dump <$> vehicles_of db customer_id);
          status := 200 |}, db)
  end.

(** GET /customers/<customer_id>/vehicles/<vehicle_id> *)
Definition get_vehicle (db : DB) (customer_id vehicle_id : Z) : Response * DB :=
  match vehicles db !! vehicle_id with
  | None => (error "Vehicle not found" 404, db)
  | Some vehicle =>
      (* Verify vehicle belongs to this customer *)
      if negb (Vehicle.customer_id vehicle =? customer_id) then
        (error "Vehicle does not belong to this customer" 400, db)
      else ({| body := VehicleSchema.dump vehicle; status := 200 |}, db)
  end.

(** Some service ticket is about the vehicle. *)
Definition has_tickets (db : DB) (vehicle_id : Z) : bool :=
  existsb (fun kv : Z * ServiceTicket.t =>
             ServiceTicket.vehicle_id kv.2 =? vehicle_id)
          (map_to_list (service_tickets db)).

(** [for key, value in vehicle_data.items(): if key != 'customer_id':
    setattr(vehicle, key, value)] *)
Definition setattrs (vehicle : Vehicle.t) (vehicle_data : VehicleSchema.data)
    : Vehicle.t :=
  {| Vehicle.vehicle_id :=
       default (Vehicle.vehicle_id vehicle)
               (VehicleSchema.vehicle_id vehicle_data);
     Vehicle.customer_id := Vehicle.customer_id vehicle;
     Vehicle.vin := VehicleSchema.vin vehicle_data;
     Vehicle.make := VehicleSchema.make vehicle_data;
     Vehicle.model := VehicleSchema.model vehicle_data;
     Vehicle.year := VehicleSchema.year vehicle_data;
     Vehicle.color := VehicleSchema.color vehicle_data |}.

(** The commit of an updated vehicle row: the primary key and the foreign
    keys of the service tickets that point to it. *)
Definition commit_update (db : DB) (vehicle_id : Z) (v : Vehicle.t)
    : option DB :=
  if Vehicle.vehicle_id v =? vehicle_id then
    Some (set_vehicles (<[vehicle_id := v]> (vehicles db)) db)
  else if bool_decide (is_Some (vehicles db !! Vehicle.vehicle_id v))
          || has_tickets db vehicle_id
  then None
  else
    Some (set_vehicles
            (<[Vehicle.vehicle_id v := v]> (delete vehicle_id (vehicles db)))
            db).

(** PUT /customers/<customer_id>/vehicles/<vehicle_id> *)
Definition update_vehicle `{External} (db : DB) (customer_id vehicle_id : Z)
    (req : Request) : Response * DB :=
  match int_of_str (jwt_identity req) with
  | None => (internal_server_error, db)
  | Some current_user_id =>
      (* Users can only update vehicles on their own account *)
      if negb (current_user_id =? customer_id) then
        (error "Unauthorized to update vehicles for this customer" 403, db)
      else
        match vehicles db !! vehicle_id with
        | None => (error "Vehicle not found" 404, db)
        | Some vehicle =>
            (* Verify vehicle belongs to this customer *)
            if negb (Vehicle.customer_id vehicle =? customer_id) then
              (error "Vehicle does not belong to this customer" 400, db)
            else if negb (Py.truthy (json req)) then
              (error "No JSON data provided" 400, db)
            else
              (* Add customer_id to the request data before validation *)
              match Py.dict_of (json req) with
              | Py.Raise _ => (internal_server_error, db)
              | Py.Ok request_data =>
                  let request_data :=
                    Py.dict_set "customer_id" (Py.PInt customer_id) request_data in
                  match VehicleSchema.load request_data with
                  | inr messages =>
                      ({| body := Py.PDict messages; status := 400 |}, db)
                  | inl vehicle_data =>
                      (* If VIN is being changed, check if new VIN already exists *)
                      if negb (String.eqb (VehicleSchema.vin vehicle_data)
                                          (Vehicle.vin vehicle))
                         && existsb
                              (fun kv : Z * Vehicle.t =>
                                 String.eqb (Vehicle.vin kv.2)
                                            (VehicleSchema.vin vehicle_data))
                              (map_to_list (vehicles db))
                      then (error "VIN already exists in the system" 400, db)
                      else
                        let vehicle := setattrs vehicle vehicle_data in
                        match commit_update db vehicle_id vehicle with
                        | None => (Column.integrity_error, db)
                        | Some db =>
                            ({| body := VehicleSchema.dump vehicle;
                                status := 200 |}, db)
                        end
                  end
              end
        end
  end.

(** DELETE /customers/<customer_id>/vehicles/<vehicle_id> *)
Definition delete_vehicle `{External} (db : DB) (customer_id vehicle_id : Z)
    (req : Request) : Response * DB :=
  match int_of_str (jwt_identity req) with
  | None => (internal_server_error, db)
  | Some current_user_id =>
      (* Users can only delete vehicles from their own account *)
      if negb (current_user_id =? customer_id) then
        (error "Unauthorized to delete vehicles for this customer" 403, db)
      else
        match vehicles db !! vehicle_id with
        | None => (error "Vehicle not found" 404, db)
        | Some vehicle =>
            (* Verify vehicle belongs to this customer *)
            if negb (Vehicle.customer_id vehicle =? customer_id) then
              (error "Vehicle does not belong to this customer" 400, db)
            else if has_tickets db vehicle_id then (Column.integrity_error, db)
            else
              ({| body := Py.PDict [
                    ("message",
                     Py.PStr ("Vehicle id: " +:+ pretty vehicle_id +:+
                              ", successfully deleted."))
                  ];
                  status := 200 |},
               set_vehicles (delete vehicle_id (vehicles db)) db)
        end
  end.

End VehicleRoutes.

(* ===================================================================== *)
(** ** blueprints/auth: registration and the current user                  *)
(* ===================================================================== *)

(** werkzeug's [generate_password_hash(password)] draws a salt; the salt
    that a call draws is an argument of the model. *)
Class PasswordHash := {
  generate_password_hash : string -> string -> string;
}.

(** auth/authSchemas.py *)
Module RegisterSchema.
Import Marshmallow.

(** [fields.String(validate=validate.Length(min=lo, max=hi))] *)
Definition StrBetween (lo hi : nat) (v : Py.pyval) : string + Py.pyval :=
  match Str v with
  | inl s =>
      if (lo <=? String.length s)%nat && (String.length s <=? hi)%nat then inl s
      else inr (msg ("Length must be between " +:+ pretty lo +:+ " and "
                     +:+ pretty hi +:+ "."))
  | inr m => inr m
  end.

(** [fields.String(validate=validate.Length(min=lo))] *)
Definition StrMin (lo : nat) (v : Py.pyval) : string + Py.pyval :=
  match Str v with
  | inl s =>
      if (lo <=? String.length s)%nat then inl s
      else inr (msg ("Shorter than minimum length " +:+ pretty lo +:+ "."))
  | inr m => inr m
  end.

(** The [pre_load] hook: [postal_code] as text when it is an [int]. *)
Definition convert_postal_code (data : Py.pyval) : Py.result Py.pyval :=
  Py.bind (Py.contains "postal_code" data) (fun present =>
    if present then
      Py.bind (Py.getitem data "postal_code") (fun postal_code =>
        match data, postal_code with
        | Py.PDict d, Py.PInt n =>
            Py.Ok (Py.PDict (Py.dict_set "postal_code" (Py.PStr (pretty n)) d))
        | Py.PDict d, Py.PBool b =>
            Py.Ok (Py.PDict (Py.dict_set "postal_code"
                               (Py.PStr (if b then "True" else "False")) d))
        | _, _ => Py.Ok data
        end)
    else Py.Ok data).

Record data := {
  first_name : string;
  last_name : string;
  email : string;
  phone : string;
  address : option (option string);
  city : option (option string);
  state : option (option string);
  postal_code : option (option string);
  password : string;
}.

Definition declared : list string :=
  ["first_name"; "last_name"; "email"; "phone"; "address"; "city"; "state";
   "postal_code"; "password"].

(** The fields of [register_schema.load], after the hook. *)
Definition load_fields `{External} (v : Py.pyval) : data + messages :=
  match v with
  | Py.PDict d =>
      let first_name := required (StrBetween 1 255) "first_name" d in
      let last_name := required (StrBetween 1 255) "last_name" d in
      let email := required Email "email" d in
      let phone := required (StrBetween 1 50) "phone" d in
      let address := optional_none (StrBetween 1 255) "address" d in
      let city := optional_none (StrBetween 1 100) "city" d in
      let state := optional_none (StrBetween 1 50) "state" d in
      let postal_code := optional_none (StrBetween 1 20) "postal_code" d in
      let password := required (StrMin 6) "password" d in
      let u := unknown declared d in
      match first_name, last_name, email, phone, address, city, state,
            postal_code, password, u with
      | inl first_name, inl last_name, inl email, inl phone, inl address,
        inl city, inl state, inl postal_code, inl password, [] =>
          inl {| first_name := first_name; last_name := last_name;
                 email := email; phone := phone; address := address;
                 city := city; state := state; postal_code := postal_code;
                 password := password |}
      | _, _, _, _, _, _, _, _, _, _ =>
          inr (errs "first_name" first_name ++ errs "last_name" last_name
               ++ errs "email" email ++ errs "phone" phone
               ++ errs "address" address ++ errs "city" city
               ++ errs "state" state ++ errs "postal_code" postal_code
               ++ errs "password" password ++ u)%list
      end
  | _ => inr invalid_input_type
  end.

End RegisterSchema.

Module AuthRegister.

(** The constructor of [Customer] on the loaded data: an optional field
    that the data does not have is [None]. *)
Definition column (o : option (option string)) : option string :=
  default None o.

(** [Customer(...)] on the loaded data without the password, then
    [set_password(password)]; the key and [created_at] are those that the
    commit gives the row (a key that is not in the table; which one the
    counter of the backend picks is not modelled). *)
Definition new_customer `{PasswordHash} (db : DB)
    (customer_data : RegisterSchema.data) (salt : string) (now : Z)
    : Customer.t :=
  let password := RegisterSchema.password customer_data in
  {| Customer.customer_id := fresh (dom (customers db));
     Customer.first_name := RegisterSchema.first_name customer_data;
     Customer.last_name := RegisterSchema.last_name customer_data;
     Customer.email := RegisterSchema.email customer_data;
     Customer.phone := RegisterSchema.phone customer_data;
     Customer.address := column (RegisterSchema.address customer_data);
     Customer.city := column (RegisterSchema.city customer_data);
     Customer.state := column (RegisterSchema.state customer_data);
     Customer.postal_code := column (RegisterSchema.postal_code customer_data);
     Customer.password_hash := generate_password_hash password salt;
     Customer.created_at := now |}.

(** POST /auth/register *)
Definition register `{External} `{PasswordHash} (db : DB) (req : Request)
    (salt : string) : Response * DB :=
  if negb (Py.truthy (json req)) then
    (error "No JSON data provided" 400, db)
  else
    match RegisterSchema.convert_postal_code (json req) with
    | Py.Raise _ => (internal_server_error, db)
    | Py.Ok data =>
        match RegisterSchema.load_fields data with
        | inr messages => ({| body := Py.PDict messages; status := 400 |}, db)
        | inl customer_data =>
            (* Check if email already exists *)
            match AuthRoutes.customer_by_email db
                    (RegisterSchema.email customer_data) with
            | Some existing_customer =>
                (error "Email already registered" 400, db)
            | None =>
                let new_customer :=
                  new_customer db customer_data salt (utcnow req) in
                let db :=
                  set_customers
                    (<[Customer.customer_id new_customer := new_customer]>
                       (customers db)) db in
                let access_token :=
                  create_access_token
                    (pretty (Customer.customer_id new_customer)) (utcnow req) in
                ({| body := Py.PDict [
                      ("message", Py.PStr "Customer registered successfully");
                      ("access_token", Py.PStr access_token);
                      ("customer", CustomerSchema.dump new_customer)
                    ];
                    status := 201 |}, db)
            end
        end
    end.

(** GET /auth/me *)
Definition get_current_user `{External} (db : DB) (req : Request)
    : Response * DB :=
  match int_of_str (jwt_identity req) with
  | None => (internal_server_error, db)
  | Some current_customer_id =>
      match customers db !! current_customer_id with
      | None => (error "Customer not found" 404, db)
      | Some customer =>
          ({| body := CustomerSchema.dump customer; status := 200 |}, db)
      end
  end.

End AuthRegister.

(* ===================================================================== *)
(** ** blueprints/mechanic: creating, reading and updating a mechanic      *)
(* ===================================================================== *)

(** What the mechanic schema takes from outside the repository. *)
Class Formats := {
  (** [str(v)], as an f-string formats a value *)
  str_of : Py.pyval -> string;
  (** marshmallow's [fields.Bool] on a text: its truthy and falsy words *)
  bool_of_text : string -> option bool;
}.

(** mechanic/mechanicSchemas.py *)
Module MechanicSchema.
Import Marshmallow.

(** [data.pop(key, None)] *)
Definition dict_pop (k : string) (d : Py.dict) : Py.dict :=
  List.filter (fun kv : string * Py.pyval => negb (String.eqb kv.1 k)) d.

(** The [pre_load] hook: a [first_name] and a [last_name] become the
    [full_name]. *)
Definition combine_names `{Formats} (data : Py.pyval) : Py.result Py.pyval :=
  Py.bind (Py.contains "first_name" data) (fun has_first =>
  Py.bind (if has_first then Py.contains "last_name" data else Py.Ok false)
    (fun has_both =>
  if has_both then
    Py.bind (Py.getitem data "first_name") (fun first_name =>
    Py.bind (Py.getitem data "last_name") (fun last_name =>
      match data with
      | Py.PDict d =>
          let d := Py.dict_set "full_name"
                     (Py.PStr (str_of first_name +:+ " " +:+ str_of last_name)) d in
          (* Remove first_name and last_name to avoid validation errors *)
          Py.Ok (Py.PDict (dict_pop "last_name" (dict_pop "first_name" d)))
      | _ => Py.Raise Py.TypeError
      end))
  else Py.Ok data)).

(** [fields.Bool()] *)
Definition Bool `{Formats} (v : Py.pyval) : bool + Py.pyval :=
  let invalid := inr (msg "Not a valid boolean.") in
  match v with
  | Py.PBool b => inl b
  | Py.PInt 1 => inl true
  | Py.PInt 0 => inl false
  | Py.PFloat (S754_zero _) => inl false
  | Py.PFloat f =>
      match SFcompare f (Py.float_of_Z 1) with
      | Some Eq => inl true
      | _ => invalid
      end
  | Py.PStr s =>
      match bool_of_text s with
      | Some b => inl b
      | None => invalid
      end
  | _ => invalid
  end.

Record data := {
  full_name : string;
  email : string;
  phone : string;
  salary : Z;
  is_active : bool;
}.

Definition declared : list string :=
  ["full_name"; "email"; "phone"; "salary"; "is_active"].

(** The fields of [mechanic_schema.load], after the hook. *)
Definition load_fields `{External} `{Formats} (v : Py.pyval)
    : data + messages :=
  match v with
  | Py.PDict d =>
      let full_name := required Str "full_name" d in
      let email := required Email "email" d in
      let phone := required Str "phone" d in
      let salary := required Int "salary" d in
      let is_active := load_default Bool true "is_active" d in
      let u := unknown declared d in
      match full_name, email, phone, salary, is_active, u with
      | inl full_name, inl email, inl phone, inl salary, inl is_active, [] =>
          inl {| full_name := full_name; email := email; phone := phone;
                 salary := salary; is_active := is_active |}
      | _, _, _, _, _, _ =>
          inr (errs "full_name" full_name ++ errs "email" email
               ++ errs "phone" phone ++ errs "salary" salary
               ++ errs "is_active" is_active ++ u)%list
      end
  | _ => inr invalid_input_type
  end.

(** [mechanic_schema.load(v)] *)
Definition load `{External} `{Formats} (v : Py.pyval)
    : Py.result (data + messages) :=
  Py.bind (combine_names v) (fun v => Py.Ok (load_fields v)).

(** [mechanic_schema.dump(mechanic)] *)
Definition dump (m : Mechanic.t) : Py.dict :=
  [("mechanic_id", Py.PInt (Mechanic.mechanic_id m));
   ("full_name", Py.PStr (Mechanic.full_name m));
   ("email", Py.PStr (Mechanic.email m));
   ("phone", Py.PStr (Mechanic.phone m));
   ("salary", Py.PInt (Mechanic.salary m));
   ("is_active", Py.PBool (Mechanic.is_active m))].

End MechanicSchema.

Definition set_mechanics (x : list Mechanic.t) (db : DB) : DB :=
  {| customers := customers db; vehicles := vehicles db; mechanics := x;
     parts := parts db; service_tickets := service_tickets db;
     ticket_mechanics := ticket_mechanics db; ticket_parts := ticket_parts db |}.

Module MechanicCrud.

(** [select(Mechanic).where(Mechanic.email == email)], [.first()] *)
Definition mechanic_by_email (db : DB) (email : string) : option Mechanic.t :=
  List.find (fun m => String.eqb (Mechanic.email m) email) (mechanics db).

(** The key that the table gives a new row: one that is not in the
    table.  Which one the counter of the backend picks is not modelled. *)
Definition new_mechanic_id (db : DB) : Z :=
  fresh (list_to_set (Mechanic.mechanic_id <$> mechanics db) : gset Z).

(** POST /mechanics *)
Definition create_mechanic `{External} `{Formats} (db : DB) (req : Request)
    : Response * DB :=
  if negb (Py.truthy (json req)) then
    (error "No JSON data provided" 400, db)
  else
    match MechanicSchema.load (json req) with
    | Py.Raise _ => (internal_server_error, db)
    | Py.Ok (inr messages) =>
        ({| body := Py.PDict messages; status := 400 |}, db)
    | Py.Ok (inl mechanic_data) =>
        (* Check if email already exists *)
        match mechanic_by_email db (MechanicSchema.email mechanic_data) with
        | Some existing_mechanic =>
            (error "Email already associated with a mechanic." 400, db)
        | None =>
            let new_mechanic := {|
              Mechanic.mechanic_id := new_mechanic_id db;
              Mechanic.full_name := MechanicSchema.full_name mechanic_data;
              Mechanic.email := MechanicSchema.email mechanic_data;
              Mechanic.phone := MechanicSchema.phone mechanic_data;
              Mechanic.salary := MechanicSchema.salary mechanic_data;
              Mechanic.is_active := MechanicSchema.is_active mechanic_data |} in
            ({| body := Py.PDict (MechanicSchema.dump new_mechanic);
                status := 201 |},
             set_mechanics (mechanics db ++ [new_mechanic]) db)
        end
    end.

(** [for key, value in mechanic_data.items(): setattr(mechanic, key, value)] *)
Definition setattrs (mechanic : Mechanic.t) (mechanic_data : MechanicSchema.data)
    : Mechanic.t :=
  {| Mechanic.mechanic_id := Mechanic.mechanic_id mechanic;
     Mechanic.full_name := MechanicSchema.full_name mechanic_data;
     Mechanic.email := MechanicSchema.email mechanic_data;
     Mechanic.phone := MechanicSchema.phone mechanic_data;
     Mechanic.salary := MechanicSchema.salary mechanic_data;
     Mechanic.is_active := MechanicSchema.is_active mechanic_data |}.

(** The row that [db.session.get(Mechanic, mechanic_id)] returned, with
    its new values, at its place in the table. *)
Fixpoint replace_mechanic (mechanic_id : Z) (m : Mechanic.t)
    (l : list Mechanic.t) : list Mechanic.t :=
  match l with
  | [] => []
  | x :: r =>
      if Mechanic.mechanic_id x =? mechanic_id then m :: r
      else x :: replace_mechanic mechanic_id m r
  end.

(** The unique index on [Mechanic.email]: another row has the email. *)
Definition email_taken (db : DB) (mechanic_id : Z) (email : string) : bool :=
  existsb (fun x => negb (Mechanic.mechanic_id x =? mechanic_id)
                    && String.eqb (Mechanic.email x) email)
          (mechanics db).

(** PUT /mechanics/<mechanic_id> *)
Definition update_mechanic `{External} `{Formats} (db : DB) (mechanic_id : Z)
    (req : Request) : Response * DB :=
  match get_mechanic db mechanic_id with
  | None => (error "Mechanic not found." 404, db)
  | Some mechanic =>
      if negb (Py.truthy (json req)) then
        (error "No JSON data provided" 400, db)
      else
        match MechanicSchema.load (json req) with
        | Py.Raise _ => (internal_server_error, db)
        | Py.Ok (inr messages) =>
            ({| body := Py.PDict messages; status := 400 |}, db)
        | Py.Ok (inl mechanic_data) =>
            (* Update mechanic attributes *)
            let mechanic := setattrs mechanic mechanic_data in
            if email_taken db mechanic_id (Mechanic.email mechanic) then
              (Column.integrity_error, db)
            else
              ({| body := Py.PDict (MechanicSchema.dump mechanic);
                  status := 200 |},
               set_mechanics (replace_mechanic mechanic_id mechanic (mechanics db))
                             db)
        end
  end.

(** GET /mechanics/<mechanic_id>; [db.session.get(Mechanic, mechanic_id)]
    is the store's [get_mechanic]. *)
Definition get_mechanic (db : DB) (mechanic_id : Z) : Response * DB :=
  match get_mechanic db mechanic_id with
  | Some mechanic =>
      (* Include ticket count in single mechanic response *)
      ({| body := Py.PDict (MechanicSchema.dump mechanic
                            ++ [("ticket_count", Py.PInt (ticket_count db mechanic))]);
          status := 200 |}, db)
  | None => (error "Mechanic not found." 404, db)
  end.

End MechanicCrud.

(* ===================================================================== *)
(** ** Sequences of stock operations                                       *)
(* ===================================================================== *)

(** The two operations that change [Part.quantity_in_stock]. *)
Inductive stock_call : Type :=
  | Adjust (part_id : Z) (req : Request)
  | Attach (ticket_id part_id : Z) (req : Request).

Definition stock_step `{External} (db : DB) (c : stock_call) : Response * DB :=
  match c with
  | Adjust part_id req => Inventory.adjust_part_quantity db part_id req
  | Attach ticket_id part_id req =>
      ServiceTicketRoutes.add_part_to_ticket db ticket_id part_id req
  end.

(** The store after a sequence of calls, each on the store the one before
    it left. *)
Definition stock_run `{External} (db : DB) (calls : list stock_call) : DB :=
  foldl (fun db c => (stock_step db c).2) db calls.

(* ===================================================================== *)
(** ** The vocabulary of the statements                                   *)
(* ===================================================================== *)

(** The ranges of the columns.  The tables of the store hold unbounded
    integers and texts, and a commit of the model always succeeds; a
    backend refuses a value that is outside its column (SQLite an integer
    of more than 64 bits; MySQL and PostgreSQL one of more than 32, and a
    text longer than its [String(n)]), the handler raises and nothing is
    written.  That refusal is not modelled: statements about what a handler
    writes are made for values that fit.  A signed 32-bit integer fits the
    [Integer] column of each of the three backends; the length of a text
    is counted in bytes, which is no less than its length in characters. *)
Definition fits_integer (n : Z) : Prop :=
  - 2 ^ 31 ≤ n < 2 ^ 31.

Definition fits_string (n : nat) (s : string) : Prop :=
  (String.length s ≤ n)%nat.

Ltac fits :=
  simpl; repeat (apply List.Forall_cons || apply List.Forall_nil);
  unfold fits_integer, fits_string; simpl; lia.

(** The store after a part was attached: the junction row and the stock
    decrement, together. *)
Definition attached (db : DB) (part : Part.t) (tp : TicketPart.t) : DB :=
  set_ticket_parts
    (<[(TicketPart.ticket_id tp, TicketPart.part_id tp) := tp]> (ticket_parts db))
    (set_parts
       (<[TicketPart.part_id tp :=
            Part.set_quantity_in_stock
              (Part.quantity_in_stock part - TicketPart.quantity_used tp) part]>
          (parts db))
       db).

Definition not_assigned (mechanic_id : Z) : string :=
  "Mechanic " +:+ pretty mechanic_id +:+ " is not assigned to this ticket".

Definition does_not_exist (mechanic_id : Z) : string :=
  "Mechanic " +:+ pretty mechanic_id +:+ " does not exist".

Definition already_assigned (mechanic_id : Z) : string :=
  "Mechanic " +:+ pretty mechanic_id +:+ " is already assigned to this ticket".

Definition new_row (ticket_id : Z) (role : string) (minutes_worked : Z)
    (mechanic_id : Z) : TicketMechanic.t :=
  {| TicketMechanic.ticket_id := ticket_id;
     TicketMechanic.mechanic_id := mechanic_id;
     TicketMechanic.role := role;
     TicketMechanic.minutes_worked := minutes_worked |}.

Definition edit_start (db : DB) : ServiceTicketEdit.locals :=
  {| ServiceTicketEdit.table := ticket_mechanics db;
     ServiceTicketEdit.added_mechanics := [];
     ServiceTicketEdit.removed_mechanics := [];
     ServiceTicketEdit.errors := [] |}.

Definition forbidden_update : Response :=
  error "Unauthorized to update this customer" 403.

Definition forbidden_delete : Response :=
  error "Unauthorized to delete this customer" 403.

Definition customer_not_found : Response :=
  error "Customer not found." 404.




(** The part a stock call is about. *)
Definition stock_call_part (c : stock_call) : Z :=
  match c with
  | Adjust part_id _ => part_id
  | Attach _ part_id _ => part_id
  end.

(* ===================================================================== *)
(** ** The vocabulary of the further statements                            *)
(* ===================================================================== *)

(** The body of the request asks for the adjustment [delta]. *)
Definition adjusts `{External} (req : Request) (delta : Z) : Prop :=
  ∃ d v, json req = Py.PDict d
         ∧ Py.dict_lookup "adjustment" d = Some v
         ∧ Py.int int_of_str v = Py.Ok delta.

(** Every row of [ticket_parts] is about a part of the store. *)
Definition ticket_parts_have_parts (db : DB) : Prop :=
  ∀ ticket_id part_id tp,
    ticket_parts db !! (ticket_id, part_id) = Some tp →
    is_Some (parts db !! part_id).

(** A body of [assign_mechanic] with the two fields it reads. *)
Definition assign_body (role : string) (minutes_worked : Z) : Py.pyval :=
  Py.PDict [("role", Py.PStr role); ("minutes_worked", Py.PInt minutes_worked)].

(** The body of [edit_ticket_mechanics] that adds one mechanic. *)
Definition edit_add_body (mechanic_id : Z) (role : string) (minutes_worked : Z)
    : Py.pyval :=
  Py.PDict [("add_ids", Py.PList [Py.PInt mechanic_id]);
            ("role", Py.PStr role);
            ("minutes_worked", Py.PInt minutes_worked)].

(** The body of [edit_ticket_mechanics] that removes one mechanic. *)
Definition edit_remove_body (mechanic_id : Z) : Py.pyval :=
  Py.PDict [("remove_ids", Py.PList [Py.PInt mechanic_id])].

(** A request with a body and nothing else. *)
Definition request_of (body : Py.pyval) : Request :=
  {| json := body; args := []; jwt_identity := ""; utcnow := 0 |}.

(** A request of a GET route, whose handler reads the query string and
    not [json]. *)
Definition query_of (args : list (string * string)) : Request :=
  {| json := Py.PNone; args := args; jwt_identity := ""; utcnow := 0 |}.

(** The units of a part that the rows of [ticket_parts] record as used. *)
Definition units_on_tickets (db : DB) (part_id : Z) : Z :=
  foldr Z.add 0
    ((fun kv : Z * Z * TicketPart.t =>
        if kv.1.2 =? part_id then TicketPart.quantity_used kv.2 else 0)
     <$> map_to_list (ticket_parts db)).

(** No two vehicles of the store have the same VIN. *)
Definition vins_unique (db : DB) : Prop :=
  ∀ i j vi vj,
    vehicles db !! i = Some vi → vehicles db !! j = Some vj →
    Vehicle.vin vi = Vehicle.vin vj → i = j.

(** Every service ticket is about a vehicle of the store. *)
Definition tickets_have_vehicles (db : DB) : Prop :=
  ∀ ticket_id ticket,
    service_tickets db !! ticket_id = Some ticket →
    is_Some (vehicles db !! ServiceTicket.vehicle_id ticket).

(** No two customers of the store have the same email. *)
Definition emails_unique (db : DB) : Prop :=
  ∀ i j ci cj,
    customers db !! i = Some ci → customers db !! j = Some cj →
    Customer.email ci = Customer.email cj → i = j.

(** An offset that the store takes in a query: one that is outside the
    signed 64-bit integers is refused and the handler raises, which the
    model leaves out. *)
Definition fits_offset (n : Z) : Prop :=
  0 ≤ n < 2 ^ 63.

(** The rows of all the pages from the first to page [n], in order. *)
Definition pages_upto (db : DB) (per_page : Z) (n : nat) : list Customer.t :=
  concat ((fun i : nat => CustomerListing.page_rows db (Z.of_nat i + 1) per_page)
          <$> seq 0 n).

(** The body of a login. *)
Definition login_body (email password : string) : Py.pyval :=
  Py.PDict [("email", Py.PStr email); ("password", Py.PStr password)].

(** A request of the holder of the token of a customer. *)
Definition request_as (customer_id : Z) : Request :=
  {| json := Py.PNone; args := []; jwt_identity := pretty customer_id;
     utcnow := 0 |}.

(** The body of a mechanic with the two names of the older interface. *)
Definition legacy_mechanic_body (first_name last_name email phone : string)
    (salary : Z) : Py.pyval :=
  Py.PDict [("first_name", Py.PStr first_name); ("last_name", Py.PStr last_name);
            ("email", Py.PStr email); ("phone", Py.PStr phone);
            ("salary", Py.PInt salary)].

(** The body of a mechanic with the one name of the schema. *)
Definition mechanic_body (full_name email phone : string) (salary : Z)
    : Py.pyval :=
  Py.PDict [("full_name", Py.PStr full_name);
            ("email", Py.PStr email); ("phone", Py.PStr phone);
            ("salary", Py.PInt salary)].

(** No two mechanics of the store have the same key, and no two have the
    same email. *)
Definition mechanics_unique (db : DB) : Prop :=
  NoDup (Mechanic.mechanic_id <$> mechanics db)
  ∧ NoDup (Mechanic.email <$> mechanics db).

(* ===================================================================== *)
(** ** Example data                                                       *)
(* ===================================================================== *)

(** A choice of the outside functions for the examples: the one integer
    text "5", every text an email, the timestamp grammar empty, a password
    hash that is the password and a token that is the identity. *)
Definition example_external : External := {|
  int_of_str := fun s => if String.eqb s "5" then Some 5 else None;
  is_email := fun _ => true;
  datetime_of_str := fun _ => None;
  check_password_hash := String.eqb;
  create_access_token := fun identity _ => identity;
|}.

Definition example_part : Part.t := {|
  Part.part_id := 1;
  Part.part_number := "OIL-Filter-002";
  Part.name := "Premium Oil Filter";
  Part.description := None;
  Part.category := "Engine";
  Part.manufacturer := None;
  Part.current_cost_cents := 1000;
  Part.quantity_in_stock := 25;
  Part.reorder_level := 10;
  Part.supplier := None;
|}.

Definition example_ticket : ServiceTicket.t := {|
  ServiceTicket.ticket_id := 1;
  ServiceTicket.vehicle_id := 1;
  ServiceTicket.customer_id := 1;
  ServiceTicket.status := "open";
  ServiceTicket.opened_at := 0;
  ServiceTicket.closed_at := None;
  ServiceTicket.problem_description := "Brake replacement";
  ServiceTicket.odometer_miles := 42000;
  ServiceTicket.priority := 3;
|}.

Definition example_mechanic (id : Z) (active : bool) : Mechanic.t := {|
  Mechanic.mechanic_id := id;
  Mechanic.full_name := "John Smith";
  Mechanic.email := "john.smith@mechanicshop.com";
  Mechanic.phone := "555-0101";
  Mechanic.salary := 65000;
  Mechanic.is_active := active;
|}.

Definition example_db : DB := {|
  customers := ∅;
  vehicles := ∅;
  mechanics := [example_mechanic 5 true];
  parts := {[ 1 := example_part ]};
  service_tickets := {[ 1 := example_ticket ]};
  ticket_mechanics := ∅;
  ticket_parts := ∅;
|}.

Definition example_request (body : Py.pyval) : Request := {|
  json := body;
  args := [];
  jwt_identity := "5";
  utcnow := 0;
|}.

Definition example_ticket_part : TicketPart.t := {|
  TicketPart.ticket_id := 1;
  TicketPart.part_id := 1;
  TicketPart.quantity_used := 2;
  TicketPart.unit_cost_cents := 1000;
  TicketPart.markup_percentage := TicketPart.Float (Py.float_of_Z 30);
  TicketPart.installed_date := 0;
  TicketPart.warranty_months := None;
  TicketPart.installed_by_mechanic_id := None;
|}.

Definition example_edit_body : Py.pyval :=
  Py.PDict [("add_ids", Py.PList [Py.PInt 5]);
            ("remove_ids", Py.PList [Py.PInt 999])].

Definition example_edit_data : EditTicketMechanicsSchema.data := {|
  EditTicketMechanicsSchema.add_ids := Some [5];
  EditTicketMechanicsSchema.remove_ids := Some [999];
  EditTicketMechanicsSchema.role := Some "Technician";
  EditTicketMechanicsSchema.minutes_worked := Some 0;
|}.

Definition example_db_assigned : DB :=
  set_ticket_mechanics
    {[ (1, 5) := {| TicketMechanic.ticket_id := 1;
                    TicketMechanic.mechanic_id := 5;
                    TicketMechanic.role := "Lead";
                    TicketMechanic.minutes_worked := 30 |} ]}
    example_db.

Definition example_swap_body : Py.pyval :=
  Py.PDict [("add_ids", Py.PList [Py.PInt 5]);
            ("remove_ids", Py.PList [Py.PInt 5]);
            ("role", Py.PStr "Inspector");
            ("minutes_worked", Py.PInt 15)].

Definition example_swap_data : EditTicketMechanicsSchema.data := {|
  EditTicketMechanicsSchema.add_ids := Some [5];
  EditTicketMechanicsSchema.remove_ids := Some [5];
  EditTicketMechanicsSchema.role := Some "Inspector";
  EditTicketMechanicsSchema.minutes_worked := Some 15;
|}.

Definition example_customer : Customer.t := {|
  Customer.customer_id := 5;
  Customer.first_name := "Alice";
  Customer.last_name := "Johnson";
  Customer.email := "alice.johnson@email.com";
  Customer.phone := "555-1001";
  Customer.address := None;
  Customer.city := None;
  Customer.state := None;
  Customer.postal_code := None;
  Customer.password_hash := "password123";
  Customer.created_at := 0;
|}.

Definition example_db_customer : DB :=
  set_customers {[ 5 := example_customer ]} example_db.

Definition example_login (email password : string) : Request :=
  example_request (Py.PDict [("email", Py.PStr email);
                             ("password", Py.PStr password)]).

Definition example_vehicle_body : Py.pyval :=
  Py.PDict [("customer_id", Py.PInt 999);
            ("vin", Py.PStr "1HGCM82633A004352");
            ("make", Py.PStr "Honda");
            ("model", Py.PStr "Accord");
            ("year", Py.PInt 2003);
            ("color", Py.PStr "Silver")].



(* ===================================================================== *)
(** ** Further example data                                                *)
(* ===================================================================== *)

(** As [example_external], with the integer texts of the digits. *)
Definition example_external_ids : External := {|
  int_of_str := fun s =>
    List.find (fun n : Z => String.eqb (pretty n) s) [0; 1; 2; 3; 4; 5; 6; 7; 8; 9];
  is_email := fun _ => true;
  datetime_of_str := fun _ => None;
  check_password_hash := String.eqb;
  create_access_token := fun identity _ => identity;
|}.

(** A hash that is the password, which [example_external] checks. *)
Definition example_password_hash : PasswordHash := {|
  generate_password_hash := fun password _ => password;
|}.

(** [str] of a text is the text; the words [true] and [false]. *)
Definition example_formats : Formats := {|
  str_of := fun v => match v with Py.PStr s => s | _ => "" end;
  bool_of_text := fun s =>
    if String.eqb s "true" then Some true
    else if String.eqb s "false" then Some false
    else None;
|}.

Definition example_adjust (delta : Z) : Request :=
  example_request (Py.PDict [("adjustment", Py.PInt delta)]).

(** The example store after two units of part 1 went to ticket 1. *)
Definition example_db_attached : DB :=
  set_ticket_parts {[ (1, 1) := TicketPart.refreshed example_ticket_part ]}
    example_db.

Definition example_vehicle : Vehicle.t := {|
  Vehicle.vehicle_id := 1;
  Vehicle.customer_id := 5;
  Vehicle.vin := "JH4KA8260MC000000";
  Vehicle.make := "Acura";
  Vehicle.model := "Legend";
  Vehicle.year := 1991;
  Vehicle.color := "White";
|}.

(** Customer 5 with vehicle 1, which ticket 1 is about. *)
Definition example_db_vehicle : DB :=
  set_vehicles {[ 1 := example_vehicle ]} example_db_customer.

Definition example_vehicle_update : Py.pyval :=
  Py.PDict [("vin", Py.PStr "JH4KA8260MC000000");
            ("make", Py.PStr "Acura");
            ("model", Py.PStr "Legend");
            ("year", Py.PInt 1991);
            ("color", Py.PStr "Red")].

Definition example_register_body : Py.pyval :=
  Py.PDict [("first_name", Py.PStr "Bob");
            ("last_name", Py.PStr "Brown");
            ("email", Py.PStr "bob.brown@email.com");
            ("phone", Py.PStr "555-1002");
            ("postal_code", Py.PInt 80201);
            ("password", Py.PStr "secret1")].

Definition example_customer_update : Py.pyval :=
  Py.PDict [("first_name", Py.PStr "Alice");
            ("last_name", Py.PStr "Smith");
            ("email", Py.PStr "alice.smith@email.com");
            ("phone", Py.PStr "555-1001")].

(** The example store with its mechanic inactive. *)
Definition example_db_inactive : DB :=
  set_mechanics [example_mechanic 5 false] example_db.

(** Five customers, for the pages of the listing. *)
Definition example_customer_at (customer_id : Z) : Customer.t := {|
  Customer.customer_id := customer_id;
  Customer.first_name := "Alice";
  Customer.last_name := "Johnson";
  Customer.email := "alice" +:+ pretty customer_id +:+ "@email.com";
  Customer.phone := "555-1001";
  Customer.address := None;
  Customer.city := None;
  Customer.state := None;
  Customer.postal_code := None;
  Customer.password_hash := "password123";
  Customer.created_at := 0;
|}.

Definition example_db_customers : DB :=
  set_customers
    (list_to_map ((fun id => (id, example_customer_at id)) <$> [1; 2; 3; 4; 5]))
    example_db.

(* ===================================================================== *)
(** ** Stock arithmetic                                                   *)
(* ===================================================================== *)

Section Stock.
Context `{External}.

Lemma json_lacks_key (req : Request) (d : Py.dict) (k : string) (v : Py.pyval) :
  json req = Py.PDict d →
  Py.dict_lookup k d = Some v →
  json_lacks req k = Py.Ok false ∧ Py.getitem (json req) k = Py.Ok v.
Proof.
  intros Hj Hk. unfold json_lacks. rewrite Hj. simpl.
  destruct d as [|kv d']; [discriminate|]. simpl Py.truthy. cbn [negb].
  rewrite Hk. split; [|reflexivity].
  rewrite bool_decide_eq_true_2 by eauto. reflexivity.
Qed.

(** C3.  [adjust_part_quantity] computes the stock plus the adjustment;
    a negative sum is refused with the would-go-negative error and the
    store is unchanged; otherwise the sum, when it fits the [Integer]
    column, becomes the part's [quantity_in_stock], for a positive as for
    a negative adjustment. *)
Theorem adjust_part_quantity_sets_sum (db : DB) (part_id : Z) (p : Part.t)
    (req : Request) (d : Py.dict) (adjustment : Py.pyval) (delta : Z) :
  parts db !! part_id = Some p →
  json req = Py.PDict d →
  Py.dict_lookup "adjustment" d = Some adjustment →
  Py.int int_of_str adjustment = Py.Ok delta →
  let new_quantity := Part.quantity_in_stock p + delta in
  let result := Inventory.adjust_part_quantity db part_id req in
  (new_quantity < 0 →
     result = (error "Adjustment would result in negative quantity" 400, db))
  ∧ (0 ≤ new_quantity →
     fits_integer new_quantity →
     status result.1 = 200
     ∧ result.2 =
         set_parts (<[part_id := Part.set_quantity_in_stock new_quantity p]>
                      (parts db)) db
     ∧ (Part.quantity_in_stock <$> parts result.2 !! part_id) = Some new_quantity).
Proof.
  intros Hp Hj Hk Hi new_quantity result.
  destruct (json_lacks_key req d "adjustment" adjustment Hj Hk) as [Hl Hg].
  subst result. unfold Inventory.adjust_part_quantity.
  rewrite Hp, Hl, Hg, Hi. fold new_quantity.
  split; [intros Hq|intros Hq _].
  - apply Z.ltb_lt in Hq. rewrite Hq. reflexivity.
  - apply Z.ltb_ge in Hq. rewrite Hq. simpl.
    split; [reflexivity|]. split; [reflexivity|].
    rewrite lookup_insert_eq. reflexivity.
Qed.

End Stock.

Lemma adjust_part_quantity_sets_sum_witness :
  let req := example_request (Py.PDict [("adjustment", Py.PInt (-10))]) in
  status (Inventory.adjust_part_quantity (H := example_external) example_db 1 req).1 = 200
  ∧ (Part.quantity_in_stock <$>
       parts (Inventory.adjust_part_quantity (H := example_external) example_db 1 req).2
         !! 1) = Some 15.
Proof.
  intros req.
  destruct (adjust_part_quantity_sets_sum (H := example_external)
              example_db 1 example_part req
              [("adjustment", Py.PInt (-10))] (Py.PInt (-10)) (-10)
              eq_refl eq_refl eq_refl eq_refl) as [_ Hok].
  destruct (Hok ltac:(vm_compute; discriminate) ltac:(fits))
    as (H1 & _ & H3).
  split; [exact H1 | exact H3].
Defined.

Section Attach.
Context `{External}.

Lemma add_part_to_ticket_commit_cases (db : DB) (ticket_id part_id : Z)
    (part : Part.t) (q : Z) (m w i : Py.pyval) (now : Z) :
  let r := ServiceTicketRoutes.add_part_to_ticket_commit
             db ticket_id part_id part q m w i now in
  (r.2 = db ∧ status r.1 ≠ 200)
  ∨ (∃ tp, TicketPart.ticket_id tp = ticket_id
           ∧ TicketPart.part_id tp = part_id
           ∧ TicketPart.quantity_used tp = q
           ∧ TicketPart.unit_cost_cents tp = Part.current_cost_cents part
           ∧ r.2 = attached db part tp).
Proof.
  intros r. subst r. unfold ServiceTicketRoutes.add_part_to_ticket_commit.
  destruct (Column.numeric m) as [markup|]; [|left; split; [reflexivity|discriminate]].
  destruct (Column.opt_int w) as [warranty|]; [|left; split; [reflexivity|discriminate]].
  destruct (Column.opt_int i) as [installer|]; [|left; split; [reflexivity|discriminate]].
  destruct (ServiceTicketRoutes.installer_exists db installer);
    [|left; split; [reflexivity|discriminate]].
  right.
  match goal with
  | |- context [TicketPart.get_total_cost ?t] => exists t
  end.
  repeat split; destruct (TicketPart.get_total_cost _); reflexivity.
Qed.

(** Every outcome of [add_part_to_ticket]: an error that leaves the store
    as it was, or the junction row together with the stock decrement. *)
Lemma add_part_to_ticket_cases (db : DB) (ticket_id part_id : Z) (req : Request) :
  let r := ServiceTicketRoutes.add_part_to_ticket db ticket_id part_id req in
  (r.2 = db ∧ status r.1 ≠ 200)
  ∨ (∃ part v q tp,
        is_Some (service_tickets db !! ticket_id)
        ∧ parts db !! part_id = Some part
        ∧ ticket_parts db !! (ticket_id, part_id) = None
        ∧ Py.getitem (json req) "quantity_used" = Py.Ok v
        ∧ Py.int int_of_str v = Py.Ok q
        ∧ 0 < q ≤ Part.quantity_in_stock part
        ∧ TicketPart.ticket_id tp = ticket_id
        ∧ TicketPart.part_id tp = part_id
        ∧ TicketPart.quantity_used tp = q
        ∧ TicketPart.unit_cost_cents tp = Part.current_cost_cents part
        ∧ r.2 = attached db part tp).
Proof.
  intros r. subst r. unfold ServiceTicketRoutes.add_part_to_ticket.
  destruct (service_tickets db !! ticket_id) as [ticket|] eqn:Ht;
    [|left; split; [reflexivity|discriminate]].
  destruct (parts db !! part_id) as [part|] eqn:Hp;
    [|left; split; [reflexivity|discriminate]].
  destruct (ticket_parts db !! (ticket_id, part_id)) as [existing|] eqn:He;
    [left; split; [reflexivity|discriminate]|].
  destruct (json_lacks req "quantity_used") as [[|]|];
    try (left; split; [reflexivity|discriminate]).
  destruct (Py.getitem (json req) "quantity_used") as [v|] eqn:Hg;
    [|left; split; [reflexivity|discriminate]].
  destruct (Py.int int_of_str v) as [q|e] eqn:Hi;
    [|destruct e; left; split; (reflexivity || discriminate)].
  destruct (Z.leb_spec q 0) as [Hq|Hq]; [left; split; [reflexivity|discriminate]|].
  destruct (Z.ltb_spec (Part.quantity_in_stock part) q) as [Hs|Hs];
    [left; split; [reflexivity|discriminate]|].
  assert (Hcommit : ∀ m w i now (r := ServiceTicketRoutes.add_part_to_ticket_commit
                                        db ticket_id part_id part q m w i now),
    (r.2 = db ∧ status r.1 ≠ 200)
    ∨ (∃ tp, TicketPart.ticket_id tp = ticket_id
             ∧ TicketPart.part_id tp = part_id
             ∧ TicketPart.quantity_used tp = q
             ∧ TicketPart.unit_cost_cents tp = Part.current_cost_cents part
             ∧ r.2 = attached db part tp))
    by apply add_part_to_ticket_commit_cases.
  assert (Hdone : ∀ m w i now (r := ServiceTicketRoutes.add_part_to_ticket_commit
                                      db ticket_id part_id part q m w i now),
    (r.2 = db ∧ status r.1 ≠ 200)
    ∨ (∃ part0 v0 q0 tp,
        is_Some (Some ticket) ∧ Some part = Some part0
        ∧ (None : option TicketPart.t) = None
        ∧ Py.Ok v = Py.Ok v0 ∧ Py.int int_of_str v0 = Py.Ok q0
        ∧ 0 < q0 ≤ Part.quantity_in_stock part0
        ∧ TicketPart.ticket_id tp = ticket_id
        ∧ TicketPart.part_id tp = part_id
        ∧ TicketPart.quantity_used tp = q0
        ∧ TicketPart.unit_cost_cents tp = Part.current_cost_cents part0
        ∧ r.2 = attached db part0 tp)).
  { intros m w i now r.
    destruct (Hcommit m w i now) as [Hl|(tp & H1 & H2 & H3 & H4 & H5)];
      [left; exact Hl|].
    right. exists part, v, q, tp. repeat split; eauto; lia. }
  destruct (Py.get (json req) "markup_percentage" _) as [m|];
    [|left; split; [reflexivity|discriminate]].
  destruct (Py.get (json req) "warranty_months" _) as [w|];
    [|left; split; [reflexivity|discriminate]].
  destruct (Py.get (json req) "installed_by_mechanic_id" _) as [i|];
    [|left; split; [reflexivity|discriminate]].
  destruct (Py.truthy i); [|apply Hdone].
  destruct (Column.opt_int i) as [[mid|]|];
    try (left; split; [reflexivity|discriminate]).
  destruct (get_mechanic db mid); [apply Hdone|].
  left; split; [reflexivity|discriminate].
Qed.

(** The tail of the handler never answers 200: after the commit the total
    cost is asked of the row as it was read again, and that raises. *)
Lemma add_part_to_ticket_commit_status (db : DB) (ticket_id part_id : Z)
    (part : Part.t) (q : Z) (m w i : Py.pyval) (now : Z) :
  let r := ServiceTicketRoutes.add_part_to_ticket_commit
             db ticket_id part_id part q m w i now in
  status r.1 ≠ 200 ∧ (r.2 = db ∨ status r.1 = 500).
Proof.
  intros r. subst r. unfold ServiceTicketRoutes.add_part_to_ticket_commit.
  destruct (Column.numeric m) as [markup|]; [|split; [discriminate|left; reflexivity]].
  destruct (Column.opt_int w) as [warranty|]; [|split; [discriminate|left; reflexivity]].
  destruct (Column.opt_int i) as [installer|]; [|split; [discriminate|left; reflexivity]].
  destruct (ServiceTicketRoutes.installer_exists db installer);
    [|split; [discriminate|left; reflexivity]].
  unfold TicketPart.get_total_cost, TicketPart.refreshed.
  cbn [TicketPart.quantity_used TicketPart.unit_cost_cents
       TicketPart.markup_percentage].
  destruct (Py.truediv _ _); cbn; (split; [discriminate|right; reflexivity]).
Qed.

Lemma add_part_to_ticket_status (db : DB) (ticket_id part_id : Z) (req : Request) :
  let r := ServiceTicketRoutes.add_part_to_ticket db ticket_id part_id req in
  status r.1 ≠ 200 ∧ (r.2 = db ∨ status r.1 = 500).
Proof.
  intros r. subst r. unfold ServiceTicketRoutes.add_part_to_ticket.
  destruct (service_tickets db !! ticket_id);
    [|split; [discriminate|left; reflexivity]].
  destruct (parts db !! part_id) as [part|];
    [|split; [discriminate|left; reflexivity]].
  destruct (ticket_parts db !! (ticket_id, part_id));
    [split; [discriminate|left; reflexivity]|].
  destruct (json_lacks req "quantity_used") as [[|]|];
    try (split; [discriminate|left; reflexivity]).
  destruct (Py.getitem (json req) "quantity_used") as [v|];
    [|split; [discriminate|left; reflexivity]].
  destruct (Py.int int_of_str v) as [q|e];
    [|destruct e; split; (discriminate || (left; reflexivity))].
  destruct (q <=? 0); [split; [discriminate|left; reflexivity]|].
  destruct (Part.quantity_in_stock part <? q);
    [split; [discriminate|left; reflexivity]|].
  destruct (Py.get (json req) "markup_percentage" _) as [m|];
    [|split; [discriminate|left; reflexivity]].
  destruct (Py.get (json req) "warranty_months" _) as [w|];
    [|split; [discriminate|left; reflexivity]].
  destruct (Py.get (json req) "installed_by_mechanic_id" _) as [i|];
    [|split; [discriminate|left; reflexivity]].
  destruct (Py.truthy i); [|apply add_part_to_ticket_commit_status].
  destruct (Column.opt_int i) as [[mid|]|];
    try (split; [discriminate|left; reflexivity]).
  destruct (get_mechanic db mid); [apply add_part_to_ticket_commit_status|].
  split; [discriminate|left; reflexivity].
Qed.

(** C2.  [add_part_to_ticket] refuses, with the stock and the associations
    as they were, when the pair is already associated, when the quantity
    is not positive and when it exceeds the stock.  A call that passes
    every test writes the one association of the pair, whose
    [unit_cost_cents] is the part's [current_cost_cents], and takes the
    quantity off the part's stock, both in the one commit; it then answers
    500 and not 200, because the response asks the committed row for its
    total cost and the row's [markup_percentage] is a [Decimal].  The last
    part is the body that [test_add_part_to_ticket_success] posts, for
    which that test expects 200. *)
Theorem add_part_to_ticket_commits_then_raises :
  (∀ (db : DB) (ticket_id part_id : Z) (req : Request),
    let r := ServiceTicketRoutes.add_part_to_ticket db ticket_id part_id req in
    status r.1 ≠ 200
    ∧ (is_Some (ticket_parts db !! (ticket_id, part_id)) → r.2 = db)
    ∧ (∀ v q, Py.getitem (json req) "quantity_used" = Py.Ok v →
              Py.int int_of_str v = Py.Ok q → q ≤ 0 → r.2 = db)
    ∧ (∀ v q part, Py.getitem (json req) "quantity_used" = Py.Ok v →
                   Py.int int_of_str v = Py.Ok q →
                   parts db !! part_id = Some part →
                   Part.quantity_in_stock part < q → r.2 = db)
    ∧ (r.2 = db
       ∨ status r.1 = 500
         ∧ ∃ part v q tp,
             parts db !! part_id = Some part
             ∧ ticket_parts db !! (ticket_id, part_id) = None
             ∧ Py.getitem (json req) "quantity_used" = Py.Ok v
             ∧ Py.int int_of_str v = Py.Ok q
             ∧ 0 < q ≤ Part.quantity_in_stock part
             ∧ ticket_parts r.2 = <[(ticket_id, part_id) := tp]> (ticket_parts db)
             ∧ size (ticket_parts r.2) = S (size (ticket_parts db))
             ∧ TicketPart.unit_cost_cents tp = Part.current_cost_cents part
             ∧ TicketPart.quantity_used tp = q
             ∧ parts r.2 =
                 <[part_id := Part.set_quantity_in_stock
                                (Part.quantity_in_stock part - q) part]> (parts db)
             ∧ r.2 = attached db part tp))
  ∧ (let r := ServiceTicketRoutes.add_part_to_ticket example_db 1 1
                (example_request
                   (Py.PDict [("quantity_used", Py.PInt 2);
                              ("markup_percentage",
                               Py.PFloat (Py.float_of_Z 30))])) in
     r.1 = internal_server_error
     ∧ status r.1 = 500
     ∧ ticket_parts example_db !! (1, 1) = None
     ∧ ticket_parts r.2 !! (1, 1) = Some (TicketPart.refreshed example_ticket_part)
     ∧ (Part.quantity_in_stock <$> parts example_db !! 1) = Some 25
     ∧ (Part.quantity_in_stock <$> parts r.2 !! 1) = Some 23).
Proof.
  split.
  - intros db ticket_id part_id req r.
    pose proof (add_part_to_ticket_status db ticket_id part_id req) as Hs.
    pose proof (add_part_to_ticket_cases db ticket_id part_id req) as Hc.
    cbv zeta in Hs, Hc. fold r in Hs, Hc. destruct Hs as [Hne Hs].
    split; [exact Hne|].
    destruct Hc
      as [[Hdb Hst]|(part & v & q & tp & Ht & Hp & He & Hg & Hi & Hq
                     & T1 & T2 & T3 & T4 & Hr)].
    + repeat split; intros; try assumption. left. exact Hdb.
    + assert (Hch : r.2 ≠ db).
      { rewrite Hr. intros Heq.
        apply (f_equal (λ d, ticket_parts d !! (ticket_id, part_id))) in Heq.
        unfold attached in Heq. rewrite T1, T2 in Heq. cbn in Heq.
        rewrite lookup_insert_eq, He in Heq. discriminate. }
      split; [|split; [|split]].
      * intros [x Hx]. rewrite He in Hx. discriminate.
      * intros v' q' Hg' Hi' Hq'. rewrite Hg in Hg'. inversion Hg'; subst v'.
        rewrite Hi in Hi'. inversion Hi'; subst q'. lia.
      * intros v' q' part' Hg' Hi' Hp' Hq'. rewrite Hg in Hg'.
        inversion Hg'; subst v'.
        rewrite Hi in Hi'. inversion Hi'; subst q'.
        rewrite Hp in Hp'. inversion Hp'; subst part'. lia.
      * right. split; [destruct Hs as [Hs|Hs]; [contradiction|exact Hs]|].
        exists part, v, q, tp.
        rewrite Hr. unfold attached. rewrite T1, T2, T3. simpl.
        repeat split; try assumption; try lia.
        rewrite map_size_insert_None by assumption. reflexivity.
  - vm_compute. repeat split; reflexivity.
Qed.

End Attach.

Section Invariant.
Context `{External}.

(** Every outcome of [adjust_part_quantity]: the store as it was, or the
    part's stock replaced by a sum that is not negative. *)
Lemma adjust_part_quantity_cases (db : DB) (part_id : Z) (req : Request) :
  let r := Inventory.adjust_part_quantity db part_id req in
  (r.2 = db ∧ status r.1 ≠ 200)
  ∨ (∃ part delta,
       parts db !! part_id = Some part
       ∧ 0 ≤ Part.quantity_in_stock part + delta
       ∧ status r.1 = 200
       ∧ r.2 = set_parts
                 (<[part_id := Part.set_quantity_in_stock
                                 (Part.quantity_in_stock part + delta) part]>
                    (parts db)) db).
Proof.
  intros r. subst r. unfold Inventory.adjust_part_quantity.
  destruct (parts db !! part_id) as [part|] eqn:Hp;
    [|left; split; [reflexivity|discriminate]].
  destruct (json_lacks req "adjustment") as [[|]|];
    try (left; split; [reflexivity|discriminate]).
  destruct (Py.getitem (json req) "adjustment") as [v|];
    [|left; split; [reflexivity|discriminate]].
  destruct (Py.int int_of_str v) as [delta|e];
    [|destruct e; left; split; (reflexivity || discriminate)].
  destruct (Z.ltb_spec (Part.quantity_in_stock part + delta) 0) as [Hq|Hq];
    [left; split; [reflexivity|discriminate]|].
  right. exists part, delta. repeat split; eauto.
Qed.

(** A part whose stock is not negative keeps a stock that is not negative
    through one call, whatever the call and whatever its outcome. *)
Lemma stock_step_nonneg (db : DB) (c : stock_call) (part_id : Z) (p : Part.t) :
  parts db !! part_id = Some p →
  0 ≤ Part.quantity_in_stock p →
  ∃ p', parts (stock_step db c).2 !! part_id = Some p'
        ∧ 0 ≤ Part.quantity_in_stock p'.
Proof.
  intros Hp Hq. destruct c as [pid req|tid pid req]; simpl.
  - destruct (adjust_part_quantity_cases db pid req)
      as [[Hdb _]|(part & delta & Hpart & Hsum & _ & Hdb)]; rewrite Hdb.
    + eauto.
    + simpl. destruct (decide (pid = part_id)) as [->|Hne].
      * rewrite lookup_insert_eq. eexists; split; [reflexivity|]. exact Hsum.
      * rewrite lookup_insert_ne by exact Hne. eauto.
  - destruct (add_part_to_ticket_cases db tid pid req)
      as [[Hdb _]|(part & v & q & tp & _ & Hpart & _ & _ & _ & Hrange & _ & T2 & T3 & _ & Hdb)];
      rewrite Hdb.
    + eauto.
    + unfold attached. simpl. rewrite T2, T3.
      destruct (decide (pid = part_id)) as [->|Hne].
      * rewrite lookup_insert_eq. eexists; split; [reflexivity|]. simpl. lia.
      * rewrite lookup_insert_ne by exact Hne. eauto.
Qed.

(** A call on a part that succeeds leaves the part with a stock that is
    not negative, whatever the stock was. *)
Lemma stock_step_success_nonneg (db : DB) (c : stock_call) (p' : Part.t) :
  status (stock_step db c).1 = 200 →
  parts (stock_step db c).2 !! stock_call_part c = Some p' →
  0 ≤ Part.quantity_in_stock p'.
Proof.
  destruct c as [pid req|tid pid req]; simpl.
  - destruct (adjust_part_quantity_cases db pid req)
      as [[_ Hst]|(part & delta & _ & Hsum & _ & Hdb)];
      [intros; contradiction|].
    rewrite Hdb. simpl. rewrite lookup_insert_eq. intros _ Heq.
    inversion Heq. simpl. exact Hsum.
  - destruct (add_part_to_ticket_cases db tid pid req)
      as [[_ Hst]|(part & v & q & tp & _ & _ & _ & _ & _ & Hrange & _ & T2 & T3 & _ & Hdb)];
      [intros; contradiction|].
    rewrite Hdb. unfold attached. simpl. rewrite T2, T3, lookup_insert_eq.
    intros _ Heq. inversion Heq. simpl. lia.
Qed.

(** C1.  Through any sequence of [adjust_part_quantity] and
    [add_part_to_ticket] calls, successful or refused, a part whose stock
    is not negative is still in the store with a stock that is not
    negative; and a successful call on a part leaves it with a stock that
    is not negative whatever its stock was before. *)
Theorem stock_never_negative :
  (∀ (calls : list stock_call) (db : DB) (part_id : Z) (p : Part.t),
     parts db !! part_id = Some p →
     0 ≤ Part.quantity_in_stock p →
     ∃ p', parts (stock_run db calls) !! part_id = Some p'
           ∧ 0 ≤ Part.quantity_in_stock p')
  ∧ (∀ (db : DB) (c : stock_call) (p' : Part.t),
     status (stock_step db c).1 = 200 →
     parts (stock_step db c).2 !! stock_call_part c = Some p' →
     0 ≤ Part.quantity_in_stock p').
Proof.
  split; [|exact stock_step_success_nonneg].
  induction calls as [|c calls IH]; intros db part_id p Hp Hq.
  - exists p. split; assumption.
  - destruct (stock_step_nonneg db c part_id p Hp Hq) as (p' & Hp' & Hq').
    exact (IH _ part_id p' Hp' Hq').
Qed.

End Invariant.

Lemma stock_never_negative_witness :
  ∃ p', parts (stock_run (H := example_external) example_db
                 [Adjust 1 (example_request (Py.PDict [("adjustment", Py.PInt (-20))]));
                  Attach 1 1 (example_request (Py.PDict [("quantity_used", Py.PInt 6)]));
                  Adjust 1 (example_request (Py.PDict [("adjustment", Py.PInt 3)]))])
           !! 1 = Some p'
        ∧ 0 ≤ Part.quantity_in_stock p'.
Proof.
  destruct (stock_never_negative (H := example_external)) as [Hkeep _].
  apply (Hkeep _ example_db 1 example_part).
  - reflexivity.
  - vm_compute. discriminate.
Defined.

(* ===================================================================== *)
(** ** The batch edit of a ticket's mechanics                             *)
(* ===================================================================== *)

Section Edit.
Import ServiceTicketEdit.

Lemma remove_loop_cons (t : Z) (a : Z) (ids : list Z) (st : locals) :
  remove_loop t (a :: ids) st = remove_loop t ids (remove_step t st a).
Proof. reflexivity. Qed.

Lemma add_loop_cons (db : DB) (t : Z) (role : string) (mw : Z) (a : Z)
    (ids : list Z) (st : locals) :
  add_loop db t role mw (a :: ids) st
  = add_loop db t role mw ids (add_step db t role mw st a).
Proof. reflexivity. Qed.

Lemma remove_step_lookup (t : Z) (st : locals) (a : Z) (k : Z * Z) :
  table (remove_step t st a) !! k
  = if decide (k = (t, a)) then None else table st !! k.
Proof.
  unfold remove_step.
  destruct (table st !! (t, a)) eqn:Ha; simpl.
  - destruct (decide (k = (t, a))) as [->|Hne].
    + apply lookup_delete_eq.
    + apply lookup_delete_ne. congruence.
  - destruct (decide (k = (t, a))) as [->|Hne]; [exact Ha|reflexivity].
Qed.

(** The remove loop leaves no row of the ticket for an id of the list and
    touches no other row. *)
Lemma remove_loop_lookup (t : Z) (ids : list Z) (st : locals) (t' m : Z) :
  table (remove_loop t ids st) !! (t', m)
  = if decide (t' = t ∧ m ∈ ids) then None else table st !! (t', m).
Proof.
  revert st. induction ids as [|a ids IH]; intros st.
  - simpl. destruct (decide _) as [[_ Hin]|_]; [|reflexivity].
    inversion Hin.
  - rewrite remove_loop_cons, IH, remove_step_lookup.
    destruct (decide (t' = t ∧ m ∈ ids)) as [[-> Hin]|Hn].
    + rewrite decide_True; [reflexivity|]. split; [reflexivity|].
      apply elem_of_cons. right. exact Hin.
    + destruct (decide ((t', m) = (t, a))) as [Heq|Hne].
      * inversion Heq; subst. rewrite decide_True; [reflexivity|].
        split; [reflexivity|]. apply elem_of_cons. left. reflexivity.
      * rewrite decide_False; [reflexivity|].
        intros [-> Hin]. apply elem_of_cons in Hin as [->|Hin].
        -- apply Hne. reflexivity.
        -- apply Hn. split; [reflexivity|exact Hin].
Qed.

Lemma remove_loop_added (t : Z) (ids : list Z) (st : locals) :
  added_mechanics (remove_loop t ids st) = added_mechanics st.
Proof.
  revert st. induction ids as [|a ids IH]; intros st; [reflexivity|].
  rewrite remove_loop_cons, IH. unfold remove_step.
  destruct (table st !! (t, a)); reflexivity.
Qed.

(** Each id of the remove list ends in exactly one of the two lists. *)
Lemma remove_loop_count (t : Z) (ids : list Z) (st : locals) :
  (length (removed_mechanics (remove_loop t ids st))
   + length (errors (remove_loop t ids st))
   = length (removed_mechanics st) + length (errors st) + length ids)%nat.
Proof.
  revert st. induction ids as [|a ids IH]; intros st; [simpl; lia|].
  rewrite remove_loop_cons, IH. unfold remove_step.
  destruct (table st !! (t, a)); simpl; rewrite length_app; simpl; lia.
Qed.

Lemma remove_loop_removed (t : Z) (ids : list Z) (st : locals) (m : Z) :
  m ∈ removed_mechanics (remove_loop t ids st)
  ↔ m ∈ removed_mechanics st ∨ (m ∈ ids ∧ is_Some (table st !! (t, m))).
Proof.
  revert st. induction ids as [|a ids IH]; intros st.
  - simpl. split; [auto|]. intros [Hm|[Hin _]]; [exact Hm|inversion Hin].
  - rewrite remove_loop_cons, IH. rewrite remove_step_lookup.
    assert (Hrm : m ∈ removed_mechanics (remove_step t st a)
                  ↔ m ∈ removed_mechanics st
                    ∨ (m = a ∧ is_Some (table st !! (t, a)))).
    { unfold remove_step. destruct (table st !! (t, a)) eqn:Ha; simpl.
      - rewrite elem_of_app, list_elem_of_singleton. naive_solver.
      - rewrite <- not_eq_None_Some. naive_solver. }
    rewrite Hrm, elem_of_cons.
    destruct (decide ((t, m) = (t, a))) as [Heq|Hne].
    + assert (m = a) as -> by congruence.
      rewrite <- (not_eq_None_Some (@None TicketMechanic.t)). naive_solver.
    + assert (m ≠ a) by congruence. naive_solver.
Qed.

Lemma remove_step_errors_mono (t : Z) (st : locals) (a : Z) (e : string) :
  e ∈ errors st → e ∈ errors (remove_step t st a).
Proof.
  intros He. unfold remove_step. destruct (table st !! (t, a)); simpl;
    [exact He|]. apply elem_of_app. left. exact He.
Qed.

Lemma remove_loop_errors_mono (t : Z) (ids : list Z) (st : locals) (e : string) :
  e ∈ errors st → e ∈ errors (remove_loop t ids st).
Proof.
  revert st. induction ids as [|a ids IH]; intros st He; [exact He|].
  rewrite remove_loop_cons. apply IH, remove_step_errors_mono, He.
Qed.

(** A removal target that is not assigned is reported. *)
Lemma remove_loop_reports (t : Z) (ids : list Z) (st : locals) (m : Z) :
  m ∈ ids → table st !! (t, m) = None →
  not_assigned m ∈ errors (remove_loop t ids st).
Proof.
  revert st. induction ids as [|a ids IH]; intros st Hin Hnone;
    [inversion Hin|].
  rewrite remove_loop_cons.
  destruct (decide (m = a)) as [->|Hne].
  - apply remove_loop_errors_mono. unfold remove_step. rewrite Hnone. simpl.
    apply elem_of_app. right. apply list_elem_of_singleton. reflexivity.
  - apply elem_of_cons in Hin as [->|Hin]; [contradiction|].
    apply IH; [exact Hin|].
    rewrite remove_step_lookup, decide_False; [exact Hnone|congruence].
Qed.

Lemma add_step_lookup (db : DB) (t : Z) (role : string) (mw : Z)
    (st : locals) (a : Z) (k : Z * Z) :
  table (add_step db t role mw st a) !! k
  = match table st !! k with
    | Some x => Some x
    | None =>
        if decide (k = (t, a) ∧ is_Some (get_mechanic db a))
        then Some (new_row t role mw a) else None
    end.
Proof.
  unfold add_step.
  destruct (get_mechanic db a) as [mech|] eqn:Hm; simpl.
  - destruct (table st !! (t, a)) eqn:Ha; simpl.
    + destruct (table st !! k) eqn:Hk; [reflexivity|].
      rewrite decide_False; [reflexivity|]. intros [-> _]. congruence.
    + destruct (decide (k = (t, a))) as [->|Hne].
      * rewrite lookup_insert_eq, Ha, decide_True; [reflexivity|].
        split; [reflexivity|eauto].
      * rewrite lookup_insert_ne by congruence.
        destruct (table st !! k); [reflexivity|].
        rewrite decide_False; [reflexivity|]. intros [? _]. contradiction.
  - destruct (table st !! k); [reflexivity|].
    rewrite decide_False; [reflexivity|]. intros [_ [? ?]]. discriminate.
Qed.

(** The add loop gives a row to every id of the list whose mechanic exists
    and that has none, and touches no other row. *)
Lemma add_loop_lookup (db : DB) (t : Z) (role : string) (mw : Z)
    (ids : list Z) (st : locals) (t' m : Z) :
  table (add_loop db t role mw ids st) !! (t', m)
  = match table st !! (t', m) with
    | Some x => Some x
    | None =>
        if decide (t' = t ∧ m ∈ ids ∧ is_Some (get_mechanic db m))
        then Some (new_row t role mw m) else None
    end.
Proof.
  revert st. induction ids as [|a ids IH]; intros st.
  - simpl. destruct (table st !! (t', m)); [reflexivity|].
    rewrite decide_False; [reflexivity|]. intros (_ & Hin & _). inversion Hin.
  - rewrite add_loop_cons, IH, add_step_lookup.
    destruct (table st !! (t', m)) eqn:Hk; [reflexivity|].
    destruct (decide ((t', m) = (t, a) ∧ is_Some (get_mechanic db a)))
      as [[Heq Hex]|Hn].
    + inversion Heq; subst. rewrite decide_True; [reflexivity|].
      split; [reflexivity|]. split; [|exact Hex].
      apply elem_of_cons. left. reflexivity.
    + destruct (decide (t' = t ∧ m ∈ ids ∧ is_Some (get_mechanic db m)))
        as [(-> & Hin & Hex)|Hn'].
      * rewrite decide_True; [reflexivity|]. split; [reflexivity|].
        split; [|exact Hex]. apply elem_of_cons. right. exact Hin.
      * rewrite decide_False; [reflexivity|].
        intros (-> & Hin & Hex). apply elem_of_cons in Hin as [->|Hin].
        -- apply Hn. split; [reflexivity|exact Hex].
        -- apply Hn'. split; [reflexivity|]. split; assumption.
Qed.

Lemma add_loop_removed (db : DB) (t : Z) (role : string) (mw : Z)
    (ids : list Z) (st : locals) :
  removed_mechanics (add_loop db t role mw ids st) = removed_mechanics st.
Proof.
  revert st. induction ids as [|a ids IH]; intros st; [reflexivity|].
  rewrite add_loop_cons, IH. unfold add_step.
  destruct (get_mechanic db a); [|reflexivity].
  destruct (table st !! (t, a)); reflexivity.
Qed.

(** Each id of the add list ends in exactly one of the two lists. *)
Lemma add_loop_count (db : DB) (t : Z) (role : string) (mw : Z)
    (ids : list Z) (st : locals) :
  (length (added_mechanics (add_loop db t role mw ids st))
   + length (errors (add_loop db t role mw ids st))
   = length (added_mechanics st) + length (errors st) + length ids)%nat.
Proof.
  revert st. induction ids as [|a ids IH]; intros st; [simpl; lia|].
  rewrite add_loop_cons, IH. unfold add_step.
  destruct (get_mechanic db a); [destruct (table st !! (t, a))|];
    simpl; rewrite length_app; simpl; lia.
Qed.

Lemma add_step_added (db : DB) (t : Z) (role : string) (mw : Z)
    (st : locals) (a m : Z) :
  m ∈ added_mechanics (add_step db t role mw st a)
  ↔ m ∈ added_mechanics st
    ∨ (m = a ∧ is_Some (get_mechanic db a) ∧ table st !! (t, a) = None).
Proof.
  unfold add_step.
  destruct (get_mechanic db a) as [mech|] eqn:Hm; simpl.
  - destruct (table st !! (t, a)) eqn:Ha; simpl.
    + split; [auto|]. intros [?|(_ & _ & ?)]; [assumption|discriminate].
    + rewrite elem_of_app, list_elem_of_singleton.
      split; (intros [?|?]; [left; assumption|right]); [|tauto].
      split; [assumption|]. split; [eauto|reflexivity].
  - split; [auto|]. intros [?|(_ & [? ?] & _)]; [assumption|discriminate].
Qed.

Lemma add_loop_added (db : DB) (t : Z) (role : string) (mw : Z)
    (ids : list Z) (st : locals) (m : Z) :
  m ∈ added_mechanics (add_loop db t role mw ids st)
  ↔ m ∈ added_mechanics st
    ∨ (m ∈ ids ∧ is_Some (get_mechanic db m) ∧ table st !! (t, m) = None).
Proof.
  revert st. induction ids as [|a ids IH]; intros st.
  - simpl. split; [auto|]. intros [?|(Hin & _)]; [assumption|inversion Hin].
  - rewrite add_loop_cons, IH, add_step_added, add_step_lookup, elem_of_cons.
    destruct (table st !! (t, m)) eqn:Hk.
    + split.
      * intros [[?|(-> & _ & ?)]|(_ & _ & ?)]; [auto|congruence|discriminate].
      * intros [?|(_ & _ & ?)]; [auto|discriminate].
    + destruct (decide ((t, m) = (t, a) ∧ is_Some (get_mechanic db a)))
        as [[Heq Hex]|Hn].
      * assert (m = a) as -> by congruence. split.
        -- intros [[?|?]|(_ & _ & ?)]; [auto| |discriminate].
           right. split; [left; reflexivity|]. split; [assumption|reflexivity].
        -- intros [?|?]; [auto|]. left. right. split; [reflexivity|].
           split; assumption.
      * split.
        -- intros [[?|(-> & Hex & _)]|(Hin & Hex & _)]; [auto| |].
           ++ exfalso. apply Hn. split; [reflexivity|assumption].
           ++ right. split; [right; assumption|]. split; [assumption|reflexivity].
        -- intros [?|([->|Hin] & Hex & _)]; [auto| |].
           ++ exfalso. apply Hn. split; [reflexivity|assumption].
           ++ right. split; [assumption|]. split; [assumption|reflexivity].
Qed.

Lemma add_step_errors_mono (db : DB) (t : Z) (role : string) (mw : Z)
    (st : locals) (a : Z) (e : string) :
  e ∈ errors st → e ∈ errors (add_step db t role mw st a).
Proof.
  intros He. unfold add_step.
  destruct (get_mechanic db a); [destruct (table st !! (t, a))|]; simpl;
    try exact He; apply elem_of_app; left; exact He.
Qed.

Lemma add_loop_errors_mono (db : DB) (t : Z) (role : string) (mw : Z)
    (ids : list Z) (st : locals) (e : string) :
  e ∈ errors st → e ∈ errors (add_loop db t role mw ids st).
Proof.
  revert st. induction ids as [|a ids IH]; intros st He; [exact He|].
  rewrite add_loop_cons. apply IH, add_step_errors_mono, He.
Qed.

(** An id of the add list without a mechanic is reported. *)
Lemma add_loop_reports_missing (db : DB) (t : Z) (role : string) (mw : Z)
    (ids : list Z) (st : locals) (m : Z) :
  m ∈ ids → get_mechanic db m = None →
  does_not_exist m ∈ errors (add_loop db t role mw ids st).
Proof.
  revert st. induction ids as [|a ids IH]; intros st Hin Hnone;
    [inversion Hin|].
  rewrite add_loop_cons. apply elem_of_cons in Hin as [->|Hin].
  - apply add_loop_errors_mono. unfold add_step. rewrite Hnone. simpl.
    apply elem_of_app. right. apply list_elem_of_singleton. reflexivity.
  - apply IH; assumption.
Qed.

(** An id of the add list that has a row already is reported. *)
Lemma add_loop_reports_assigned (db : DB) (t : Z) (role : string) (mw : Z)
    (ids : list Z) (st : locals) (m : Z) :
  m ∈ ids → is_Some (get_mechanic db m) → is_Some (table st !! (t, m)) →
  already_assigned m ∈ errors (add_loop db t role mw ids st).
Proof.
  revert st. induction ids as [|a ids IH]; intros st Hin Hex Hrow;
    [inversion Hin|].
  rewrite add_loop_cons. apply elem_of_cons in Hin as [->|Hin].
  - apply add_loop_errors_mono. unfold add_step.
    destruct Hex as [mech ->]. destruct Hrow as [row ->]. simpl.
    apply elem_of_app. right. apply list_elem_of_singleton. reflexivity.
  - apply IH; [assumption|assumption|].
    rewrite add_step_lookup. destruct Hrow as [row ->]. eauto.
Qed.

End Edit.

Section EditTheorems.
Import ServiceTicketEdit.
Context `{External}.

(** The handler on a ticket that exists and a body that loads: the two
    loops, the remove loop first, then the commit and a 200 response. *)
Lemma edit_ticket_mechanics_loops (db : DB) (ticket_id : Z) (req : Request)
    (data : EditTicketMechanicsSchema.data) :
  is_Some (service_tickets db !! ticket_id) →
  Py.truthy (json req) = true →
  EditTicketMechanicsSchema.load (json req) = inl data →
  let st :=
    add_loop db ticket_id
      (default "Technician" (EditTicketMechanicsSchema.role data))
      (default 0 (EditTicketMechanicsSchema.minutes_worked data))
      (default [] (EditTicketMechanicsSchema.add_ids data))
      (remove_loop ticket_id
         (default [] (EditTicketMechanicsSchema.remove_ids data))
         (edit_start db)) in
  edit_ticket_mechanics db ticket_id req
  = (response ticket_id st, set_ticket_mechanics (table st) db).
Proof.
  intros [ticket Ht] Hj Hl st. unfold edit_ticket_mechanics.
  rewrite Ht, Hj, Hl. reflexivity.
Qed.

(** C4.  On an existing ticket, a batch edit whose ids, role and minutes
    fit their columns answers 200 and every item of both lists is either
    applied or reported: an id of the remove list is
    removed when it has a row and reported when it has none; an id of the
    add list is added when its mechanic exists and it has no row by then,
    and reported otherwise; no item stops the others.  The second part is
    the example of the specification. *)
Theorem edit_ticket_mechanics_partial_success :
  (∀ (db : DB) (ticket_id : Z) (req : Request)
     (data : EditTicketMechanicsSchema.data),
    is_Some (service_tickets db !! ticket_id) →
    Py.truthy (json req) = true →
    EditTicketMechanicsSchema.load (json req) = inl data →
    let add_ids := default [] (EditTicketMechanicsSchema.add_ids data) in
    let remove_ids := default [] (EditTicketMechanicsSchema.remove_ids data) in
    let role := default "Technician" (EditTicketMechanicsSchema.role data) in
    let minutes_worked :=
      default 0 (EditTicketMechanicsSchema.minutes_worked data) in
    Forall fits_integer add_ids →
    Forall fits_integer remove_ids →
    fits_string 100 role →
    fits_integer minutes_worked →
    let before := ticket_mechanics db in
    let r := edit_ticket_mechanics db ticket_id req in
    ∃ st,
      r = (response ticket_id st, set_ticket_mechanics (table st) db)
      ∧ status r.1 = 200
      ∧ (length (added_mechanics st) + length (removed_mechanics st)
         + length (errors st) = length add_ids + length remove_ids)%nat
      ∧ (∀ m, m ∈ removed_mechanics st
              ↔ m ∈ remove_ids ∧ is_Some (before !! (ticket_id, m)))
      ∧ (∀ m, m ∈ added_mechanics st
              ↔ m ∈ add_ids ∧ is_Some (get_mechanic db m)
                ∧ (m ∈ remove_ids ∨ before !! (ticket_id, m) = None))
      ∧ (∀ m, m ∈ remove_ids → before !! (ticket_id, m) = None →
              not_assigned m ∈ errors st)
      ∧ (∀ m, m ∈ add_ids → get_mechanic db m = None →
              does_not_exist m ∈ errors st)
      ∧ (∀ m, m ∈ add_ids → is_Some (get_mechanic db m) →
              m ∉ remove_ids → is_Some (before !! (ticket_id, m)) →
              already_assigned m ∈ errors st)
      ∧ (∀ m, ticket_mechanics r.2 !! (ticket_id, m)
              = if decide (m ∈ added_mechanics st)
                then Some (new_row ticket_id role minutes_worked m)
                else if decide (m ∈ remove_ids) then None
                else before !! (ticket_id, m))
      ∧ (∀ t m, t ≠ ticket_id →
              ticket_mechanics r.2 !! (t, m) = before !! (t, m)))
  ∧ (∀ (db : DB) (ticket_id : Z) (req : Request),
    is_Some (service_tickets db !! ticket_id) →
    json req = Py.PDict [("add_ids", Py.PList [Py.PInt 5]);
                         ("remove_ids", Py.PList [Py.PInt 999])] →
    is_Some (get_mechanic db 5) →
    ticket_mechanics db !! (ticket_id, 5) = None →
    ticket_mechanics db !! (ticket_id, 999) = None →
    let r := edit_ticket_mechanics db ticket_id req in
    r.1 = {| body := Py.PDict [
               ("message", Py.PStr "Ticket mechanics updated successfully");
               ("ticket_id", Py.PInt ticket_id);
               ("added_mechanics", Py.PList [Py.PInt 5]);
               ("removed_mechanics", Py.PList []);
               ("errors",
                Py.PList [Py.PStr "Mechanic 999 is not assigned to this ticket"])
             ];
             status := 200 |}
    ∧ ticket_mechanics r.2
      = <[(ticket_id, 5) := new_row ticket_id "Technician" 0 5]>
          (ticket_mechanics db)).
Proof.
  split.
  - intros db ticket_id req data Ht Hj Hl add_ids remove_ids role
      minutes_worked _ _ _ _ before r.
    pose proof (edit_ticket_mechanics_loops db ticket_id req data Ht Hj Hl) as Hr.
    cbv zeta in Hr. fold add_ids remove_ids role minutes_worked r in Hr.
    set (st0 := remove_loop ticket_id remove_ids (edit_start db)) in *.
    set (st := add_loop db ticket_id role minutes_worked add_ids st0) in *.
    assert (Hlk0 : ∀ t m, table st0 !! (t, m)
              = if decide (t = ticket_id ∧ m ∈ remove_ids) then None
                else before !! (t, m)).
    { intros t m. unfold st0. rewrite remove_loop_lookup. reflexivity. }
    assert (Hadd : ∀ m, m ∈ added_mechanics st
              ↔ m ∈ add_ids ∧ is_Some (get_mechanic db m)
                ∧ (m ∈ remove_ids ∨ before !! (ticket_id, m) = None)).
    { intros m. unfold st. rewrite add_loop_added. unfold st0 at 1.
      rewrite remove_loop_added. simpl. rewrite Hlk0.
      destruct (decide (ticket_id = ticket_id ∧ m ∈ remove_ids)) as [[_ Hin]|Hn].
      - split; [intros [Hf|(?&?&?)]; [inversion Hf|auto]|]. intros (?&?&?). auto.
      - split.
        + intros [Hf|(?&?&?)]; [inversion Hf|auto].
        + intros (?&?&[Hin|?]); [|auto]. exfalso. apply Hn. auto. }
    exists st. split; [exact Hr|]. split; [rewrite Hr; reflexivity|].
    split; [|split; [|split; [exact Hadd|split; [|split; [|split; [|split]]]]]].
    + pose proof (add_loop_count db ticket_id role minutes_worked add_ids st0) as Ha.
      pose proof (remove_loop_count ticket_id remove_ids (edit_start db)) as Hrm.
      pose proof (add_loop_removed db ticket_id role minutes_worked add_ids st0) as Har.
      pose proof (remove_loop_added ticket_id remove_ids (edit_start db)) as Hra.
      fold st0 in Hrm, Hra. fold st in Ha, Har.
      rewrite Har. rewrite Hra in Ha. simpl in Ha, Hrm. lia.
    + intros m. unfold st. rewrite add_loop_removed. unfold st0.
      rewrite remove_loop_removed. simpl. split.
      * intros [Hf|?]; [inversion Hf|assumption].
      * auto.
    + intros m Hin Hnone. unfold st. apply add_loop_errors_mono.
      unfold st0. apply remove_loop_reports; assumption.
    + intros m Hin Hnone. unfold st. apply add_loop_reports_missing; assumption.
    + intros m Hin Hex Hnr Hrow. unfold st.
      apply add_loop_reports_assigned; [assumption|assumption|].
      rewrite Hlk0, decide_False; [exact Hrow|]. intros [_ ?]. contradiction.
    + intros m. rewrite Hr. simpl. unfold st at 1.
      rewrite add_loop_lookup, Hlk0.
      destruct (decide (m ∈ remove_ids)) as [Hin|Hn].
      * rewrite decide_True by auto.
        destruct (decide (ticket_id = ticket_id ∧ m ∈ add_ids
                          ∧ is_Some (get_mechanic db m))) as [(_&?&?)|Hna].
        -- rewrite decide_True; [reflexivity|]. apply Hadd. auto.
        -- rewrite decide_False; [reflexivity|]. intros Ha. apply Hna.
           apply Hadd in Ha as (?&?&?). auto.
      * rewrite decide_False by (intros [_ ?]; contradiction).
        destruct (before !! (ticket_id, m)) as [row|] eqn:Hb.
        -- rewrite decide_False; [reflexivity|]. intros Ha.
           apply Hadd in Ha as (_&_&[?|?]); [contradiction|congruence].
        -- destruct (decide (ticket_id = ticket_id ∧ m ∈ add_ids
                             ∧ is_Some (get_mechanic db m))) as [(_&?&?)|Hna].
           ++ rewrite decide_True; [reflexivity|]. apply Hadd. auto.
           ++ rewrite decide_False; [reflexivity|]. intros Ha. apply Hna.
              apply Hadd in Ha as (?&?&?). auto.
    + intros t m Hne. rewrite Hr. simpl. unfold st.
      rewrite add_loop_lookup, Hlk0.
      rewrite decide_False by (intros [? _]; contradiction).
      destruct (before !! (t, m)); [reflexivity|].
      rewrite decide_False; [reflexivity|]. intros [? _]. contradiction.
  - intros db ticket_id req [ticket Ht] Hj [mech Hm] H5 H999 r. subst r.
    unfold edit_ticket_mechanics. rewrite Ht, Hj. simpl.
    unfold remove_step. simpl. rewrite H999. simpl.
    unfold add_step. simpl. rewrite Hm, H5. simpl.
    split; reflexivity.
Qed.

(** C10.  The remove loop runs to its end before the add loop starts.  In
    a batch whose ids, role and minutes fit their columns, an id that is in
    both lists and has a row on the ticket (so that, by the foreign key of
    the row, its mechanic exists) is removed and added again: after the
    call its row carries the role and the minutes of the request. *)
Theorem edit_ticket_mechanics_remove_then_add (db : DB) (ticket_id : Z)
    (req : Request) (data : EditTicketMechanicsSchema.data) (m : Z) :
  is_Some (service_tickets db !! ticket_id) →
  Py.truthy (json req) = true →
  EditTicketMechanicsSchema.load (json req) = inl data →
  let add_ids := default [] (EditTicketMechanicsSchema.add_ids data) in
  let remove_ids := default [] (EditTicketMechanicsSchema.remove_ids data) in
  let role := default "Technician" (EditTicketMechanicsSchema.role data) in
  let minutes_worked :=
    default 0 (EditTicketMechanicsSchema.minutes_worked data) in
  Forall fits_integer add_ids →
  Forall fits_integer remove_ids →
  fits_string 100 role →
  fits_integer minutes_worked →
  m ∈ remove_ids →
  m ∈ add_ids →
  is_Some (ticket_mechanics db !! (ticket_id, m)) →
  is_Some (get_mechanic db m) →
  let r := edit_ticket_mechanics db ticket_id req in
  let removed := remove_loop ticket_id remove_ids (edit_start db) in
  let st := add_loop db ticket_id role minutes_worked add_ids removed in
  r = (response ticket_id st, set_ticket_mechanics (table st) db)
  ∧ table removed !! (ticket_id, m) = None
  ∧ m ∈ removed_mechanics st
  ∧ m ∈ added_mechanics st
  ∧ ticket_mechanics r.2 !! (ticket_id, m)
    = Some {| TicketMechanic.ticket_id := ticket_id;
              TicketMechanic.mechanic_id := m;
              TicketMechanic.role := role;
              TicketMechanic.minutes_worked := minutes_worked |}.
Proof.
  intros Ht Hj Hl add_ids remove_ids role minutes_worked _ _ _ _
    Hrm Hadd Hrow Hex r removed st.
  pose proof (edit_ticket_mechanics_loops db ticket_id req data Ht Hj Hl) as Hr.
  cbv zeta in Hr. fold add_ids remove_ids role minutes_worked removed st r in Hr.
  assert (Hnone : table removed !! (ticket_id, m) = None).
  { unfold removed. rewrite remove_loop_lookup, decide_True; auto. }
  split; [exact Hr|]. split; [exact Hnone|]. split; [|split].
  - unfold st. rewrite add_loop_removed. unfold removed.
    apply remove_loop_removed. right. split; assumption.
  - unfold st. apply add_loop_added. right. auto.
  - rewrite Hr. simpl. unfold st. rewrite add_loop_lookup, Hnone.
    rewrite decide_True by auto. reflexivity.
Qed.

End EditTheorems.

(* ===================================================================== *)
(** ** Ownership of the customer record                                   *)
(* ===================================================================== *)

Section Ownership.
Import CustomerRoutes.
Context `{External}.

Lemma update_customer_own_status (db : DB) (customer_id : Z) (req : Request) :
  int_of_str (jwt_identity req) = Some customer_id →
  is_Some (customers db !! customer_id) →
  status (update_customer db customer_id req).1 = 200
  ∨ status (update_customer db customer_id req).1 = 400.
Proof.
  intros Hid [c Hc]. unfold update_customer.
  rewrite Hid, Z.eqb_refl, Hc. simpl.
  destruct (Py.truthy (json req)); simpl; [|right; reflexivity].
  destruct (CustomerSchema.validate (json req)); [|right; reflexivity].
  destruct (json req); try (right; reflexivity).
  destruct (setattrs c d); [|right; reflexivity].
  destruct (commit_update db customer_id t); [left|right]; reflexivity.
Qed.

Lemma delete_customer_own_status (db : DB) (customer_id : Z) (req : Request) :
  int_of_str (jwt_identity req) = Some customer_id →
  is_Some (customers db !! customer_id) →
  status (delete_customer db customer_id req).1 = 200
  ∨ status (delete_customer db customer_id req).1 = 400.
Proof.
  intros Hid [c Hc]. unfold delete_customer.
  rewrite Hid, Z.eqb_refl, Hc. simpl.
  destruct (referenced db customer_id); [right|left]; reflexivity.
Qed.

(** C5.  A caller whose identity is not the customer id of the path gets
    the forbidden response from update and from delete, whether or not
    that customer exists, and the store is unchanged; the forbidden
    responses are not the not-found response, which is what the owner
    gets for a record that does not exist; on the caller's own existing
    record neither handler answers forbidden. *)
Theorem customer_forbidden_distinct_from_not_found (db : DB)
    (customer_id current_user_id : Z) (req : Request) :
  int_of_str (jwt_identity req) = Some current_user_id →
  (current_user_id ≠ customer_id →
     update_customer db customer_id req = (forbidden_update, db)
     ∧ delete_customer db customer_id req = (forbidden_delete, db))
  ∧ (current_user_id = customer_id → customers db !! customer_id = None →
     update_customer db customer_id req = (customer_not_found, db)
     ∧ delete_customer db customer_id req = (customer_not_found, db))
  ∧ (forbidden_update ≠ customer_not_found
     ∧ forbidden_delete ≠ customer_not_found
     ∧ status forbidden_update = 403 ∧ status forbidden_delete = 403
     ∧ status customer_not_found = 404)
  ∧ (current_user_id = customer_id → is_Some (customers db !! customer_id) →
     status (update_customer db customer_id req).1 ≠ 403
     ∧ status (delete_customer db customer_id req).1 ≠ 403).
Proof.
  intros Hid. split; [|split; [|split]].
  - intros Hne. unfold update_customer, delete_customer. rewrite Hid.
    apply Z.eqb_neq in Hne. rewrite Hne. split; reflexivity.
  - intros -> Hnone. unfold update_customer, delete_customer.
    rewrite Hid, Z.eqb_refl, Hnone. split; reflexivity.
  - repeat split; try discriminate; reflexivity.
  - intros -> Hsome. split.
    + destruct (update_customer_own_status db customer_id req Hid Hsome)
        as [-> | ->]; discriminate.
    + destruct (delete_customer_own_status db customer_id req Hid Hsome)
        as [-> | ->]; discriminate.
Qed.

(** The loaded [customer_id] is the integer that the handler stored under
    that key before the load. *)
Lemma vehicle_schema_load_customer_id (d : Py.dict) (customer_id : Z)
    (data : VehicleSchema.data) :
  VehicleSchema.load (Py.dict_set "customer_id" (Py.PInt customer_id) d)
    = inl data →
  VehicleSchema.customer_id data = customer_id.
Proof.
  assert (Hl : ∀ k v d, Py.dict_lookup k (Py.dict_set k v d) = Some v).
  { intros k v. induction d0 as [|[k' v'] r IH]; simpl.
    - rewrite String.eqb_refl. reflexivity.
    - destruct (String.eqb k' k) eqn:E; simpl.
      + rewrite String.eqb_refl. reflexivity.
      + rewrite E. exact IH. }
  unfold VehicleSchema.load.
  set (d' := Py.dict_set "customer_id" (Py.PInt customer_id) d).
  assert (Hc : Marshmallow.required Marshmallow.Int "customer_id" d'
               = inl customer_id).
  { unfold Marshmallow.required, d'. rewrite Hl. reflexivity. }
  rewrite Hc.
  destruct (Marshmallow.optional Marshmallow.Int "vehicle_id" d');
    [|discriminate].
  destruct (Marshmallow.required (Marshmallow.StrMax 100) "vin" d');
    [|discriminate].
  destruct (Marshmallow.required (Marshmallow.StrMax 100) "make" d');
    [|discriminate].
  destruct (Marshmallow.required (Marshmallow.StrMax 100) "model" d');
    [|discriminate].
  destruct (Marshmallow.required Marshmallow.Int "year" d'); [|discriminate].
  destruct (Marshmallow.required (Marshmallow.StrMax 50) "color" d');
    [|discriminate].
  destruct (Marshmallow.unknown VehicleSchema.declared d'); [|discriminate].
  intros Heq. inversion Heq. reflexivity.
Qed.

(** C9.  A vehicle that [create_vehicle] creates belongs to the customer
    of the path: the handler stores the path's id under [customer_id]
    before the load, over whatever the payload had there. *)
Theorem create_vehicle_takes_customer_id_from_path (db : DB)
    (customer_id : Z) (req : Request) :
  let r := create_vehicle db customer_id req in
  status r.1 = 201 →
  ∃ vehicle_id new_vehicle,
    vehicles db !! vehicle_id = None
    ∧ vehicles r.2 = <[vehicle_id := new_vehicle]> (vehicles db)
    ∧ Vehicle.vehicle_id new_vehicle = vehicle_id
    ∧ Vehicle.customer_id new_vehicle = customer_id
    ∧ body r.1 = VehicleSchema.dump new_vehicle.
Proof.
  intros r. subst r. unfold create_vehicle.
  destruct (int_of_str (jwt_identity req)); [|discriminate].
  destruct (negb (z =? customer_id)); [discriminate|].
  destruct (customers db !! customer_id); [|discriminate].
  destruct (negb (Py.truthy (json req))); [discriminate|].
  destruct (Py.dict_of (json req)) as [d|]; [|discriminate].
  destruct (VehicleSchema.load _) as [data|] eqn:Hload; [|discriminate].
  apply vehicle_schema_load_customer_id in Hload.
  destruct (existsb _ _); [discriminate|].
  destruct (bool_decide _) eqn:Hfree; [discriminate|].
  apply bool_decide_eq_false in Hfree. intros _. simpl.
  eexists _, _. split; [|split; [reflexivity|]].
  - apply eq_None_not_Some. exact Hfree.
  - repeat split. exact Hload.
Qed.

End Ownership.

(* ===================================================================== *)
(** ** Login                                                              *)
(* ===================================================================== *)

Section Login.
Import AuthRoutes.
Context `{External}.

(** C6.  A login whose email matches no customer and a login whose email
    matches a customer but whose password is wrong get the same response,
    the generic invalid-credentials error with status 401, and neither
    changes the store. *)
Theorem login_invalid_credentials_uniform (db : DB) (req1 req2 : Request)
    (data1 data2 : LoginSchema.data) (customer : Customer.t) :
  Py.truthy (json req1) = true →
  Py.truthy (json req2) = true →
  LoginSchema.load (json req1) = inl data1 →
  LoginSchema.load (json req2) = inl data2 →
  customer_by_email db (LoginSchema.email data1) = None →
  customer_by_email db (LoginSchema.email data2) = Some customer →
  Customer.check_password customer (LoginSchema.password data2) = false →
  login db req1 = (error "Invalid email or password" 401, db)
  ∧ login db req2 = (error "Invalid email or password" 401, db)
  ∧ (login db req1).1 = (login db req2).1.
Proof.
  intros Hj1 Hj2 Hl1 Hl2 Hnone Hsome Hpw.
  assert (H1 : login db req1 = (error "Invalid email or password" 401, db)).
  { unfold login. rewrite Hj1, Hl1, Hnone. reflexivity. }
  assert (H2 : login db req2 = (error "Invalid email or password" 401, db)).
  { unfold login. rewrite Hj2, Hl2, Hsome, Hpw. reflexivity. }
  split; [exact H1|]. split; [exact H2|]. rewrite H1, H2. reflexivity.
Qed.

End Login.

(* ===================================================================== *)
(** ** The stable sort                                                    *)
(* ===================================================================== *)

Section SortFacts.
Context {A : Type} (key : A → Z).












End SortFacts.



Section Activity.
Import MechanicRoutes.


End Activity.

(* ===================================================================== *)
(** ** The total cost of a ticket part                                    *)
(* ===================================================================== *)

(** C8.  [get_total_cost] on an instance as the constructor made it, with
    the float it was given, is the base cost plus the markup, rounded: two
    units at 1000 cents with 30.0 percent give 26.0.  On a row of the store
    the same call raises [TypeError], whatever the row: the column hands
    back a [Decimal], and the one call of the method in the program is on
    a row that was just committed. *)
Theorem get_total_cost_raises_on_rows :
  TicketPart.get_total_cost example_ticket_part = Py.Ok (Py.float_of_Z 26)
  ∧ TicketPart.get_total_cost (TicketPart.refreshed example_ticket_part)
    = Py.Raise Py.TypeError
  ∧ (∀ (tp : TicketPart.t) (total : Py.float),
       TicketPart.get_total_cost (TicketPart.refreshed tp) ≠ Py.Ok total).
Proof.
  split; [vm_compute; reflexivity|]. split; [vm_compute; reflexivity|].
  intros tp total. unfold TicketPart.get_total_cost, TicketPart.refreshed.
  cbn [TicketPart.quantity_used TicketPart.unit_cost_cents
       TicketPart.markup_percentage].
  destruct (Py.truediv _ _); destruct (TicketPart.markup_percentage tp);
    discriminate.
Qed.

Lemma edit_ticket_mechanics_partial_success_witness :
  let r := ServiceTicketEdit.edit_ticket_mechanics (H := example_external)
             example_db 1 (example_request example_edit_body) in
  status r.1 = 200
  ∧ ticket_mechanics r.2 !! (1, 5) = Some (new_row 1 "Technician" 0 5)
  ∧ ticket_mechanics r.2 !! (1, 999) = None.
Proof.
  intros r.
  destruct (edit_ticket_mechanics_partial_success (H := example_external))
    as [Hgen Hex].
  destruct (Hgen example_db 1 (example_request example_edit_body)
              example_edit_data
              ltac:(eexists; reflexivity) eq_refl eq_refl
              ltac:(fits) ltac:(fits) ltac:(fits)
              ltac:(fits))
    as (st & _ & Hstatus & _ & _ & Hadded & _ & _ & _ & Htable & _).
  destruct (Hex example_db 1 (example_request example_edit_body)
              ltac:(eexists; reflexivity) eq_refl
              ltac:(eexists; reflexivity) eq_refl eq_refl)
    as [_ Hrows].
  fold r in Hstatus, Hrows.
  split; [exact Hstatus|].
  rewrite Hrows. split; reflexivity.
Defined.

Lemma edit_ticket_mechanics_remove_then_add_witness :
  ticket_mechanics
    (ServiceTicketEdit.edit_ticket_mechanics (H := example_external)
       example_db_assigned 1 (example_request example_swap_body)).2 !! (1, 5)
  = Some {| TicketMechanic.ticket_id := 1;
            TicketMechanic.mechanic_id := 5;
            TicketMechanic.role := "Inspector";
            TicketMechanic.minutes_worked := 15 |}.
Proof.
  destruct (edit_ticket_mechanics_remove_then_add (H := example_external)
              example_db_assigned 1 (example_request example_swap_body)
              example_swap_data 5
              ltac:(eexists; reflexivity) eq_refl eq_refl
              ltac:(fits) ltac:(fits) ltac:(fits)
              ltac:(fits)
              ltac:(apply list_elem_of_singleton; reflexivity)
              ltac:(apply list_elem_of_singleton; reflexivity)
              ltac:(eexists; reflexivity)
              ltac:(eexists; reflexivity))
    as (_ & _ & _ & _ & Hrow).
  exact Hrow.
Defined.

Lemma customer_forbidden_distinct_from_not_found_witness :
  CustomerRoutes.update_customer (H := example_external) example_db_customer 7
    (example_request Py.PNone) = (forbidden_update, example_db_customer)
  ∧ CustomerRoutes.delete_customer (H := example_external) example_db_customer 7
      (example_request Py.PNone) = (forbidden_delete, example_db_customer)
  ∧ status (CustomerRoutes.delete_customer (H := example_external)
              example_db_customer 5 (example_request Py.PNone)).1 ≠ 403.
Proof.
  destruct (customer_forbidden_distinct_from_not_found (H := example_external)
              example_db_customer 7 5 (example_request Py.PNone) eq_refl)
    as (Hforbidden & _ & _ & _).
  destruct (customer_forbidden_distinct_from_not_found (H := example_external)
              example_db_customer 5 5 (example_request Py.PNone) eq_refl)
    as (_ & _ & _ & Hown).
  destruct (Hforbidden ltac:(discriminate)) as [Hu Hd].
  destruct (Hown eq_refl ltac:(eexists; reflexivity)) as [_ Hd'].
  split; [exact Hu|]. split; [exact Hd|exact Hd'].
Defined.

Lemma login_invalid_credentials_uniform_witness :
  (AuthRoutes.login (H := example_external) example_db_customer
     (example_login "nobody@email.com" "password123")).1
  = (AuthRoutes.login (H := example_external) example_db_customer
       (example_login "alice.johnson@email.com" "letmein")).1.
Proof.
  destruct (login_invalid_credentials_uniform (H := example_external)
              example_db_customer
              (example_login "nobody@email.com" "password123")
              (example_login "alice.johnson@email.com" "letmein")
              {| LoginSchema.email := "nobody@email.com";
                 LoginSchema.password := "password123" |}
              {| LoginSchema.email := "alice.johnson@email.com";
                 LoginSchema.password := "letmein" |}
              example_customer
              eq_refl eq_refl eq_refl eq_refl eq_refl eq_refl eq_refl)
    as (_ & _ & Hsame).
  exact Hsame.
Defined.

Lemma create_vehicle_takes_customer_id_from_path_witness :
  let r := CustomerRoutes.create_vehicle (H := example_external)
             example_db_customer 5 (example_request example_vehicle_body) in
  ∃ vehicle_id new_vehicle,
    vehicles example_db_customer !! vehicle_id = None
    ∧ vehicles r.2 = <[vehicle_id := new_vehicle]> (vehicles example_db_customer)
    ∧ Vehicle.vehicle_id new_vehicle = vehicle_id
    ∧ Vehicle.customer_id new_vehicle = 5
    ∧ body r.1 = VehicleSchema.dump new_vehicle.
Proof.
  apply (create_vehicle_takes_customer_id_from_path (H := example_external)
           example_db_customer 5 (example_request example_vehicle_body)).
  vm_compute. reflexivity.
Defined.


(* ===================================================================== *)
(** ** Inventory: adjustments, deletions and the low-stock listing         *)
(* ===================================================================== *)

Section InventoryFacts.
Context `{External}.

Lemma adjust_part_quantity_ok (db : DB) (part_id : Z) (p : Part.t)
    (req : Request) (delta : Z) :
  parts db !! part_id = Some p →
  adjusts req delta →
  0 ≤ Part.quantity_in_stock p + delta →
  let r := Inventory.adjust_part_quantity db part_id req in
  status r.1 = 200
  ∧ r.2 = set_parts
            (<[part_id := Part.set_quantity_in_stock
                            (Part.quantity_in_stock p + delta) p]> (parts db)) db.
Proof.
  intros Hp (d & v & Hj & Hk & Hi) Hq r. subst r.
  destruct (json_lacks_key req d "adjustment" v Hj Hk) as [Hl Hg].
  unfold Inventory.adjust_part_quantity. rewrite Hp, Hl, Hg, Hi.
  apply Z.ltb_ge in Hq. rewrite Hq. split; reflexivity.
Qed.

(** An adjustment that answers 200 did not go below zero. *)
Lemma adjust_part_quantity_200 (db : DB) (part_id : Z) (p : Part.t)
    (req : Request) (delta : Z) :
  parts db !! part_id = Some p →
  adjusts req delta →
  status (Inventory.adjust_part_quantity db part_id req).1 = 200 →
  0 ≤ Part.quantity_in_stock p + delta.
Proof.
  intros Hp (d & v & Hj & Hk & Hi).
  destruct (json_lacks_key req d "adjustment" v Hj Hk) as [Hl Hg].
  unfold Inventory.adjust_part_quantity. rewrite Hp, Hl, Hg, Hi.
  destruct (Z.ltb_spec (Part.quantity_in_stock p + delta) 0) as [Hq|Hq];
    [discriminate|intros _; exact Hq].
Qed.

Lemma set_quantity_in_stock_id (p : Part.t) :
  Part.set_quantity_in_stock (Part.quantity_in_stock p) p = p.
Proof. destruct p; reflexivity. Qed.

Lemma set_parts_id (db : DB) : set_parts (parts db) db = db.
Proof. destruct db; reflexivity. Qed.

(** X1.  An adjustment touches one column of one row: whatever the request
    and its outcome, the other tables are as they were, no part appears
    or disappears, every other part is as it was, and the adjusted part
    differs from what it was in its [quantity_in_stock] at most. *)
Theorem adjust_part_quantity_frame (db : DB) (part_id : Z) (req : Request) :
  let db' := (Inventory.adjust_part_quantity db part_id req).2 in
  customers db' = customers db
  ∧ vehicles db' = vehicles db
  ∧ mechanics db' = mechanics db
  ∧ service_tickets db' = service_tickets db
  ∧ ticket_mechanics db' = ticket_mechanics db
  ∧ ticket_parts db' = ticket_parts db
  ∧ (∀ id, id ≠ part_id → parts db' !! id = parts db !! id)
  ∧ (∀ id, is_Some (parts db' !! id) ↔ is_Some (parts db !! id))
  ∧ (∀ p', parts db' !! part_id = Some p' →
       ∃ p, parts db !! part_id = Some p
            ∧ p' = Part.set_quantity_in_stock (Part.quantity_in_stock p') p).
Proof.
  intros db'. subst db'.
  destruct (adjust_part_quantity_cases db part_id req)
    as [[Hdb _]|(part & delta & Hpart & _ & _ & Hdb)]; rewrite Hdb.
  - split_and!; try reflexivity.
    intros p' Hp'. exists p'. split; [exact Hp'|].
    symmetry. apply set_quantity_in_stock_id.
  - simpl. split_and!; try reflexivity.
    + intros id Hne. apply lookup_insert_ne. congruence.
    + intros id. destruct (decide (id = part_id)) as [->|Hne].
      * rewrite lookup_insert_eq, Hpart. split; eauto.
      * rewrite lookup_insert_ne by congruence. reflexivity.
    + intros p'. rewrite lookup_insert_eq. intros [= <-].
      exists part. split; [exact Hpart|reflexivity].
Qed.

(** X2.  The numbers of a successful adjustment's response are those of
    the store: [previous_quantity] is the stock before the call,
    [new_quantity] the stock after it, their difference is [adjustment],
    and [part] is the dump of the stored row, with its [needs_reorder]
    flag computed from the new stock. *)
Theorem adjust_part_quantity_reports (db : DB) (part_id : Z) (req : Request) :
  let r := Inventory.adjust_part_quantity db part_id req in
  status r.1 = 200 →
  ∃ p p' delta,
    parts db !! part_id = Some p
    ∧ parts r.2 !! part_id = Some p'
    ∧ Part.quantity_in_stock p' = Part.quantity_in_stock p + delta
    ∧ Py.getitem (body r.1) "adjustment" = Py.Ok (Py.PInt delta)
    ∧ Py.getitem (body r.1) "previous_quantity"
      = Py.Ok (Py.PInt (Part.quantity_in_stock p))
    ∧ Py.getitem (body r.1) "new_quantity"
      = Py.Ok (Py.PInt (Part.quantity_in_stock p'))
    ∧ Py.getitem (body r.1) "part" = Py.Ok (Inventory.part_schema_dump p')
    ∧ Py.getitem (Inventory.part_schema_dump p') "needs_reorder"
      = Py.Ok (Py.PBool (bool_decide
                 (Part.quantity_in_stock p + delta ≤ Part.reorder_level p))).
Proof.
  intros r. subst r. unfold Inventory.adjust_part_quantity.
  destruct (parts db !! part_id) as [part|] eqn:Hp; [|discriminate].
  destruct (json_lacks req "adjustment") as [[|]|]; try discriminate.
  destruct (Py.getitem (json req) "adjustment") as [v|]; [|discriminate].
  destruct (Py.int int_of_str v) as [delta|e]; [|destruct e; discriminate].
  destruct (Z.ltb_spec (Part.quantity_in_stock part + delta) 0) as [Hq|Hq];
    [discriminate|].
  intros _. eexists part, _, delta. cbn [fst snd parts set_parts].
  rewrite lookup_insert_eq.
  split; [reflexivity|]. split; [reflexivity|].
  split; [reflexivity|]. split; [reflexivity|].
  split; [cbn; do 2 f_equal; lia|].
  split; [reflexivity|]. split; [reflexivity|].
  cbn. unfold Part.needs_reorder. cbn. do 2 f_equal.
  destruct (Z.leb_spec (Part.quantity_in_stock part + delta)
                       (Part.reorder_level part)).
  - rewrite bool_decide_eq_true_2; [reflexivity|assumption].
  - rewrite bool_decide_eq_false_2; [reflexivity|lia].
Qed.

(** X3.  Two adjustments in a row that both answer 200 leave the store
    that the single adjustment by their sum leaves. *)
Theorem adjust_part_quantity_composes (db : DB) (part_id : Z) (p : Part.t)
    (req1 req2 req12 : Request) (delta1 delta2 : Z) :
  parts db !! part_id = Some p →
  adjusts req1 delta1 →
  adjusts req2 delta2 →
  adjusts req12 (delta1 + delta2) →
  let r1 := Inventory.adjust_part_quantity db part_id req1 in
  let r2 := Inventory.adjust_part_quantity r1.2 part_id req2 in
  status r1.1 = 200 →
  status r2.1 = 200 →
  r2.2 = (Inventory.adjust_part_quantity db part_id req12).2.
Proof.
  intros Hp H1 H2 H12 r1 r2 Hs1 Hs2. subst r1 r2.
  pose proof (adjust_part_quantity_200 db part_id p req1 delta1 Hp H1 Hs1)
    as Hq1.
  destruct (adjust_part_quantity_ok db part_id p req1 delta1 Hp H1 Hq1)
    as [_ Hdb1].
  rewrite Hdb1 in Hs2.
  assert (Hq2 : 0 ≤ Part.quantity_in_stock p + delta1 + delta2).
  { apply (adjust_part_quantity_200 _ part_id
             (Part.set_quantity_in_stock (Part.quantity_in_stock p + delta1) p)
             req2 delta2) in Hs2; [exact Hs2| |exact H2].
    simpl. apply lookup_insert_eq. }
  clear Hs2 Hdb1.
  destruct (adjust_part_quantity_ok db part_id p req1 delta1 Hp H1 Hq1)
    as [_ ->].
  destruct (adjust_part_quantity_ok db part_id p req12 (delta1 + delta2) Hp H12)
    as [_ ->]; [lia|].
  match goal with
  | |- (Inventory.adjust_part_quantity ?d _ _).2 = _ =>
      destruct (adjust_part_quantity_ok d part_id
                  (Part.set_quantity_in_stock (Part.quantity_in_stock p + delta1) p)
                  req2 delta2) as [_ ->]
  end.
  - simpl. apply lookup_insert_eq.
  - exact H2.
  - simpl. lia.
  - unfold set_parts, Part.set_quantity_in_stock. cbn.
    rewrite insert_insert_eq, Z.add_assoc. reflexivity.
Qed.

(** X4.  An adjustment that answers 200, on a stock that is not negative
    and fits its column, is undone by the opposite adjustment: that one
    answers 200 too and the store is again what it was. *)
Theorem adjust_part_quantity_undo (db : DB) (part_id : Z) (p : Part.t)
    (req back : Request) (delta : Z) :
  parts db !! part_id = Some p →
  0 ≤ Part.quantity_in_stock p →
  fits_integer (Part.quantity_in_stock p) →
  adjusts req delta →
  adjusts back (- delta) →
  let r := Inventory.adjust_part_quantity db part_id req in
  let r' := Inventory.adjust_part_quantity r.2 part_id back in
  status r.1 = 200 →
  status r'.1 = 200 ∧ r'.2 = db.
Proof.
  intros Hp Hq0 _ H1 H2 r r' Hs. subst r r'.
  pose proof (adjust_part_quantity_200 db part_id p req delta Hp H1 Hs) as Hq.
  clear Hs.
  destruct (adjust_part_quantity_ok db part_id p req delta Hp H1 Hq)
    as [_ ->].
  match goal with
  | |- status (Inventory.adjust_part_quantity ?d _ _).1 = _ ∧ _ =>
      destruct (adjust_part_quantity_ok d part_id
                  (Part.set_quantity_in_stock (Part.quantity_in_stock p + delta) p)
                  back (- delta)) as [Hs' ->]
  end.
  - simpl. apply lookup_insert_eq.
  - exact H2.
  - simpl. lia.
  - split; [exact Hs'|].
    unfold set_parts. cbn. rewrite insert_insert_eq.
    replace (Part.set_quantity_in_stock _ _) with p.
    + rewrite insert_id by exact Hp. destruct db; reflexivity.
    + unfold Part.set_quantity_in_stock. cbn.
      replace (Part.quantity_in_stock p + delta + - delta)
        with (Part.quantity_in_stock p) by lia.
      destruct p; reflexivity.
Qed.

End InventoryFacts.


Section InventoryTables.
Context `{External}.

Lemma used_false (db : DB) (part_id : Z) :
  InventoryParts.used db part_id = false
  ↔ ∀ ticket_id, ticket_parts db !! (ticket_id, part_id) = None.
Proof.
  unfold InventoryParts.used. split.
  - intros Hu t. destruct (ticket_parts db !! (t, part_id)) as [tp|] eqn:E;
      [|reflexivity].
    apply elem_of_map_to_list in E.
    assert (Hex : existsb (fun kv : Z * Z * TicketPart.t => kv.1.2 =? part_id)
                    (map_to_list (ticket_parts db)) = true).
    { apply existsb_exists. exists ((t, part_id), tp).
      split; [apply list_elem_of_In; exact E|apply Z.eqb_refl]. }
    congruence.
  - intros Hn. apply not_true_is_false. intros Hex.
    apply existsb_exists in Hex as ([[t p] tp] & Hin & Heq).
    simpl in Heq. apply Z.eqb_eq in Heq. subst p.
    apply list_elem_of_In, elem_of_map_to_list in Hin.
    rewrite Hn in Hin. discriminate.
Qed.

(** X5.  A part that some ticket uses is not deleted: the request fails
    and the store is as it was.  A part that no ticket uses is deleted:
    it can no longer be read, and every other part reads as before. *)
Theorem delete_part_cases (db : DB) (part_id : Z) (p : Part.t) :
  parts db !! part_id = Some p →
  let r := InventoryParts.delete_part db part_id in
  (InventoryParts.used db part_id = true → status r.1 ≠ 200 ∧ r.2 = db)
  ∧ (InventoryParts.used db part_id = false →
       status r.1 = 200
       ∧ InventoryParts.get_part r.2 part_id = (error "Part not found" 404, r.2)
       ∧ ticket_parts r.2 = ticket_parts db
       ∧ ∀ id, id ≠ part_id →
           (InventoryParts.get_part r.2 id).1 = (InventoryParts.get_part db id).1).
Proof.
  intros Hp r. subst r. unfold InventoryParts.delete_part. rewrite Hp.
  split; intros Hu; rewrite Hu.
  - split; [discriminate|reflexivity].
  - cbn [fst snd]. split; [reflexivity|].
    unfold InventoryParts.get_part. cbn [parts set_parts].
    rewrite lookup_delete_eq. split; [reflexivity|]. split; [reflexivity|].
    intros id Hne. rewrite lookup_delete_ne by congruence.
    destruct (parts db !! id); reflexivity.
Qed.

(** X6.  No handler of the inventory leaves a ticket line that points to
    a missing part: when every row of [ticket_parts] is about a stored
    part, it is still so after an adjustment, after a part was attached
    to a ticket and after a deletion, whatever their outcome. *)
Theorem ticket_parts_have_parts_kept (db : DB) :
  ticket_parts_have_parts db →
  (∀ part_id req,
     ticket_parts_have_parts (Inventory.adjust_part_quantity db part_id req).2)
  ∧ (∀ ticket_id part_id req,
       ticket_parts_have_parts
         (ServiceTicketRoutes.add_part_to_ticket db ticket_id part_id req).2)
  ∧ (∀ part_id,
       ticket_parts_have_parts (InventoryParts.delete_part db part_id).2).
Proof.
  intros Hinv. split_and!.
  - intros part_id req.
    destruct (adjust_part_quantity_cases db part_id req)
      as [[Hdb _]|(part & delta & Hpart & _ & _ & Hdb)]; rewrite Hdb;
      [exact Hinv|].
    intros t pid tp. cbn. intros Htp.
    destruct (decide (pid = part_id)) as [->|Hne].
    + rewrite lookup_insert_eq. eauto.
    + rewrite lookup_insert_ne by congruence. eapply Hinv, Htp.
  - intros ticket_id part_id req.
    destruct (add_part_to_ticket_cases db ticket_id part_id req)
      as [[Hdb _]|(part & v & q & tp & _ & Hpart & _ & _ & _ & _ & T1 & T2 & _ & _ & Hdb)];
      rewrite Hdb; [exact Hinv|].
    intros t pid tp'. unfold attached. cbn. rewrite T1, T2. intros Htp.
    destruct (decide (pid = part_id)) as [->|Hne].
    + rewrite lookup_insert_eq. eauto.
    + rewrite lookup_insert_ne in Htp by congruence.
      rewrite lookup_insert_ne by congruence. eapply Hinv, Htp.
  - intros part_id. unfold InventoryParts.delete_part.
    destruct (parts db !! part_id) as [part|] eqn:Hp; [|exact Hinv].
    destruct (InventoryParts.used db part_id) eqn:Hu; [exact Hinv|].
    intros t pid tp. cbn. intros Htp.
    destruct (decide (pid = part_id)) as [->|Hne].
    + rewrite (proj1 (used_false db part_id) Hu t) in Htp. discriminate.
    + rewrite lookup_delete_ne by congruence. eapply Hinv, Htp.
Qed.

Lemma foldr_add_perm (l l' : list Z) :
  l ≡ₚ l' → foldr Z.add 0 l = foldr Z.add 0 l'.
Proof.
  induction 1 as [|x l l' _ IH|x y l|l l' l'' _ IH1 _ IH2]; simpl; lia.
Qed.

(** X7.  Attaching a part to a ticket moves units, it does not create or
    lose any: for every part of the store, the stock plus the units that
    the rows of [ticket_parts] record as used is the same after the call
    as before it, whatever the outcome of the call. *)
Theorem add_part_to_ticket_conserves_units (db : DB) (ticket_id part_id : Z)
    (req : Request) (id : Z) (p : Part.t) :
  parts db !! id = Some p →
  let r := ServiceTicketRoutes.add_part_to_ticket db ticket_id part_id req in
  ∃ p', parts r.2 !! id = Some p'
        ∧ Part.quantity_in_stock p' + units_on_tickets r.2 id
          = Part.quantity_in_stock p + units_on_tickets db id.
Proof.
  intros Hp r. subst r.
  destruct (add_part_to_ticket_cases db ticket_id part_id req)
    as [[Hdb _]|(part & v & q & tp & _ & Hpart & Hnone & _ & _ & _ & T1 & T2 & T3 & _ & Hdb)];
    rewrite Hdb; [eauto|].
  unfold attached, units_on_tickets. cbn [parts ticket_parts set_parts set_ticket_parts].
  rewrite T1, T2, T3.
  rewrite (foldr_add_perm _ _
             (fmap_Permutation _ _ _
                (map_to_list_insert (ticket_parts db) (ticket_id, part_id) tp Hnone))).
  cbn [fmap list_fmap foldr fst snd].
  destruct (decide (part_id = id)) as [->|Hne].
  - rewrite lookup_insert_eq. eexists; split; [reflexivity|].
    rewrite Z.eqb_refl, T3. cbn.
    assert (p = part) by congruence. subst. lia.
  - rewrite lookup_insert_ne by congruence. exists p. split; [exact Hp|].
    destruct (Z.eqb_spec part_id id); [contradiction|]. lia.
Qed.

(** X8.  The low-stock listing follows the adjustments: after an
    adjustment that answers 200, the listing with [low_stock=true] (in any
    letter case) and no category has the adjusted part exactly when its
    new stock is at most its reorder level. *)
Theorem low_stock_listing_after_adjust (db : DB) (part_id : Z) (p : Part.t)
    (req listing : Request) (delta : Z) :
  parts db !! part_id = Some p →
  adjusts req delta →
  status (Inventory.adjust_part_quantity db part_id req).1 = 200 →
  Py.lower (MechanicRoutes.args_get listing "low_stock" "false") = "true" →
  InventoryParts.args_find listing "category" = None →
  let db' := (Inventory.adjust_part_quantity db part_id req).2 in
  let p' := Part.set_quantity_in_stock (Part.quantity_in_stock p + delta) p in
  parts db' !! part_id = Some p'
  ∧ (InventoryParts.get_parts db' listing).1
    = {| body := Py.PList (Inventory.part_schema_dump
                             <$> InventoryParts.listed_parts db' listing);
         status := 200 |}
  ∧ (p' ∈ InventoryParts.listed_parts db' listing
     ↔ Part.quantity_in_stock p + delta ≤ Part.reorder_level p).
Proof.
  intros Hp Ha Hs Hlow Hcat db' p'. subst db'.
  pose proof (adjust_part_quantity_200 db part_id p req delta Hp Ha Hs) as Hq.
  destruct (adjust_part_quantity_ok db part_id p req delta Hp Ha Hq) as [_ ->].
  cbn [parts set_parts]. fold p'.
  split; [apply lookup_insert_eq|]. split; [reflexivity|].
  unfold InventoryParts.listed_parts. rewrite Hlow, Hcat.
  cbn [String.eqb Ascii.eqb Bool.eqb InventoryParts.select_parts parts set_parts].
  rewrite list_elem_of_In, filter_In. unfold Part.needs_reorder at 1.
  subst p'. cbn [Part.quantity_in_stock Part.reorder_level Part.set_quantity_in_stock].
  rewrite Z.leb_le. split; [tauto|]. intros Hle. split; [|exact Hle].
  apply list_elem_of_In, list_elem_of_fmap.
  eexists (part_id, _). split; [reflexivity|].
  apply elem_of_map_to_list, lookup_insert_eq.
Qed.

End InventoryTables.


(* ===================================================================== *)
(** ** Service tickets: assigning and removing one mechanic                *)
(* ===================================================================== *)

Section AssignFacts.
Context `{External}.
Import ServiceTicketEdit ServiceTicketAssign.

Lemma set_ticket_mechanics_id (db : DB) :
  set_ticket_mechanics (ticket_mechanics db) db = db.
Proof. destruct db; reflexivity. Qed.

(** Every outcome of [assign_mechanic]: an error that leaves the store as
    it was, or a new row for a pair that had none. *)
Lemma assign_mechanic_cases (db : DB) (t m : Z) (req : Request) :
  let r := assign_mechanic db t m req in
  (r.2 = db ∧ status r.1 ≠ 200)
  ∨ (∃ role minutes ro mw,
       is_Some (service_tickets db !! t)
       ∧ is_Some (get_mechanic db m)
       ∧ ticket_mechanics db !! (t, m) = None
       ∧ role_and_minutes req = Py.Ok (role, minutes)
       ∧ role_column role = Some ro
       ∧ minutes_column minutes = Some mw
       ∧ status r.1 = 200
       ∧ r.2 = set_ticket_mechanics
                 (<[(t, m) := new_row t ro mw m]> (ticket_mechanics db)) db).
Proof.
  intros r. subst r. unfold assign_mechanic.
  destruct (service_tickets db !! t) as [ticket|] eqn:Ht;
    [|left; split; [reflexivity|discriminate]].
  destruct (get_mechanic db m) as [mech|] eqn:Hm;
    [|left; split; [reflexivity|discriminate]].
  destruct (ticket_mechanics db !! (t, m)) as [row|] eqn:Hrow;
    [left; split; [reflexivity|discriminate]|].
  destruct (role_and_minutes req) as [[role minutes]|e] eqn:Hrm;
    [|left; split; [reflexivity|discriminate]].
  destruct (role_column role) as [ro|] eqn:Hro;
    [destruct (minutes_column minutes) as [mw|] eqn:Hmw|].
  - right. exists role, minutes, ro, mw. split_and!; eauto.
  - left. destruct role, minutes; split; (reflexivity || discriminate).
  - left. destruct role, minutes; split; (reflexivity || discriminate).
Qed.

(** Every outcome of [remove_mechanic]. *)
Lemma remove_mechanic_cases (db : DB) (t m : Z) :
  let r := remove_mechanic db t m in
  (r.2 = db ∧ status r.1 ≠ 200)
  ∨ (∃ row,
       is_Some (service_tickets db !! t)
       ∧ is_Some (get_mechanic db m)
       ∧ ticket_mechanics db !! (t, m) = Some row
       ∧ status r.1 = 200
       ∧ r.2 = set_ticket_mechanics (delete (t, m) (ticket_mechanics db)) db).
Proof.
  intros r. subst r. unfold remove_mechanic.
  destruct (service_tickets db !! t) as [ticket|] eqn:Ht;
    [|left; split; [reflexivity|discriminate]].
  destruct (get_mechanic db m) as [mech|] eqn:Hm;
    [|left; split; [reflexivity|discriminate]].
  destruct (ticket_mechanics db !! (t, m)) as [row|] eqn:Hrow;
    [|left; split; [reflexivity|discriminate]].
  right. exists row. split_and!; eauto.
Qed.

(** X9.  Removing a mechanic after an assignment that answered 200 gives
    back the store: the removal answers 200 and the store after it is the
    store before the assignment. *)
Theorem assign_then_remove_mechanic (db : DB) (t m : Z) (req : Request) :
  let r := assign_mechanic db t m req in
  let r' := remove_mechanic r.2 t m in
  status r.1 = 200 →
  status r'.1 = 200 ∧ r'.2 = db.
Proof.
  intros r r'. subst r r'.
  destruct (assign_mechanic_cases db t m req)
    as [[_ Hs]|(role & minutes & ro & mw & Ht & Hm & Hrow & _ & _ & _ & _ & ->)];
    [intros; contradiction|intros _].
  destruct Ht as [ticket Ht]. destruct Hm as [mech Hm].
  unfold remove_mechanic. cbn [service_tickets set_ticket_mechanics].
  rewrite Ht.
  change (get_mechanic (set_ticket_mechanics _ db) m) with (get_mechanic db m).
  rewrite Hm. cbn [ticket_mechanics set_ticket_mechanics]. rewrite lookup_insert_eq.
  cbn [fst snd status]. split; [reflexivity|].
  unfold set_ticket_mechanics. cbn.
  rewrite delete_insert_id by exact Hrow. destruct db; reflexivity.
Qed.

(** X10.  A mechanic is assigned to a ticket once: after an assignment
    that succeeded, the same assignment is refused with a 400, whatever
    its body, and changes nothing. *)
Theorem assign_mechanic_twice (db : DB) (t m : Z) (req req' : Request) :
  let r := assign_mechanic db t m req in
  status r.1 = 200 →
  assign_mechanic r.2 t m req'
  = (error "Mechanic is already assigned to this ticket." 400, r.2).
Proof.
  intros r. subst r.
  destruct (assign_mechanic_cases db t m req)
    as [[_ Hs]|(role & minutes & ro & mw & [ticket Ht] & [mech Hm] & _ & _ & _ & _ & _ & ->)];
    [intros; contradiction|].
  intros _. unfold assign_mechanic at 1.
  cbn [service_tickets set_ticket_mechanics]. rewrite Ht.
  change (get_mechanic (set_ticket_mechanics _ db) m) with (get_mechanic db m).
  rewrite Hm. cbn [ticket_mechanics set_ticket_mechanics]. rewrite lookup_insert_eq. reflexivity.
Qed.

Lemma edit_add_body_loads (m : Z) (ro : string) (mw : Z) :
  EditTicketMechanicsSchema.load (edit_add_body m ro mw)
  = inl {| EditTicketMechanicsSchema.add_ids := Some [m];
           EditTicketMechanicsSchema.remove_ids := Some [];
           EditTicketMechanicsSchema.role := Some ro;
           EditTicketMechanicsSchema.minutes_worked := Some mw |}.
Proof. reflexivity. Qed.

Lemma edit_remove_body_loads (m : Z) :
  EditTicketMechanicsSchema.load (edit_remove_body m)
  = inl {| EditTicketMechanicsSchema.add_ids := Some [];
           EditTicketMechanicsSchema.remove_ids := Some [m];
           EditTicketMechanicsSchema.role := Some "Technician";
           EditTicketMechanicsSchema.minutes_worked := Some 0 |}.
Proof. reflexivity. Qed.

(** X11.  The single assignment and the batch edit agree: on a ticket
    that exists, assigning a mechanic with a role and minutes leaves the
    store that the batch edit with that mechanic as its only [add_ids]
    entry and the same role and minutes leaves, in the case where the
    mechanic is added as in the cases where the request is refused. *)
Theorem assign_mechanic_agrees_with_edit (db : DB) (t m : Z) (req : Request)
    (ro : string) (mw : Z) :
  is_Some (service_tickets db !! t) →
  role_and_minutes req = Py.Ok (Py.PStr ro, Py.PInt mw) →
  (assign_mechanic db t m req).2
  = (edit_ticket_mechanics db t (request_of (edit_add_body m ro mw))).2.
Proof.
  intros Ht Hrm.
  rewrite (edit_ticket_mechanics_loops db t (request_of (edit_add_body m ro mw)) _
             Ht eq_refl (edit_add_body_loads m ro mw)).
  destruct Ht as [ticket Ht].
  unfold assign_mechanic. rewrite Ht.
  cbn [snd]. set (st := add_loop _ _ _ _ _ _).
  change st with (add_step db t ro mw (edit_start db) m). clear st.
  unfold add_step, edit_start. cbn [table].
  destruct (get_mechanic db m) as [mech|];
    [|symmetry; apply set_ticket_mechanics_id].
  destruct (ticket_mechanics db !! (t, m)) as [row|];
    [symmetry; apply set_ticket_mechanics_id|].
  rewrite Hrm. reflexivity.
Qed.

(** X12.  The single removal and the batch edit agree: for a ticket and a
    mechanic that exist, removing the mechanic leaves the store that the
    batch edit with that mechanic as its only [remove_ids] entry leaves. *)
Theorem remove_mechanic_agrees_with_edit (db : DB) (t m : Z) :
  is_Some (service_tickets db !! t) →
  is_Some (get_mechanic db m) →
  (remove_mechanic db t m).2
  = (edit_ticket_mechanics db t (request_of (edit_remove_body m))).2.
Proof.
  intros Ht Hm.
  rewrite (edit_ticket_mechanics_loops db t (request_of (edit_remove_body m)) _
             Ht eq_refl (edit_remove_body_loads m)).
  destruct Ht as [ticket Ht]. destruct Hm as [mech Hm].
  unfold remove_mechanic. rewrite Ht, Hm.
  cbn [snd]. set (st := add_loop _ _ _ _ _ _).
  change st with (remove_step t (edit_start db) m). clear st.
  unfold remove_step, edit_start. cbn [table].
  destruct (ticket_mechanics db !! (t, m)) as [row|]; cbn [table snd].
  - reflexivity.
  - symmetry. apply set_ticket_mechanics_id.
Qed.

Lemma ticket_count_insert (db : DB) (k : Z * Z) (row : TicketMechanic.t)
    (x : Mechanic.t) :
  ticket_mechanics db !! k = None →
  ticket_count (set_ticket_mechanics (<[k := row]> (ticket_mechanics db)) db) x
  = ticket_count db x
    + (if bool_decide (k.2 = Mechanic.mechanic_id x) then 1 else 0).
Proof.
  intros Hk. unfold ticket_count. cbn [ticket_mechanics set_ticket_mechanics].
  rewrite (Permutation_length
             (filter_Permutation _ _ _ (map_to_list_insert _ k row Hk))).
  rewrite filter_cons. cbn [fst snd].
  destruct (decide (k.2 = Mechanic.mechanic_id x)) as [Heq|Hne].
  - rewrite bool_decide_eq_true_2 by exact Heq. cbn [length]. lia.
  - rewrite bool_decide_eq_false_2 by exact Hne. lia.
Qed.

Lemma ticket_count_delete (db : DB) (k : Z * Z) (row : TicketMechanic.t)
    (x : Mechanic.t) :
  ticket_mechanics db !! k = Some row →
  ticket_count (set_ticket_mechanics (delete k (ticket_mechanics db)) db) x
  = ticket_count db x
    - (if bool_decide (k.2 = Mechanic.mechanic_id x) then 1 else 0).
Proof.
  intros Hk. unfold ticket_count. cbn [ticket_mechanics set_ticket_mechanics].
  rewrite <- (Permutation_length
                (filter_Permutation _ _ _ (map_to_list_delete _ k row Hk))).
  rewrite filter_cons. cbn [fst snd].
  destruct (decide (k.2 = Mechanic.mechanic_id x)) as [Heq|Hne].
  - rewrite bool_decide_eq_true_2 by exact Heq. cbn [length]. lia.
  - rewrite bool_decide_eq_false_2 by exact Hne. lia.
Qed.

(** X13.  The activity count follows the assignments: a successful
    assignment raises the [ticket_count] of the assigned mechanic by one
    and a successful removal lowers it by one; the count of every other
    mechanic is as it was. *)
Theorem ticket_count_follows_assignments (db : DB) (t m : Z) (req : Request) :
  (status (assign_mechanic db t m req).1 = 200 →
   ∀ x, ticket_count (assign_mechanic db t m req).2 x
        = ticket_count db x
          + (if bool_decide (Mechanic.mechanic_id x = m) then 1 else 0))
  ∧ (status (remove_mechanic db t m).1 = 200 →
     ∀ x, ticket_count (remove_mechanic db t m).2 x
          = ticket_count db x
            - (if bool_decide (Mechanic.mechanic_id x = m) then 1 else 0)).
Proof.
  split.
  - destruct (assign_mechanic_cases db t m req)
      as [[_ Hs]|(role & minutes & ro & mw & _ & _ & Hrow & _ & _ & _ & _ & ->)];
      [intros; contradiction|].
    intros _ x. rewrite ticket_count_insert by exact Hrow. cbn [snd].
    f_equal. apply (f_equal (fun b : bool => if b then 1 else 0)).
    apply bool_decide_ext. split; congruence.
  - destruct (remove_mechanic_cases db t m)
      as [[_ Hs]|(row & _ & _ & Hrow & _ & ->)];
      [intros; contradiction|].
    intros _ x. rewrite (ticket_count_delete _ _ row) by exact Hrow. cbn [snd].
    f_equal. apply (f_equal (fun b : bool => if b then 1 else 0)).
    apply bool_decide_ext. split; congruence.
Qed.

(** X14.  A batch edit is idempotent on the store: sending the same
    accepted batch a second time leaves the junction table, and the whole
    store, as the first call left them. *)
Theorem edit_ticket_mechanics_idempotent (db : DB) (t : Z) (req : Request)
    (data : EditTicketMechanicsSchema.data) :
  is_Some (service_tickets db !! t) →
  Py.truthy (json req) = true →
  EditTicketMechanicsSchema.load (json req) = inl data →
  let r := edit_ticket_mechanics db t req in
  (edit_ticket_mechanics r.2 t req).2 = r.2.
Proof.
  intros Ht Hj Hl r. subst r.
  rewrite (edit_ticket_mechanics_loops db t req data Ht Hj Hl). cbn [snd].
  match goal with
  | |- (edit_ticket_mechanics ?d _ _).2 = _ =>
      rewrite (edit_ticket_mechanics_loops d t req data Ht Hj Hl)
  end.
  cbn [snd].
  set (role := default "Technician" (EditTicketMechanicsSchema.role data)).
  set (mw := default 0 (EditTicketMechanicsSchema.minutes_worked data)).
  set (adds := default [] (EditTicketMechanicsSchema.add_ids data)).
  set (rems := default [] (EditTicketMechanicsSchema.remove_ids data)).
  set (T1 := table (add_loop db t role mw adds
                      (remove_loop t rems (edit_start db)))).
  set (db1 := set_ticket_mechanics T1 db).
  assert (HT : table (add_loop db1 t role mw adds
                        (remove_loop t rems (edit_start db1))) = T1).
  { apply map_eq. intros [t' m'].
    rewrite (add_loop_lookup db1 t role mw adds _ t' m').
    rewrite (remove_loop_lookup t rems _ t' m').
    change (table (edit_start db1)) with T1.
    change (get_mechanic db1 m') with (get_mechanic db m').
    subst T1.
    rewrite (add_loop_lookup db t role mw adds _ t' m').
    rewrite (remove_loop_lookup t rems _ t' m').
    destruct (decide (t' = t ∧ m' ∈ rems)) as [Hr|Hr]; [reflexivity|].
    destruct (table (edit_start db) !! (t', m')) as [row|]; [reflexivity|].
    destruct (decide (t' = t ∧ m' ∈ adds ∧ is_Some (get_mechanic db m')));
      reflexivity. }
  rewrite HT. reflexivity.
Qed.

(** X15.  The batches with nothing to do.  A JSON body that is false as a
    Python value (the empty object, although every field of the schema
    has a default, as well as [null], the empty list, zero and the empty
    text) is refused as a missing body; an accepted body whose two lists
    are empty changes nothing and reports nothing. *)
Theorem edit_ticket_mechanics_empty (db : DB) (t : Z) :
  is_Some (service_tickets db !! t) →
  (∀ req, Py.truthy (json req) = false →
     edit_ticket_mechanics db t req = (error "No JSON data provided" 400, db))
  ∧ (∀ req data,
       Py.truthy (json req) = true →
       EditTicketMechanicsSchema.load (json req) = inl data →
       EditTicketMechanicsSchema.add_ids data = Some [] →
       EditTicketMechanicsSchema.remove_ids data = Some [] →
       edit_ticket_mechanics db t req
       = ({| body := Py.PDict [
               ("message", Py.PStr "Ticket mechanics updated successfully");
               ("ticket_id", Py.PInt t);
               ("added_mechanics", Py.PList []);
               ("removed_mechanics", Py.PList [])
             ];
             status := 200 |}, db)).
Proof.
  intros Ht. split.
  - intros req Hj. destruct Ht as [ticket Ht].
    unfold edit_ticket_mechanics. rewrite Ht, Hj. reflexivity.
  - intros req data Hj Hl Ha Hr.
    rewrite (edit_ticket_mechanics_loops db t req data Ht Hj Hl).
    rewrite Ha, Hr. cbn. f_equal. destruct db; reflexivity.
Qed.

End AssignFacts.


(* ===================================================================== *)
(** ** Customers: the pages of the listing                                 *)
(* ===================================================================== *)

Section Pagination.
Context `{External}.
Import CustomerListing.

Lemma concat_chunks {A} (l : list A) (n k : nat) :
  concat ((fun i : nat => take n (drop (i * n) l)) <$> seq 0 k)
  = take (k * n) l.
Proof.
  induction k as [|k IH].
  - reflexivity.
  - rewrite seq_S, fmap_app, concat_app, IH. cbn [fmap list_fmap concat plus].
    rewrite app_nil_r, take_take_drop. f_equal. lia.
Qed.

Lemma page_rows_chunk (db : DB) (per_page : Z) (i : nat) :
  0 ≤ per_page →
  page_rows db (Z.of_nat i + 1) per_page
  = take (Z.to_nat per_page) (drop (i * Z.to_nat per_page) (rows db)).
Proof.
  intros Hn. unfold page_rows. do 2 f_equal.
  replace (Z.of_nat i + 1 - 1) with (Z.of_nat i) by lia.
  rewrite Z2Nat.inj_mul, Nat2Z.id by lia. reflexivity.
Qed.

Lemma total_pages_enough (db : DB) (per_page : Z) :
  1 ≤ per_page →
  0 ≤ total_pages db per_page
  ∧ Z.of_nat (length (rows db)) ≤ total_pages db per_page * per_page.
Proof.
  intros Hn. unfold total_pages.
  set (T := Z.of_nat (length (rows db))).
  assert (0 ≤ T) by (subst T; lia).
  pose proof (Z.div_mod (T + per_page - 1) per_page ltac:(lia)) as Hdm.
  pose proof (Z.mod_pos_bound (T + per_page - 1) per_page ltac:(lia)) as Hb.
  split; [apply Z.div_pos; lia|]. nia.
Qed.

Lemma has_next_iff (T n p : Z) :
  1 ≤ n → p < (T + n - 1) / n ↔ p * n < T.
Proof.
  intros Hn.
  pose proof (Z.div_mod (T + n - 1) n ltac:(lia)) as Hdm.
  pose proof (Z.mod_pos_bound (T + n - 1) n ltac:(lia)) as Hb.
  split; intros Hp.
  - nia.
  - assert (p + 1 ≤ (T + n - 1) / n); [|lia].
    apply Z.div_le_lower_bound; lia.
Qed.

(** X16.  The pages of the customer listing cover the table: for a valid
    page and page size, with an offset that the store takes, the handler
    answers 200 with the rows of that page, at most [per_page] of them,
    and changes nothing; and the pages from 1 to [total_pages], one after
    the other, are the rows of the table, each row once and in the order
    of the table. *)
Theorem get_customers_pages_cover (db : DB) (req : Request) :
  let page := args_get_int req "page" 1 in
  let per_page := args_get_int req "per_page" 10 in
  1 ≤ page →
  1 ≤ per_page ≤ 100 →
  fits_offset ((page - 1) * per_page) →
  let r := get_customers db req in
  r.2 = db
  ∧ status r.1 = 200
  ∧ Py.getitem (body r.1) "customers"
    = Py.Ok (Py.PList (CustomerSchema.dump <$> page_rows db page per_page))
  ∧ (length (page_rows db page per_page) ≤ Z.to_nat per_page)%nat
  ∧ pages_upto db per_page (Z.to_nat (total_pages db per_page)) = rows db.
Proof.
  intros page per_page Hpage Hper _ r. subst r. unfold get_customers.
  fold page per_page.
  destruct (Z.ltb_spec page 1); [lia|].
  destruct (Z.ltb_spec per_page 1); [lia|].
  destruct (Z.ltb_spec 100 per_page); [lia|].
  cbn [orb fst snd status body].
  split; [reflexivity|]. split; [reflexivity|]. split; [reflexivity|].
  split.
  - unfold page_rows. rewrite length_take. lia.
  - unfold pages_upto.
    rewrite (list_fmap_ext _
               (fun i : nat => take (Z.to_nat per_page)
                                 (drop (i * Z.to_nat per_page) (rows db)))
               (seq 0 (Z.to_nat (total_pages db per_page)))
               (fun _ i _ => page_rows_chunk db per_page i ltac:(lia))).
    rewrite concat_chunks. apply take_ge.
    destruct (total_pages_enough db per_page ltac:(lia)) as [Htp0 Hle].
    apply Nat2Z.inj_le. rewrite Nat2Z.inj_mul, !Z2Nat.id by lia. exact Hle.
Qed.

(** X17.  The flags of the listing say what is there: for a valid page
    and page size, with offsets of the page and of the next one that the
    store takes, [has_next] is true exactly when the next page has a row,
    [has_prev] exactly when the page is not the first, and a page after
    the last one is answered with no rows. *)
Theorem get_customers_flags (db : DB) (req : Request) :
  let page := args_get_int req "page" 1 in
  let per_page := args_get_int req "per_page" 10 in
  1 ≤ page →
  1 ≤ per_page ≤ 100 →
  fits_offset (page * per_page) →
  let r := get_customers db req in
  ∃ pagination,
    Py.getitem (body r.1) "pagination" = Py.Ok pagination
    ∧ Py.getitem pagination "has_next"
      = Py.Ok (Py.PBool (bool_decide (page_rows db (page + 1) per_page ≠ [])))
    ∧ Py.getitem pagination "has_prev" = Py.Ok (Py.PBool (bool_decide (1 < page)))
    ∧ Py.getitem pagination "total_customers"
      = Py.Ok (Py.PInt (Z.of_nat (size (customers db))))
    ∧ (total_pages db per_page < page → page_rows db page per_page = []).
Proof.
  intros page per_page Hpage Hper _ r. subst r. unfold get_customers.
  fold page per_page.
  destruct (Z.ltb_spec page 1); [lia|].
  destruct (Z.ltb_spec per_page 1); [lia|].
  destruct (Z.ltb_spec 100 per_page); [lia|].
  cbn [orb fst snd status body]. eexists. split; [reflexivity|].
  assert (Hlen : ∀ p, 1 ≤ p →
            (page_rows db p per_page ≠ [] ↔ (p - 1) * per_page < Z.of_nat (length (rows db)))).
  { intros p Hp. unfold page_rows.
    set (off := Z.to_nat ((p - 1) * per_page)).
    assert (Hoff : Z.of_nat off = (p - 1) * per_page) by (subst off; nia).
    rewrite <- Hoff.
    assert (Hl : length (take (Z.to_nat per_page) (drop off (rows db)))
                 = Nat.min (Z.to_nat per_page) (length (rows db) - off))
      by (rewrite length_take, length_drop; reflexivity).
    split.
    - intros Hne. destruct (take _ _) eqn:E; [contradiction|].
      cbn [length] in Hl. lia.
    - intros Hlt Hnil. rewrite Hnil in Hl. cbn [length] in Hl. lia. }
  split_and!.
  - cbn. do 2 f_equal.
    destruct (Z.ltb_spec page (total_pages db per_page)) as [Hlt|Hge].
    + symmetry. apply bool_decide_eq_true_2. apply Hlen; [lia|].
      unfold total_pages in Hlt. apply has_next_iff in Hlt; [|lia].
      replace (page + 1 - 1) with page by lia. exact Hlt.
    + symmetry. apply bool_decide_eq_false_2. intros Hne.
      apply Hlen in Hne; [|lia].
      replace (page + 1 - 1) with page in Hne by lia.
      apply (has_next_iff _ per_page page) in Hne; [|lia].
      unfold total_pages in Hge. lia.
  - cbn. do 2 f_equal. destruct (Z.ltb_spec 1 page).
    + symmetry. apply bool_decide_eq_true_2. assumption.
    + symmetry. apply bool_decide_eq_false_2. lia.
  - cbn. do 2 f_equal. unfold rows.
    rewrite length_fmap, length_map_to_list. reflexivity.
  - intros Hlast.
    destruct (page_rows db page per_page) eqn:E; [reflexivity|exfalso].
    assert (Hne : page_rows db page per_page ≠ []) by (rewrite E; discriminate).
    apply Hlen in Hne; [|lia].
    apply (has_next_iff _ per_page (page - 1)) in Hne; [|lia].
    unfold total_pages in Hlast. lia.
Qed.

End Pagination.


(* ===================================================================== *)
(** ** Vehicles                                                            *)
(* ===================================================================== *)

Section VehicleFacts.
Context `{External}.
Import CustomerRoutes VehicleRoutes.

Lemma existsb_vin_false (db : DB) (vin : string) :
  existsb (fun kv : Z * Vehicle.t => String.eqb (Vehicle.vin kv.2) vin)
          (map_to_list (vehicles db)) = false →
  ∀ i vi, vehicles db !! i = Some vi → Vehicle.vin vi ≠ vin.
Proof.
  intros Hex i vi Hi Heq.
  assert (Ht : existsb (fun kv : Z * Vehicle.t => String.eqb (Vehicle.vin kv.2) vin)
                 (map_to_list (vehicles db)) = true); [|congruence].
  apply existsb_exists. exists (i, vi). split.
  - apply list_elem_of_In, elem_of_map_to_list. exact Hi.
  - apply String.eqb_eq. exact Heq.
Qed.

Lemma has_tickets_false (db : DB) (vehicle_id : Z) :
  has_tickets db vehicle_id = false →
  ∀ t ticket, service_tickets db !! t = Some ticket →
              ServiceTicket.vehicle_id ticket ≠ vehicle_id.
Proof.
  intros Hex t ticket Ht Heq.
  assert (Htrue : has_tickets db vehicle_id = true); [|congruence].
  apply existsb_exists. exists (t, ticket). split.
  - apply list_elem_of_In, elem_of_map_to_list. exact Ht.
  - apply Z.eqb_eq. exact Heq.
Qed.

(** Every outcome of [create_vehicle]: the store as it was, or one new
    vehicle of the customer of the path, under a key that was free and
    with a VIN that no vehicle had. *)
Lemma create_vehicle_cases (db : DB) (customer_id : Z) (req : Request) :
  let r := create_vehicle db customer_id req in
  (r.2 = db ∧ status r.1 ≠ 201)
  ∨ (∃ v, Vehicle.customer_id v = customer_id
          ∧ is_Some (customers db !! customer_id)
          ∧ int_of_str (jwt_identity req) = Some customer_id
          ∧ (∀ i vi, vehicles db !! i = Some vi → Vehicle.vin vi ≠ Vehicle.vin v)
          ∧ vehicles db !! Vehicle.vehicle_id v = None
          ∧ r.1 = {| body := VehicleSchema.dump v; status := 201 |}
          ∧ r.2 = set_vehicles (<[Vehicle.vehicle_id v := v]> (vehicles db)) db).
Proof.
  intros r. subst r. unfold create_vehicle.
  destruct (int_of_str (jwt_identity req)) as [uid|] eqn:Hid;
    [|left; split; [reflexivity|discriminate]].
  destruct (Z.eqb_spec uid customer_id) as [->|Hne]; cbn [negb];
    [|left; split; [reflexivity|discriminate]].
  destruct (customers db !! customer_id) as [c|] eqn:Hc;
    [|left; split; [reflexivity|discriminate]].
  destruct (Py.truthy (json req)); cbn [negb];
    [|left; split; [reflexivity|discriminate]].
  destruct (Py.dict_of (json req)) as [d|e];
    [|left; split; [reflexivity|discriminate]].
  destruct (VehicleSchema.load _) as [data|messages] eqn:Hl;
    [|left; split; [reflexivity|discriminate]].
  destruct (existsb _ _) eqn:Hex; [left; split; [reflexivity|discriminate]|].
  destruct (bool_decide _) eqn:Hfree;
    [left; split; [reflexivity|discriminate]|].
  right. eexists. split_and!; [| | | | |reflexivity|reflexivity].
  - cbn. exact (vehicle_schema_load_customer_id d customer_id data Hl).
  - eauto.
  - reflexivity.
  - cbn. exact (existsb_vin_false db _ Hex).
  - cbn. apply bool_decide_eq_false in Hfree.
    destruct (vehicles db !! _) eqn:E; [|reflexivity].
    exfalso. apply Hfree. eauto.
Qed.

Lemma commit_update_cases (db db' : DB) (vehicle_id : Z) (v : Vehicle.t) :
  VehicleRoutes.commit_update db vehicle_id v = Some db' →
  (Vehicle.vehicle_id v = vehicle_id
   ∧ db' = set_vehicles (<[vehicle_id := v]> (vehicles db)) db)
  ∨ (Vehicle.vehicle_id v ≠ vehicle_id
     ∧ vehicles db !! Vehicle.vehicle_id v = None
     ∧ has_tickets db vehicle_id = false
     ∧ db' = set_vehicles
               (<[Vehicle.vehicle_id v := v]> (delete vehicle_id (vehicles db)))
               db).
Proof.
  unfold VehicleRoutes.commit_update.
  destruct (Z.eqb_spec (Vehicle.vehicle_id v) vehicle_id) as [Heq|Hne].
  - intros [= <-]. left. split; [exact Heq|reflexivity].
  - destruct (bool_decide _) eqn:Hfree; [discriminate|].
    destruct (has_tickets db vehicle_id) eqn:Ht; [discriminate|].
    intros [= <-]. right. split_and!; try reflexivity; [exact Hne|].
    apply bool_decide_eq_false in Hfree.
    destruct (vehicles db !! _) eqn:E; [|reflexivity].
    exfalso. apply Hfree. eauto.
Qed.

(** Every outcome of [update_vehicle]. *)
Lemma update_vehicle_cases (db : DB) (customer_id vehicle_id : Z)
    (req : Request) :
  let r := update_vehicle db customer_id vehicle_id req in
  (r.2 = db ∧ status r.1 ≠ 200)
  ∨ (∃ vehicle data,
       int_of_str (jwt_identity req) = Some customer_id
       ∧ vehicles db !! vehicle_id = Some vehicle
       ∧ Vehicle.customer_id vehicle = customer_id
       ∧ (VehicleSchema.vin data = Vehicle.vin vehicle
          ∨ ∀ i vi, vehicles db !! i = Some vi →
                    Vehicle.vin vi ≠ VehicleSchema.vin data)
       ∧ VehicleRoutes.commit_update db vehicle_id
           (VehicleRoutes.setattrs vehicle data) = Some r.2
       ∧ r.1 = {| body := VehicleSchema.dump (VehicleRoutes.setattrs vehicle data);
                  status := 200 |}).
Proof.
  intros r. subst r. unfold update_vehicle.
  destruct (int_of_str (jwt_identity req)) as [uid|] eqn:Hid;
    [|left; split; [reflexivity|discriminate]].
  destruct (Z.eqb_spec uid customer_id) as [->|Hne]; cbn [negb];
    [|left; split; [reflexivity|discriminate]].
  destruct (vehicles db !! vehicle_id) as [vehicle|] eqn:Hv;
    [|left; split; [reflexivity|discriminate]].
  destruct (Z.eqb_spec (Vehicle.customer_id vehicle) customer_id) as [Ho|Ho];
    cbn [negb]; [|left; split; [reflexivity|discriminate]].
  destruct (Py.truthy (json req)); cbn [negb];
    [|left; split; [reflexivity|discriminate]].
  destruct (Py.dict_of (json req)) as [d|e];
    [|left; split; [reflexivity|discriminate]].
  destruct (VehicleSchema.load _) as [data|messages] eqn:Hl;
    [|left; split; [reflexivity|discriminate]].
  destruct (negb (String.eqb (VehicleSchema.vin data) (Vehicle.vin vehicle))
            && existsb _ _) eqn:Hvin;
    [left; split; [reflexivity|discriminate]|].
  destruct (VehicleRoutes.commit_update db vehicle_id _) as [db'|] eqn:Hcommit;
    [|left; split; [reflexivity|discriminate]].
  right. exists vehicle, data. split_and!; try reflexivity; try assumption.
  apply andb_false_iff in Hvin as [Hsame|Hnone].
  - left. apply negb_false_iff, String.eqb_eq in Hsame. exact Hsame.
  - right. exact (existsb_vin_false db _ Hnone).
Qed.

(** Every outcome of [delete_vehicle]. *)
Lemma delete_vehicle_cases (db : DB) (customer_id vehicle_id : Z)
    (req : Request) :
  let r := delete_vehicle db customer_id vehicle_id req in
  (r.2 = db ∧ status r.1 ≠ 200)
  ∨ (∃ vehicle,
       int_of_str (jwt_identity req) = Some customer_id
       ∧ vehicles db !! vehicle_id = Some vehicle
       ∧ Vehicle.customer_id vehicle = customer_id
       ∧ has_tickets db vehicle_id = false
       ∧ status r.1 = 200
       ∧ r.2 = set_vehicles (delete vehicle_id (vehicles db)) db).
Proof.
  intros r. subst r. unfold delete_vehicle.
  destruct (int_of_str (jwt_identity req)) as [uid|] eqn:Hid;
    [|left; split; [reflexivity|discriminate]].
  destruct (Z.eqb_spec uid customer_id) as [->|Hne]; cbn [negb];
    [|left; split; [reflexivity|discriminate]].
  destruct (vehicles db !! vehicle_id) as [vehicle|] eqn:Hv;
    [|left; split; [reflexivity|discriminate]].
  destruct (Z.eqb_spec (Vehicle.customer_id vehicle) customer_id) as [Ho|Ho];
    cbn [negb]; [|left; split; [reflexivity|discriminate]].
  destruct (has_tickets db vehicle_id) eqn:Ht;
    [left; split; [reflexivity|discriminate]|].
  right. exists vehicle. split_and!; try reflexivity; assumption.
Qed.

Lemma vins_unique_insert (db : DB) (k : Z) (v : Vehicle.t)
    (m : gmap Z Vehicle.t) :
  (∀ i j vi vj, m !! i = Some vi → m !! j = Some vj →
                Vehicle.vin vi = Vehicle.vin vj → i = j) →
  (∀ j vj, m !! j = Some vj → j ≠ k → Vehicle.vin vj ≠ Vehicle.vin v) →
  vins_unique (set_vehicles (<[k := v]> m) db).
Proof.
  intros Hu Hnew i j vi vj. cbn [vehicles set_vehicles].
  rewrite !lookup_insert_Some.
  intros [[<- <-]|[Hi Hvi]] [[<- <-]|[Hj Hvj]] Hvin.
  - reflexivity.
  - exfalso. eapply Hnew; [exact Hvj|congruence|congruence].
  - exfalso. eapply Hnew; [exact Hvi|congruence|congruence].
  - eapply Hu; eassumption.
Qed.

(** X18.  The handlers keep the VINs unique: when no two vehicles of the
    store have the same VIN, this is still so after creating, updating
    and deleting a vehicle, whatever the request and its outcome. *)
Theorem vins_unique_kept (db : DB) :
  vins_unique db →
  (∀ customer_id req, vins_unique (create_vehicle db customer_id req).2)
  ∧ (∀ customer_id vehicle_id req,
       vins_unique (update_vehicle db customer_id vehicle_id req).2)
  ∧ (∀ customer_id vehicle_id req,
       vins_unique (delete_vehicle db customer_id vehicle_id req).2).
Proof.
  intros Hu. split_and!.
  - intros cid req.
    destruct (create_vehicle_cases db cid req)
      as [[-> _]|(v & _ & _ & _ & Hvin & _ & _ & ->)]; [exact Hu|].
    apply vins_unique_insert; [exact Hu|].
    intros j vj Hj _. exact (Hvin j vj Hj).
  - intros cid vid req.
    destruct (update_vehicle_cases db cid vid req)
      as [[-> _]|(vehicle & data & _ & Hv & _ & Hvin & Hcommit & _)];
      [exact Hu|].
    assert (Hother : ∀ j vj, vehicles db !! j = Some vj → j ≠ vid →
              Vehicle.vin vj ≠ Vehicle.vin (VehicleRoutes.setattrs vehicle data)).
    { intros j vj Hj Hne. cbn. destruct Hvin as [Hsame|Hnone].
      - rewrite Hsame. intros Heq. apply Hne. exact (Hu j vid vj vehicle Hj Hv Heq).
      - exact (Hnone j vj Hj). }
    apply commit_update_cases in Hcommit as [[Hk ->]|(Hk & _ & _ & ->)].
    + apply vins_unique_insert; [exact Hu|exact Hother].
    + apply vins_unique_insert.
      * intros i j vi vj Hi Hj.
        apply lookup_delete_Some in Hi as [_ Hi].
        apply lookup_delete_Some in Hj as [_ Hj].
        exact (Hu i j vi vj Hi Hj).
      * intros j vj Hj _. apply lookup_delete_Some in Hj as [Hne Hj].
        apply (Hother j vj Hj). congruence.
  - intros cid vid req.
    destruct (delete_vehicle_cases db cid vid req)
      as [[-> _]|(vehicle & _ & _ & _ & _ & _ & ->)]; [exact Hu|].
    intros i j vi vj. cbn [vehicles set_vehicles]. intros Hi Hj.
    apply lookup_delete_Some in Hi as [_ Hi].
    apply lookup_delete_Some in Hj as [_ Hj].
    exact (Hu i j vi vj Hi Hj).
Qed.

(** X19.  No vehicle handler leaves a service ticket without its vehicle:
    when every ticket is about a stored vehicle, it is still so after
    creating, updating and deleting a vehicle, whatever the request and
    its outcome; a vehicle that has tickets is neither deleted nor given
    another key. *)
Theorem tickets_have_vehicles_kept (db : DB) :
  tickets_have_vehicles db →
  (∀ customer_id req,
     tickets_have_vehicles (create_vehicle db customer_id req).2)
  ∧ (∀ customer_id vehicle_id req,
       tickets_have_vehicles (update_vehicle db customer_id vehicle_id req).2)
  ∧ (∀ customer_id vehicle_id req,
       tickets_have_vehicles (delete_vehicle db customer_id vehicle_id req).2).
Proof.
  intros Hinv. split_and!.
  - intros cid req.
    destruct (create_vehicle_cases db cid req)
      as [[-> _]|(v & _ & _ & _ & _ & _ & _ & ->)]; [exact Hinv|].
    intros t ticket Ht. cbn [vehicles set_vehicles] in *.
    destruct (Hinv t ticket Ht) as [v' Hv'].
    destruct (decide (Vehicle.vehicle_id v = ServiceTicket.vehicle_id ticket))
      as [->|Hne].
    + rewrite lookup_insert_eq. eauto.
    + rewrite lookup_insert_ne by exact Hne. eauto.
  - intros cid vid req.
    destruct (update_vehicle_cases db cid vid req)
      as [[-> _]|(vehicle & data & _ & Hv & _ & _ & Hcommit & _)];
      [exact Hinv|].
    apply commit_update_cases in Hcommit as [[Hk ->]|(Hk & _ & Hnt & ->)];
      intros t ticket Ht; cbn [vehicles set_vehicles service_tickets] in *;
      destruct (Hinv t ticket Ht) as [v' Hv'].
    + destruct (decide (vid = ServiceTicket.vehicle_id ticket)) as [->|Hne].
      * rewrite lookup_insert_eq. eauto.
      * rewrite lookup_insert_ne by exact Hne. eauto.
    + pose proof (has_tickets_false db vid Hnt t ticket Ht) as Hnot.
      destruct (decide (Vehicle.vehicle_id (VehicleRoutes.setattrs vehicle data)
                        = ServiceTicket.vehicle_id ticket)) as [->|Hne].
      * rewrite lookup_insert_eq. eauto.
      * rewrite lookup_insert_ne by exact Hne.
        rewrite lookup_delete_ne by congruence. eauto.
  - intros cid vid req.
    destruct (delete_vehicle_cases db cid vid req)
      as [[-> _]|(vehicle & _ & _ & _ & Hnt & _ & ->)]; [exact Hinv|].
    intros t ticket Ht. cbn [vehicles set_vehicles service_tickets] in *.
    pose proof (has_tickets_false db vid Hnt t ticket Ht) as Hnot.
    rewrite lookup_delete_ne by congruence. exact (Hinv t ticket Ht).
Qed.

(** X20.  A vehicle is changed by its owner only, and never changes
    owner.  [update_vehicle] leaves the store as it was, or the request is
    authenticated as the customer of the path, the addressed vehicle
    belonged to that customer, and the store differs in that one row
    only: the row is replaced by one of the same customer, under its own
    key or under a key that was free, and every other row and every other
    table is as it was.  [delete_vehicle] leaves the store as it was, or,
    under the same conditions, takes out the addressed row and nothing
    else. *)
Theorem vehicles_changed_by_owner_only (db : DB) (customer_id vehicle_id : Z)
    (req : Request) :
  (let r := update_vehicle db customer_id vehicle_id req in
   r.2 = db
   ∨ ∃ v v',
       int_of_str (jwt_identity req) = Some customer_id
       ∧ vehicles db !! vehicle_id = Some v
       ∧ Vehicle.customer_id v = customer_id
       ∧ Vehicle.customer_id v' = customer_id
       ∧ (Vehicle.vehicle_id v' = vehicle_id
          ∨ vehicles db !! Vehicle.vehicle_id v' = None)
       ∧ r.2 = set_vehicles
                 (<[Vehicle.vehicle_id v' := v']> (delete vehicle_id (vehicles db)))
                 db
       ∧ vehicles r.2 !! Vehicle.vehicle_id v' = Some v'
       ∧ (∀ id, id ≠ vehicle_id → id ≠ Vehicle.vehicle_id v' →
                vehicles r.2 !! id = vehicles db !! id))
  ∧ (let r := delete_vehicle db customer_id vehicle_id req in
     r.2 = db
     ∨ ∃ v,
         int_of_str (jwt_identity req) = Some customer_id
         ∧ vehicles db !! vehicle_id = Some v
         ∧ Vehicle.customer_id v = customer_id
         ∧ r.2 = set_vehicles (delete vehicle_id (vehicles db)) db
         ∧ vehicles r.2 !! vehicle_id = None
         ∧ (∀ id, id ≠ vehicle_id → vehicles r.2 !! id = vehicles db !! id)).
Proof.
  split.
  - intros r. subst r.
    destruct (update_vehicle_cases db customer_id vehicle_id req)
      as [[Hdb _]|(vehicle & data & Hid & Hv & Ho & _ & Hcommit & _)];
      [left; exact Hdb|].
    right. exists vehicle, (VehicleRoutes.setattrs vehicle data).
    split; [exact Hid|]. split; [exact Hv|]. split; [exact Ho|].
    split; [exact Ho|].
    apply commit_update_cases in Hcommit as [[Hk ->]|(Hk & Hfree & _ & ->)].
    + split; [left; exact Hk|]. rewrite Hk.
      split; [rewrite insert_delete_eq; reflexivity|].
      cbn [vehicles set_vehicles].
      split; [apply lookup_insert_eq|].
      intros id Hne _. apply lookup_insert_ne. congruence.
    + split; [right; exact Hfree|]. split; [reflexivity|].
      cbn [vehicles set_vehicles].
      split; [apply lookup_insert_eq|].
      intros id Hne Hne'. rewrite lookup_insert_ne by congruence.
      apply lookup_delete_ne. congruence.
  - intros r. subst r.
    destruct (delete_vehicle_cases db customer_id vehicle_id req)
      as [[Hdb _]|(vehicle & Hid & Hv & Ho & _ & _ & ->)];
      [left; exact Hdb|].
    right. exists vehicle.
    split; [exact Hid|]. split; [exact Hv|]. split; [exact Ho|].
    split; [reflexivity|]. cbn [vehicles set_vehicles].
    split; [apply lookup_delete_eq|].
    intros id Hne. apply lookup_delete_ne. congruence.
Qed.

(** X21.  A vehicle that was created can be read: after [create_vehicle]
    answered 201 with a vehicle, [get_vehicle] for the same customer and
    the vehicle's id answers 200 with the same body, the vehicle is in
    the customer's listing, and it is in no other customer's listing. *)
Theorem create_vehicle_then_get (db : DB) (customer_id : Z) (req : Request) :
  let r := create_vehicle db customer_id req in
  status r.1 = 201 →
  ∃ v, body r.1 = VehicleSchema.dump v
       ∧ get_vehicle r.2 customer_id (Vehicle.vehicle_id v)
         = ({| body := body r.1; status := 200 |}, r.2)
       ∧ (get_customer_vehicles r.2 customer_id).1
         = {| body := Py.PList (VehicleSchema.dump <$> vehicles_of r.2 customer_id);
              status := 200 |}
       ∧ v ∈ vehicles_of r.2 customer_id
       ∧ ∀ other, other ≠ customer_id → v ∉ vehicles_of r.2 other.
Proof.
  intros r. subst r.
  destruct (create_vehicle_cases db customer_id req)
    as [[_ Hs]|(v & Ho & [c Hc] & _ & _ & _ & -> & ->)];
    [intros; contradiction|].
  intros _. exists v. cbn [fst snd body].
  split; [reflexivity|]. split_and!.
  - unfold get_vehicle. cbn [vehicles set_vehicles].
    rewrite lookup_insert_eq, Ho, Z.eqb_refl. reflexivity.
  - unfold get_customer_vehicles. cbn [customers set_vehicles].
    rewrite Hc. reflexivity.
  - unfold vehicles_of. apply list_elem_of_In, filter_In. split.
    + apply list_elem_of_In, list_elem_of_fmap.
      exists (Vehicle.vehicle_id v, v). split; [reflexivity|].
      apply elem_of_map_to_list. cbn [vehicles set_vehicles].
      apply lookup_insert_eq.
    + rewrite Ho. apply Z.eqb_refl.
  - intros other Hne Hin. unfold vehicles_of in Hin.
    apply list_elem_of_In, filter_In in Hin as [_ Heq].
    apply Z.eqb_eq in Heq. congruence.
Qed.

End VehicleFacts.


(* ===================================================================== *)
(** ** Accounts: registration, login and the customer's own record         *)
(* ===================================================================== *)

Section AccountFacts.
Context `{External} `{PasswordHash}.
Import CustomerRoutes AuthRoutes AuthRegister.

Lemma dict_lookup_set_ne (k k' : string) (v : Py.pyval) (d : Py.dict) :
  k ≠ k' → Py.dict_lookup k (Py.dict_set k' v d) = Py.dict_lookup k d.
Proof.
  intros Hne. induction d as [|[k0 v0] d IH]; simpl.
  - destruct (String.eqb_spec k' k); [congruence|reflexivity].
  - destruct (String.eqb_spec k0 k') as [->|Hk0]; simpl.
    + destruct (String.eqb_spec k' k); [congruence|reflexivity].
    + destruct (String.eqb_spec k0 k); [reflexivity|exact IH].
Qed.

(** The hook returns a [dict] for a [dict], with the other keys as they
    were. *)
Lemma convert_postal_code_dict (d : Py.dict) (v : Py.pyval) :
  RegisterSchema.convert_postal_code (Py.PDict d) = Py.Ok v →
  ∃ d', v = Py.PDict d'
        ∧ ∀ k, k ≠ "postal_code" → Py.dict_lookup k d' = Py.dict_lookup k d.
Proof.
  unfold RegisterSchema.convert_postal_code. cbn [Py.contains Py.bind].
  destruct (bool_decide _); [|intros [= <-]; eauto].
  cbn [Py.getitem]. destruct (Py.dict_lookup "postal_code" d) as [pc|];
    [|discriminate].
  cbn [Py.bind].
  destruct pc; intros [= <-]; eexists; (split; [reflexivity|]);
    intros k Hk; try reflexivity; apply dict_lookup_set_ne; exact Hk.
Qed.

Lemma load_fields_email_password (d : Py.dict) (data : RegisterSchema.data)
    (e p : string) :
  RegisterSchema.load_fields (Py.PDict d) = inl data →
  Py.dict_lookup "email" d = Some (Py.PStr e) →
  Py.dict_lookup "password" d = Some (Py.PStr p) →
  RegisterSchema.email data = e
  ∧ RegisterSchema.password data = p
  ∧ is_email e = true.
Proof.
  intros Hl He Hp. unfold RegisterSchema.load_fields in Hl.
  assert (Hemail : Marshmallow.required Marshmallow.Email "email" d
                   = if is_email e then inl e
                     else inr (Marshmallow.msg "Not a valid email address.")).
  { unfold Marshmallow.required. rewrite He. reflexivity. }
  assert (Hpw : ∃ r, Marshmallow.required (RegisterSchema.StrMin 6) "password" d = r
                     ∧ ∀ x, r = inl x → x = p).
  { eexists. split; [reflexivity|]. unfold Marshmallow.required. rewrite Hp.
    unfold RegisterSchema.StrMin. cbn [Marshmallow.Str].
    destruct (_ <=? _)%nat; intros x [= <-]. reflexivity. }
  destruct Hpw as (rp & Hrp & Hpw). rewrite Hemail, Hrp in Hl.
  destruct (Marshmallow.required (RegisterSchema.StrBetween 1 255) "first_name" d);
    [|discriminate].
  destruct (Marshmallow.required (RegisterSchema.StrBetween 1 255) "last_name" d);
    [|discriminate].
  destruct (is_email e); [|discriminate].
  destruct (Marshmallow.required (RegisterSchema.StrBetween 1 50) "phone" d);
    [|discriminate].
  destruct (Marshmallow.optional_none (RegisterSchema.StrBetween 1 255) "address" d);
    [|discriminate].
  destruct (Marshmallow.optional_none (RegisterSchema.StrBetween 1 100) "city" d);
    [|discriminate].
  destruct (Marshmallow.optional_none (RegisterSchema.StrBetween 1 50) "state" d);
    [|discriminate].
  destruct (Marshmallow.optional_none (RegisterSchema.StrBetween 1 20) "postal_code" d);
    [|discriminate].
  destruct rp as [pw|]; [|discriminate].
  destruct (Marshmallow.unknown RegisterSchema.declared d); [|discriminate].
  injection Hl as <-. cbn. split; [reflexivity|].
  split; [apply Hpw; reflexivity|reflexivity].
Qed.

Lemma customer_by_email_None (db : DB) (e : string) :
  customer_by_email db e = None →
  ∀ i c, customers db !! i = Some c → Customer.email c ≠ e.
Proof.
  unfold customer_by_email. intros Hf i c Hc Heq.
  destruct (List.find _ _) eqn:E; [discriminate|].
  pose proof (find_none _ _ E (i, c)) as Hn. cbn in Hn.
  rewrite Heq, String.eqb_refl in Hn.
  discriminate Hn. apply list_elem_of_In, elem_of_map_to_list. exact Hc.
Qed.

Lemma customer_by_email_Some (db : DB) (e : string) (c : Customer.t) :
  customer_by_email db e = Some c →
  ∃ i, customers db !! i = Some c ∧ Customer.email c = e.
Proof.
  unfold customer_by_email. destruct (List.find _ _) as [[i c']|] eqn:E;
    [|discriminate].
  intros [= <-]. apply find_some in E as [Hin Heq].
  exists i. split.
  - apply elem_of_map_to_list, list_elem_of_In. exact Hin.
  - apply String.eqb_eq. exact Heq.
Qed.

Lemma customer_by_email_insert (db : DB) (id : Z) (c : Customer.t) :
  customer_by_email db (Customer.email c) = None →
  customer_by_email (set_customers (<[id := c]> (customers db)) db)
                    (Customer.email c) = Some c.
Proof.
  intros Hnone.
  destruct (customer_by_email (set_customers _ db) _) as [c'|] eqn:E.
  - apply customer_by_email_Some in E as (i & Hi & He).
    cbn [customers set_customers] in Hi.
    apply lookup_insert_Some in Hi as [[_ ->]|[_ Hi]]; [reflexivity|].
    exfalso. exact (customer_by_email_None db _ Hnone i c' Hi He).
  - exfalso. apply (customer_by_email_None _ _ E id c); [|reflexivity].
    cbn [customers set_customers]. apply lookup_insert_eq.
Qed.

(** Every outcome of [register]: the store as it was, or one new
    customer under a fresh key, with an email that no customer had. *)
Lemma register_cases (db : DB) (req : Request) (salt : string) :
  let r := register db req salt in
  (r.2 = db ∧ status r.1 ≠ 201)
  ∨ (∃ converted data,
       Py.truthy (json req) = true
       ∧ RegisterSchema.convert_postal_code (json req) = Py.Ok converted
       ∧ RegisterSchema.load_fields converted = inl data
       ∧ customer_by_email db (RegisterSchema.email data) = None
       ∧ let c := new_customer db data salt (utcnow req) in
         r = ({| body := Py.PDict [
                   ("message", Py.PStr "Customer registered successfully");
                   ("access_token",
                    Py.PStr (create_access_token
                               (pretty (Customer.customer_id c)) (utcnow req)));
                   ("customer", CustomerSchema.dump c)
                 ];
                 status := 201 |},
              set_customers (<[Customer.customer_id c := c]> (customers db)) db)).
Proof.
  intros r. subst r. unfold register.
  destruct (Py.truthy (json req)) eqn:Hj; cbn [negb];
    [|left; split; [reflexivity|discriminate]].
  destruct (RegisterSchema.convert_postal_code (json req)) as [converted|e] eqn:Hc;
    [|left; split; [reflexivity|discriminate]].
  destruct (RegisterSchema.load_fields converted) as [data|messages] eqn:Hl;
    [|left; split; [reflexivity|discriminate]].
  destruct (customer_by_email db (RegisterSchema.email data)) eqn:He;
    [left; split; [reflexivity|discriminate]|].
  right. exists converted, data. split_and!; first [assumption|reflexivity].
Qed.

(** X22.  Who registered can log in: after a registration that answered
    201, a login with the email and the password of the registration is
    answered 200 with a token for the new customer and the customer that
    the registration returned, provided the hash library accepts the
    password for the hash it made of it. *)
Theorem register_then_login (db : DB) (req : Request) (salt e p : string)
    (now : Z) :
  let r := register db req salt in
  status r.1 = 201 →
  Py.getitem (json req) "email" = Py.Ok (Py.PStr e) →
  Py.getitem (json req) "password" = Py.Ok (Py.PStr p) →
  check_password_hash (generate_password_hash p salt) p = true →
  ∃ c, customers r.2 !! Customer.customer_id c = Some c
       ∧ customers db !! Customer.customer_id c = None
       ∧ Customer.email c = e
       ∧ Py.getitem (body r.1) "customer" = Py.Ok (CustomerSchema.dump c)
       ∧ login r.2 {| json := login_body e p; args := [];
                      jwt_identity := ""; utcnow := now |}
         = ({| body := Py.PDict [
                 ("message", Py.PStr "Login successful");
                 ("access_token",
                  Py.PStr (create_access_token
                             (pretty (Customer.customer_id c)) now));
                 ("customer", CustomerSchema.dump c)
               ];
               status := 200 |}, r.2).
Proof.
  intros r. subst r.
  destruct (register_cases db req salt)
    as [[_ Hs]|(converted & data & Hj & Hc & Hl & Hnone & Hr)];
    [intros; contradiction|].
  cbv zeta in Hr. rewrite Hr. clear Hr. intros _ He Hp Hcheck.
  destruct (json req) as [| | | | | |d] eqn:Hjson; try discriminate.
  cbn [Py.getitem] in He, Hp.
  destruct (Py.dict_lookup "email" d) as [ve|] eqn:Hle; [|discriminate].
  destruct (Py.dict_lookup "password" d) as [vp|] eqn:Hlp; [|discriminate].
  injection He as ->. injection Hp as ->.
  apply convert_postal_code_dict in Hc as (d' & -> & Hsame).
  rewrite <- (Hsame "email") in Hle by discriminate.
  rewrite <- (Hsame "password") in Hlp by discriminate.
  destruct (load_fields_email_password d' data e p Hl Hle Hlp)
    as (Hde & Hdp & Hmail).
  set (c := new_customer db data salt (utcnow req)).
  exists c. cbn [fst snd body customers set_customers].
  split; [apply lookup_insert_eq|].
  split; [apply not_elem_of_dom, is_fresh|].
  split; [exact Hde|]. split; [reflexivity|].
  unfold login. cbn [json login_body Py.truthy negb].
  assert (Hload : LoginSchema.load (login_body e p)
                  = inl {| LoginSchema.email := e; LoginSchema.password := p |}).
  { unfold LoginSchema.load, login_body, Marshmallow.required, Marshmallow.Email.
    cbn. rewrite Hmail. reflexivity. }
  rewrite Hload. cbn [LoginSchema.email LoginSchema.password].
  assert (Hfind : customer_by_email
                    (set_customers (<[Customer.customer_id c := c]> (customers db)) db)
                    e = Some c).
  { rewrite <- Hde. apply (customer_by_email_insert db _ c). exact Hnone. }
  rewrite Hfind. unfold Customer.check_password.
  change (Customer.password_hash c)
    with (generate_password_hash (RegisterSchema.password data) salt).
  rewrite Hdp, Hcheck. reflexivity.
Qed.

(** X23.  A registration is not repeated: after a registration that
    answered 201, the same request, with whatever salt, is refused with
    the email-already-registered error and changes nothing. *)
Theorem register_replay_refused (db : DB) (req : Request) (salt salt' : string) :
  let r := register db req salt in
  status r.1 = 201 →
  register r.2 req salt' = (error "Email already registered" 400, r.2).
Proof.
  intros r. subst r.
  destruct (register_cases db req salt)
    as [[_ Hs]|(converted & data & Hj & Hc & Hl & Hnone & Hr)];
    [intros; contradiction|].
  cbv zeta in Hr. rewrite Hr. clear Hr. intros _. cbn [snd].
  unfold register at 1. rewrite Hj, Hc, Hl. cbn [negb].
  rewrite (customer_by_email_insert db _ (new_customer db data salt (utcnow req)) Hnone).
  reflexivity.
Qed.

(** X24.  The token of a registration opens the registered record: the
    registration answers with a token whose identity is the text of the
    new customer's id, and a request that carries this identity is
    answered by [get_current_user] with the customer that the
    registration returned, when the text reads back as the id. *)
Theorem register_then_get_current_user (db : DB) (req : Request)
    (salt : string) :
  let r := register db req salt in
  status r.1 = 201 →
  ∃ c, Py.getitem (body r.1) "customer" = Py.Ok (CustomerSchema.dump c)
       ∧ Py.getitem (body r.1) "access_token"
         = Py.Ok (Py.PStr (create_access_token
                             (pretty (Customer.customer_id c)) (utcnow req)))
       ∧ (int_of_str (pretty (Customer.customer_id c))
          = Some (Customer.customer_id c) →
          get_current_user r.2 (request_as (Customer.customer_id c))
          = ({| body := CustomerSchema.dump c; status := 200 |}, r.2)).
Proof.
  intros r. subst r.
  destruct (register_cases db req salt)
    as [[_ Hs]|(converted & data & Hj & Hc & Hl & Hnone & Hr)];
    [intros; contradiction|].
  cbv zeta in Hr. rewrite Hr. clear Hr. intros _.
  eexists. split; [reflexivity|]. split; [reflexivity|].
  intros Hid. unfold get_current_user. cbn [jwt_identity request_as].
  rewrite Hid. cbn [snd customers set_customers].
  rewrite lookup_insert_eq. reflexivity.
Qed.

End AccountFacts.


Section CustomerRecords.
Context `{External} `{PasswordHash}.
Import CustomerRoutes AuthRoutes AuthRegister CustomerListing.

(** Every outcome of [update_customer]. *)
Lemma update_customer_cases (db : DB) (customer_id : Z) (req : Request) :
  let r := update_customer db customer_id req in
  (r.2 = db ∧ status r.1 ≠ 200)
  ∨ (∃ c, CustomerRoutes.commit_update db customer_id c = Some r.2
          ∧ r.1 = {| body := CustomerSchema.dump c; status := 200 |}).
Proof.
  intros r. subst r. unfold update_customer.
  destruct (int_of_str (jwt_identity req)) as [uid|];
    [|left; split; [reflexivity|discriminate]].
  destruct (negb (uid =? customer_id));
    [left; split; [reflexivity|discriminate]|].
  destruct (customers db !! customer_id) as [customer|];
    [|left; split; [reflexivity|discriminate]].
  destruct (negb (Py.truthy (json req)));
    [left; split; [reflexivity|discriminate]|].
  destruct (CustomerSchema.validate (json req));
    [|left; split; [reflexivity|discriminate]].
  destruct (json req); try (left; split; [reflexivity|discriminate]).
  destruct (setattrs customer d) as [c|];
    [|left; split; [reflexivity|discriminate]].
  destruct (CustomerRoutes.commit_update db customer_id c) as [db'|] eqn:Hc;
    [|left; split; [reflexivity|discriminate]].
  right. exists c. split; [exact Hc|reflexivity].
Qed.

Lemma customer_commit_cases (db db' : DB) (customer_id : Z) (c : Customer.t) :
  CustomerRoutes.commit_update db customer_id c = Some db' →
  (∀ k c', customers db !! k = Some c' → k ≠ customer_id →
           Customer.email c' ≠ Customer.email c)
  ∧ ((Customer.customer_id c = customer_id
      ∧ db' = set_customers (<[customer_id := c]> (customers db)) db)
     ∨ (Customer.customer_id c ≠ customer_id
        ∧ customers db !! Customer.customer_id c = None
        ∧ db' = set_customers
                  (<[Customer.customer_id c := c]>
                     (delete customer_id (customers db))) db)).
Proof.
  unfold CustomerRoutes.commit_update.
  destruct (existsb _ _) eqn:Hex; [discriminate|].
  intros Hc. split.
  - intros k c' Hk Hne Heq.
    assert (Ht : existsb (fun kc : Z * Customer.t =>
                   negb (kc.1 =? customer_id)
                   && String.eqb (Customer.email kc.2) (Customer.email c))
                   (map_to_list (customers db)) = true); [|congruence].
    apply existsb_exists. exists (k, c'). split.
    + apply list_elem_of_In, elem_of_map_to_list. exact Hk.
    + cbn. rewrite Heq, String.eqb_refl.
      destruct (Z.eqb_spec k customer_id); [contradiction|reflexivity].
  - destruct (Z.eqb_spec (Customer.customer_id c) customer_id) as [Heq|Hne].
    + injection Hc as <-. left. split; [exact Heq|reflexivity].
    + destruct (bool_decide _) eqn:Hfree; [discriminate|].
      destruct (referenced db customer_id); [discriminate|].
      injection Hc as <-. right. split_and!; try reflexivity; [exact Hne|].
      apply bool_decide_eq_false in Hfree.
      destruct (customers db !! _) eqn:E; [|reflexivity].
      exfalso. apply Hfree. eauto.
Qed.

Lemma emails_unique_insert (db : DB) (k : Z) (c : Customer.t)
    (m : gmap Z Customer.t) :
  (∀ i j ci cj, m !! i = Some ci → m !! j = Some cj →
                Customer.email ci = Customer.email cj → i = j) →
  (∀ j cj, m !! j = Some cj → j ≠ k → Customer.email cj ≠ Customer.email c) →
  emails_unique (set_customers (<[k := c]> m) db).
Proof.
  intros Hu Hnew i j ci cj. cbn [customers set_customers].
  rewrite !lookup_insert_Some.
  intros [[<- <-]|[Hi Hci]] [[<- <-]|[Hj Hcj]] Heq.
  - reflexivity.
  - exfalso. eapply Hnew; [exact Hcj|congruence|congruence].
  - exfalso. eapply Hnew; [exact Hci|congruence|congruence].
  - eapply Hu; eassumption.
Qed.

(** X25.  The handlers keep the emails unique: when no two customers of
    the store have the same email, this is still so after a
    registration, after an update and after a deletion of a customer,
    whatever the request and its outcome. *)
Theorem emails_unique_kept (db : DB) :
  emails_unique db →
  (∀ req salt, emails_unique (register db req salt).2)
  ∧ (∀ customer_id req, emails_unique (update_customer db customer_id req).2)
  ∧ (∀ customer_id req, emails_unique (delete_customer db customer_id req).2).
Proof.
  intros Hu. split_and!.
  - intros req salt.
    destruct (register_cases db req salt)
      as [[-> _]|(converted & data & _ & _ & _ & Hnone & Hr)]; [exact Hu|].
    cbv zeta in Hr. rewrite Hr. cbn [snd].
    apply emails_unique_insert; [exact Hu|].
    intros j cj Hj _. exact (customer_by_email_None db _ Hnone j cj Hj).
  - intros cid req.
    destruct (update_customer_cases db cid req)
      as [[-> _]|(c & Hcommit & _)]; [exact Hu|].
    apply customer_commit_cases in Hcommit as [Hother [[Hk ->]|(Hk & _ & ->)]].
    + apply emails_unique_insert; [exact Hu|exact Hother].
    + apply emails_unique_insert.
      * intros i j ci cj Hi Hj.
        apply lookup_delete_Some in Hi as [_ Hi].
        apply lookup_delete_Some in Hj as [_ Hj].
        exact (Hu i j ci cj Hi Hj).
      * intros j cj Hj _. apply lookup_delete_Some in Hj as [Hne Hj].
        apply (Hother j cj Hj). congruence.
  - intros cid req. unfold delete_customer.
    destruct (int_of_str (jwt_identity req)); [|exact Hu].
    destruct (negb _); [exact Hu|].
    destruct (customers db !! cid); [|exact Hu].
    destruct (referenced db cid); [exact Hu|].
    intros i j ci cj. cbn [snd customers set_customers]. intros Hi Hj.
    apply lookup_delete_Some in Hi as [_ Hi].
    apply lookup_delete_Some in Hj as [_ Hj].
    exact (Hu i j ci cj Hi Hj).
Qed.

(** X26.  An update can be read back: after [update_customer] answered
    200 with a customer, [get_customer] for the id of that customer
    answers 200 with the same body.  The id is the one of the path unless
    the body gave the customer another id: then the record is under the
    new id and the id of the path has no customer any more. *)
Theorem update_customer_then_get (db : DB) (customer_id : Z) (req : Request) :
  let r := update_customer db customer_id req in
  status r.1 = 200 →
  ∃ c, body r.1 = CustomerSchema.dump c
       ∧ get_customer r.2 (Customer.customer_id c) = (r.1, r.2)
       ∧ (Customer.customer_id c ≠ customer_id →
          get_customer r.2 customer_id = (error "Customer not found." 404, r.2)).
Proof.
  intros r. subst r.
  destruct (update_customer_cases db customer_id req)
    as [[_ Hs]|(c & Hcommit & Hr)]; [intros; contradiction|].
  intros _. exists c.
  destruct (update_customer db customer_id req) as [resp db'].
  cbn [fst snd] in *. subst resp. split; [reflexivity|].
  apply customer_commit_cases in Hcommit as [_ [[Hk ->]|(Hk & _ & ->)]];
    unfold get_customer; cbn [customers set_customers].
  - rewrite Hk, lookup_insert_eq. split; [reflexivity|]. intros; contradiction.
  - rewrite lookup_insert_eq. split; [reflexivity|]. intros _.
    rewrite lookup_insert_ne by exact Hk. rewrite lookup_delete_eq. reflexivity.
Qed.

End CustomerRecords.


(* ===================================================================== *)
(** ** Mechanics: the schema's defaults and the unique columns             *)
(* ===================================================================== *)

Section MechanicFacts.
Context `{External} `{Formats}.

Lemma dict_lookup_pop_ne (k k' : string) (d : Py.dict) :
  k ≠ k' →
  Py.dict_lookup k (MechanicSchema.dict_pop k' d) = Py.dict_lookup k d.
Proof.
  intros Hne. unfold MechanicSchema.dict_pop.
  induction d as [|[k0 v0] d IH]; [reflexivity|]. cbn [List.filter fst].
  destruct (String.eqb_spec k0 k') as [->|Hk0]; cbn [negb Py.dict_lookup].
  - destruct (String.eqb_spec k' k); [congruence|exact IH].
  - destruct (String.eqb_spec k0 k); [reflexivity|exact IH].
Qed.

(** The hook returns a [dict] for a [dict], and leaves the keys other
    than the three names as they were. *)
Lemma combine_names_dict (d : Py.dict) (v : Py.pyval) :
  MechanicSchema.combine_names (Py.PDict d) = Py.Ok v →
  ∃ d', v = Py.PDict d'
        ∧ ∀ k, k ≠ "full_name" → k ≠ "first_name" → k ≠ "last_name" →
               Py.dict_lookup k d' = Py.dict_lookup k d.
Proof.
  unfold MechanicSchema.combine_names. cbn [Py.contains Py.bind].
  destruct (bool_decide (is_Some (Py.dict_lookup "first_name" d)));
    cbn [Py.bind]; [|intros [= <-]; eauto].
  destruct (bool_decide (is_Some (Py.dict_lookup "last_name" d)));
    [|intros [= <-]; eauto].
  cbn [Py.getitem].
  destruct (Py.dict_lookup "first_name" d) as [fn|]; [|discriminate].
  destruct (Py.dict_lookup "last_name" d) as [ln|]; [|discriminate].
  cbn [Py.bind]. intros [= <-]. eexists. split; [reflexivity|].
  intros k H1 H2 H3.
  rewrite !dict_lookup_pop_ne by congruence.
  apply dict_lookup_set_ne. exact H1.
Qed.

Lemma load_fields_is_active_default (d : Py.dict) (data : MechanicSchema.data) :
  MechanicSchema.load_fields (Py.PDict d) = inl data →
  Py.dict_lookup "is_active" d = None →
  MechanicSchema.is_active data = true.
Proof.
  intros Hl Hnone. unfold MechanicSchema.load_fields in Hl.
  unfold Marshmallow.load_default in Hl. rewrite Hnone in Hl.
  destruct (Marshmallow.required Marshmallow.Str "full_name" d); [|discriminate].
  destruct (Marshmallow.required Marshmallow.Email "email" d); [|discriminate].
  destruct (Marshmallow.required Marshmallow.Str "phone" d); [|discriminate].
  destruct (Marshmallow.required Marshmallow.Int "salary" d); [|discriminate].
  destruct (Marshmallow.unknown MechanicSchema.declared d); [|discriminate].
  injection Hl as <-. reflexivity.
Qed.

Lemma get_mechanic_id (db : DB) (id : Z) (m : Mechanic.t) :
  get_mechanic db id = Some m → Mechanic.mechanic_id m = id ∧ m ∈ mechanics db.
Proof.
  unfold get_mechanic. intros Hf. apply find_some in Hf as [Hin Heq].
  split; [apply Z.eqb_eq; exact Heq|apply list_elem_of_In; exact Hin].
Qed.

Lemma get_mechanic_replace (db : DB) (id : Z) (m m' : Mechanic.t) :
  get_mechanic db id = Some m →
  Mechanic.mechanic_id m' = id →
  get_mechanic
    (set_mechanics (MechanicCrud.replace_mechanic id m' (mechanics db)) db) id
  = Some m'.
Proof.
  unfold get_mechanic. cbn [mechanics set_mechanics]. intros Hf Hid.
  induction (mechanics db) as [|x l IH]; [discriminate|].
  cbn [List.find MechanicCrud.replace_mechanic] in *.
  destruct (Z.eqb_spec (Mechanic.mechanic_id x) id) as [Hx|Hx].
  - cbn [List.find]. rewrite Hid, Z.eqb_refl. reflexivity.
  - cbn [List.find]. destruct (Z.eqb_spec (Mechanic.mechanic_id x) id);
      [contradiction|]. exact (IH Hf).
Qed.

(** Every outcome of [update_mechanic]. *)
Lemma update_mechanic_cases (db : DB) (mechanic_id : Z) (req : Request) :
  let r := MechanicCrud.update_mechanic db mechanic_id req in
  (r.2 = db ∧ status r.1 ≠ 200)
  ∨ (∃ mechanic converted data,
       get_mechanic db mechanic_id = Some mechanic
       ∧ MechanicSchema.combine_names (json req) = Py.Ok converted
       ∧ MechanicSchema.load_fields converted = inl data
       ∧ MechanicCrud.email_taken db mechanic_id (MechanicSchema.email data) = false
       ∧ r = ({| body := Py.PDict (MechanicSchema.dump
                                     (MechanicCrud.setattrs mechanic data));
                 status := 200 |},
              set_mechanics
                (MechanicCrud.replace_mechanic mechanic_id
                   (MechanicCrud.setattrs mechanic data) (mechanics db)) db)).
Proof.
  intros r. subst r. unfold MechanicCrud.update_mechanic.
  destruct (get_mechanic db mechanic_id) as [mechanic|] eqn:Hm;
    [|left; split; [reflexivity|discriminate]].
  destruct (negb (Py.truthy (json req)));
    [left; split; [reflexivity|discriminate]|].
  unfold MechanicSchema.load.
  destruct (MechanicSchema.combine_names (json req)) as [converted|e] eqn:Hc;
    cbn [Py.bind]; [|left; split; [reflexivity|discriminate]].
  destruct (MechanicSchema.load_fields converted) as [data|messages] eqn:Hl;
    [|left; split; [reflexivity|discriminate]].
  cbn [Mechanic.email MechanicCrud.setattrs].
  destruct (MechanicCrud.email_taken db mechanic_id _) eqn:He;
    [left; split; [reflexivity|discriminate]|].
  right. exists mechanic, converted, data.
  split_and!; first [assumption|reflexivity].
Qed.

(** Every outcome of [create_mechanic]. *)
Lemma create_mechanic_cases (db : DB) (req : Request) :
  let r := MechanicCrud.create_mechanic db req in
  (r.2 = db ∧ status r.1 ≠ 201)
  ∨ (∃ m, Mechanic.mechanic_id m = MechanicCrud.new_mechanic_id db
          ∧ MechanicCrud.mechanic_by_email db (Mechanic.email m) = None
          ∧ r = ({| body := Py.PDict (MechanicSchema.dump m); status := 201 |},
                 set_mechanics (mechanics db ++ [m]) db)).
Proof.
  intros r. subst r. unfold MechanicCrud.create_mechanic.
  destruct (negb (Py.truthy (json req)));
    [left; split; [reflexivity|discriminate]|].
  destruct (MechanicSchema.load (json req)) as [[data|messages]|e];
    try (left; split; [reflexivity|discriminate]).
  destruct (MechanicCrud.mechanic_by_email db _) eqn:He;
    [left; split; [reflexivity|discriminate]|].
  right. eexists. split_and!; [| |reflexivity]; [reflexivity|exact He].
Qed.

(** X27.  An update that does not mention [is_active] activates the
    mechanic: after [update_mechanic] answered 200 for a body without
    that key, the stored mechanic is active, whatever it was before, and
    the response says so. *)
Theorem update_mechanic_resets_is_active (db : DB) (mechanic_id : Z)
    (req : Request) (d : Py.dict) :
  let r := MechanicCrud.update_mechanic db mechanic_id req in
  status r.1 = 200 →
  json req = Py.PDict d →
  Py.dict_lookup "is_active" d = None →
  ∃ m', get_mechanic r.2 mechanic_id = Some m'
        ∧ Mechanic.is_active m' = true
        ∧ body r.1 = Py.PDict (MechanicSchema.dump m').
Proof.
  intros r. subst r.
  destruct (update_mechanic_cases db mechanic_id req)
    as [[_ Hs]|(mechanic & converted & data & Hm & Hc & Hl & _ & ->)];
    [intros; contradiction|].
  intros _ Hj Hnone. rewrite Hj in Hc.
  apply combine_names_dict in Hc as (d' & -> & Hsame).
  rewrite <- (Hsame "is_active") in Hnone by discriminate.
  exists (MechanicCrud.setattrs mechanic data). cbn [fst snd body].
  split; [|split; [|reflexivity]].
  - apply (get_mechanic_replace db mechanic_id mechanic _ Hm).
    exact (proj1 (get_mechanic_id db mechanic_id mechanic Hm)).
  - exact (load_fields_is_active_default d' data Hl Hnone).
Qed.

(** X28.  The two names of the older interface are the one name of the
    schema: a body with [first_name] and [last_name] creates, and
    updates, as the body with the [full_name] made of the two with a
    space between, when [str] of a text is the text. *)
Theorem mechanic_legacy_names (db : DB) (mechanic_id : Z)
    (first_name last_name email phone : string) (salary : Z) :
  (∀ s, str_of (Py.PStr s) = s) →
  let legacy :=
    request_of (legacy_mechanic_body first_name last_name email phone salary) in
  let current :=
    request_of (mechanic_body (first_name +:+ " " +:+ last_name) email phone
                              salary) in
  MechanicCrud.create_mechanic db legacy = MechanicCrud.create_mechanic db current
  ∧ MechanicCrud.update_mechanic db mechanic_id legacy
    = MechanicCrud.update_mechanic db mechanic_id current.
Proof.
  intros Hstr legacy current.
  assert (Hload : MechanicSchema.load (json legacy)
                  = MechanicSchema.load (json current)).
  { subst legacy current. unfold MechanicSchema.load, MechanicSchema.combine_names.
    cbn. rewrite !Hstr. unfold MechanicSchema.load_fields. cbn.
    destruct (is_email email); reflexivity. }
  unfold MechanicCrud.create_mechanic, MechanicCrud.update_mechanic.
  rewrite Hload. split; reflexivity.
Qed.

Lemma replace_mechanic_ids (id : Z) (m' : Mechanic.t) (l : list Mechanic.t) :
  Mechanic.mechanic_id m' = id →
  Mechanic.mechanic_id <$> MechanicCrud.replace_mechanic id m' l
  = Mechanic.mechanic_id <$> l.
Proof.
  intros Hid. induction l as [|x l IH]; [reflexivity|].
  cbn [MechanicCrud.replace_mechanic].
  destruct (Z.eqb_spec (Mechanic.mechanic_id x) id) as [Hx|Hx]; cbn.
  - congruence.
  - rewrite IH. reflexivity.
Qed.

Lemma replace_mechanic_elem (id : Z) (m' y : Mechanic.t) (l : list Mechanic.t) :
  y ∈ MechanicCrud.replace_mechanic id m' l → y ∈ l ∨ y = m'.
Proof.
  induction l as [|x l IH]; cbn [MechanicCrud.replace_mechanic].
  - intros Hin. inversion Hin.
  - destruct (Mechanic.mechanic_id x =? id).
    + intros Hin. apply elem_of_cons in Hin as [->|Hin]; [right; reflexivity|].
      left. apply elem_of_cons. right. exact Hin.
    + intros Hin. apply elem_of_cons in Hin as [->|Hin].
      * left. apply elem_of_cons. left. reflexivity.
      * destruct (IH Hin) as [Hl|Hr]; [left|right; exact Hr].
        apply elem_of_cons. right. exact Hl.
Qed.

Lemma replace_mechanic_emails (id : Z) (m' : Mechanic.t) (l : list Mechanic.t) :
  NoDup (Mechanic.mechanic_id <$> l) →
  NoDup (Mechanic.email <$> l) →
  (∀ x, x ∈ l → Mechanic.mechanic_id x ≠ id →
        Mechanic.email x ≠ Mechanic.email m') →
  NoDup (Mechanic.email <$> MechanicCrud.replace_mechanic id m' l).
Proof.
  induction l as [|x l IH]; intros Hids Hemails Hother;
    cbn [MechanicCrud.replace_mechanic]; [constructor|].
  cbn [fmap list_fmap] in Hids, Hemails.
  apply NoDup_cons in Hids as [Hx Hids].
  apply NoDup_cons in Hemails as [Hex Hemails].
  destruct (Z.eqb_spec (Mechanic.mechanic_id x) id) as [Hid|Hid];
    cbn [fmap list_fmap]; apply NoDup_cons; split.
  - intros Hin. apply list_elem_of_fmap in Hin as (y & Hy & Hin).
    apply (Hother y); [apply elem_of_cons; right; exact Hin| |congruence].
    intros Hyid. apply Hx. apply list_elem_of_fmap. exists y.
    split; [congruence|exact Hin].
  - exact Hemails.
  - intros Hin. apply list_elem_of_fmap in Hin as (y & Hy & Hin).
    apply replace_mechanic_elem in Hin as [Hin| ->].
    + apply Hex. apply list_elem_of_fmap. exists y. split; assumption.
    + apply (Hother x); [apply elem_of_cons; left; reflexivity|exact Hid|exact Hy].
  - apply IH; [exact Hids|exact Hemails|].
    intros y Hy. apply Hother. apply elem_of_cons. right. exact Hy.
Qed.

Lemma email_taken_false (db : DB) (id : Z) (e : string) :
  MechanicCrud.email_taken db id e = false →
  ∀ x, x ∈ mechanics db → Mechanic.mechanic_id x ≠ id → Mechanic.email x ≠ e.
Proof.
  intros Hf x Hx Hid Heq.
  assert (Ht : MechanicCrud.email_taken db id e = true); [|congruence].
  apply existsb_exists. exists x. split; [apply list_elem_of_In; exact Hx|].
  rewrite Heq, String.eqb_refl.
  destruct (Z.eqb_spec (Mechanic.mechanic_id x) id); [contradiction|reflexivity].
Qed.

(** X29.  The handlers keep the mechanics' keys and emails unique: when
    no two mechanics of the store have the same key and no two have the
    same email, this is still so after creating and after updating a
    mechanic, whatever the request and its outcome. *)
Theorem mechanics_unique_kept (db : DB) :
  mechanics_unique db →
  (∀ req, mechanics_unique (MechanicCrud.create_mechanic db req).2)
  ∧ (∀ mechanic_id req,
       mechanics_unique (MechanicCrud.update_mechanic db mechanic_id req).2).
Proof.
  intros [Hids Hemails]. split.
  - intros req.
    destruct (create_mechanic_cases db req)
      as [[-> _]|(m & Hid & Hnone & ->)]; [split; assumption|].
    unfold mechanics_unique. cbn [snd mechanics set_mechanics].
    rewrite !fmap_app. cbn [fmap list_fmap]. split.
    + apply NoDup_app. split; [exact Hids|]. split; [|apply NoDup_singleton].
      intros x Hx Hin. apply list_elem_of_singleton in Hin. subst x.
      rewrite Hid in Hx. unfold MechanicCrud.new_mechanic_id in Hx.
      apply (is_fresh (list_to_set (Mechanic.mechanic_id <$> mechanics db) : gset Z)).
      apply elem_of_list_to_set. exact Hx.
    + apply NoDup_app. split; [exact Hemails|]. split; [|apply NoDup_singleton].
      intros e He Hin. apply list_elem_of_singleton in Hin. subst e.
      apply list_elem_of_fmap in He as (y & Hy & Hin).
      unfold MechanicCrud.mechanic_by_email in Hnone.
      pose proof (find_none _ _ Hnone y (proj1 (list_elem_of_In _ _) Hin)) as Hn.
      cbn in Hn. rewrite <- Hy, String.eqb_refl in Hn. discriminate.
  - intros mechanic_id req.
    destruct (update_mechanic_cases db mechanic_id req)
      as [[-> _]|(mechanic & converted & data & Hm & _ & _ & Htaken & ->)];
      [split; assumption|].
    unfold mechanics_unique. cbn [snd mechanics set_mechanics].
    destruct (get_mechanic_id db mechanic_id mechanic Hm) as [Hid _].
    split.
    + rewrite replace_mechanic_ids by exact Hid. exact Hids.
    + apply replace_mechanic_emails; [exact Hids|exact Hemails|].
      exact (email_taken_false db mechanic_id _ Htaken).
Qed.

Lemma filter_none {A} (P : A → Prop) `{∀ x, Decision (P x)} (l : list A) :
  (∀ x, x ∈ l → ¬ P x) → filter P l = [].
Proof.
  induction l as [|a l IH]; intros Hl; [reflexivity|].
  rewrite filter_cons. destruct (decide (P a)) as [Ha|_].
  - exfalso. apply (Hl a); [apply elem_of_cons; left; reflexivity|exact Ha].
  - apply IH. intros x Hx. apply Hl. apply elem_of_cons. right. exact Hx.
Qed.

Lemma find_app_last {A} (f : A → bool) (l : list A) (a : A) :
  (∀ x, x ∈ l → f x = false) → f a = true → List.find f (l ++ [a]) = Some a.
Proof.
  intros Hl Ha. induction l as [|x l IH]; cbn [app List.find].
  - rewrite Ha. reflexivity.
  - rewrite (Hl x) by (apply elem_of_cons; left; reflexivity).
    apply IH. intros y Hy. apply Hl. apply elem_of_cons. right. exact Hy.
Qed.

(** X30.  A mechanic that was created can be read: after
    [create_mechanic] answered 201, [get_mechanic] for the new key
    answers 200 with the fields of the creation's response and a
    [ticket_count] of zero, when every row of [ticket_mechanics] refers
    to a mechanic of the store. *)
Theorem create_mechanic_then_get (db : DB) (req : Request) :
  let r := MechanicCrud.create_mechanic db req in
  status r.1 = 201 →
  (∀ k row, ticket_mechanics db !! k = Some row →
            is_Some (get_mechanic db k.2)) →
  ∃ m, body r.1 = Py.PDict (MechanicSchema.dump m)
       ∧ get_mechanic db (Mechanic.mechanic_id m) = None
       ∧ MechanicCrud.get_mechanic r.2 (Mechanic.mechanic_id m)
         = ({| body := Py.PDict (MechanicSchema.dump m
                                 ++ [("ticket_count", Py.PInt 0)]);
               status := 200 |}, r.2).
Proof.
  intros r. subst r.
  destruct (create_mechanic_cases db req)
    as [[_ Hs]|(m & Hid & _ & ->)]; [intros; contradiction|].
  intros _ Hfk. exists m. cbn [fst snd body]. split; [reflexivity|].
  assert (Hfresh : ∀ x, x ∈ mechanics db →
                        Mechanic.mechanic_id x ≠ Mechanic.mechanic_id m).
  { intros x Hx Heq. rewrite Hid in Heq. unfold MechanicCrud.new_mechanic_id in Heq.
    apply (is_fresh (list_to_set (Mechanic.mechanic_id <$> mechanics db) : gset Z)).
    apply elem_of_list_to_set, list_elem_of_fmap. exists x. split; [congruence|exact Hx]. }
  assert (Hnone : get_mechanic db (Mechanic.mechanic_id m) = None).
  { destruct (get_mechanic db (Mechanic.mechanic_id m)) as [x|] eqn:E; [|reflexivity].
    apply get_mechanic_id in E as [Hx Hin]. exfalso. exact (Hfresh x Hin Hx). }
  split; [exact Hnone|].
  unfold MechanicCrud.get_mechanic.
  assert (Hfind : get_mechanic (set_mechanics (mechanics db ++ [m]) db)
                               (Mechanic.mechanic_id m) = Some m).
  { unfold get_mechanic. cbn [mechanics set_mechanics].
    apply find_app_last; [|apply Z.eqb_refl].
    intros x Hx. apply Z.eqb_neq. apply Hfresh. exact Hx. }
  rewrite Hfind.
  assert (Hcount : ticket_count (set_mechanics (mechanics db ++ [m]) db) m = 0).
  { unfold ticket_count. cbn [ticket_mechanics set_mechanics].
    rewrite filter_none; [reflexivity|].
    intros [k row] Hin Hk. cbn in Hk.
    apply elem_of_map_to_list in Hin.
    destruct (Hfk k row Hin) as [x Hx]. rewrite Hk, Hnone in Hx. discriminate. }
  rewrite Hcount. reflexivity.
Qed.

End MechanicFacts.


(* ===================================================================== *)
(** ** The further theorems on the example data                            *)
(* ===================================================================== *)

Lemma adjust_part_quantity_reports_witness :
  let r := Inventory.adjust_part_quantity (H := example_external)
             example_db 1 (example_adjust (-20)) in
  ∃ p p' delta,
    parts example_db !! 1 = Some p
    ∧ parts r.2 !! 1 = Some p'
    ∧ Part.quantity_in_stock p' = Part.quantity_in_stock p + delta
    ∧ Py.getitem (body r.1) "adjustment" = Py.Ok (Py.PInt delta)
    ∧ Py.getitem (body r.1) "previous_quantity"
      = Py.Ok (Py.PInt (Part.quantity_in_stock p))
    ∧ Py.getitem (body r.1) "new_quantity"
      = Py.Ok (Py.PInt (Part.quantity_in_stock p'))
    ∧ Py.getitem (body r.1) "part" = Py.Ok (Inventory.part_schema_dump p')
    ∧ Py.getitem (Inventory.part_schema_dump p') "needs_reorder"
      = Py.Ok (Py.PBool (bool_decide
                 (Part.quantity_in_stock p + delta ≤ Part.reorder_level p))).
Proof.
  apply (adjust_part_quantity_reports (H := example_external)
           example_db 1 (example_adjust (-20))).
  vm_compute. reflexivity.
Defined.

Lemma adjust_part_quantity_composes_witness :
  (Inventory.adjust_part_quantity (H := example_external)
     (Inventory.adjust_part_quantity (H := example_external)
        example_db 1 (example_adjust (-10))).2
     1 (example_adjust 4)).2
  = (Inventory.adjust_part_quantity (H := example_external)
       example_db 1 (example_adjust (-6))).2.
Proof.
  apply (adjust_part_quantity_composes (H := example_external)
           example_db 1 example_part
           (example_adjust (-10)) (example_adjust 4) (example_adjust (-6))
           (-10) 4).
  - reflexivity.
  - do 2 eexists. split_and!; reflexivity.
  - do 2 eexists. split_and!; reflexivity.
  - do 2 eexists. split_and!; reflexivity.
  - reflexivity.
  - reflexivity.
Defined.

Lemma adjust_part_quantity_undo_witness :
  let r := Inventory.adjust_part_quantity (H := example_external)
             example_db 1 (example_adjust (-10)) in
  let r' := Inventory.adjust_part_quantity (H := example_external)
              r.2 1 (example_adjust 10) in
  status r.1 = 200 ∧ status r'.1 = 200 ∧ r'.2 = example_db.
Proof.
  split; [reflexivity|].
  apply (adjust_part_quantity_undo (H := example_external)
           example_db 1 example_part
           (example_adjust (-10)) (example_adjust 10) (-10)).
  - reflexivity.
  - vm_compute. discriminate.
  - fits.
  - do 2 eexists. split_and!; reflexivity.
  - do 2 eexists. split_and!; reflexivity.
  - reflexivity.
Defined.

Lemma delete_part_cases_witness :
  (let r := InventoryParts.delete_part example_db_attached 1 in
   status r.1 ≠ 200 ∧ r.2 = example_db_attached)
  ∧ (let r := InventoryParts.delete_part example_db 1 in
     status r.1 = 200
     ∧ InventoryParts.get_part r.2 1 = (error "Part not found" 404, r.2)).
Proof.
  split.
  - apply (delete_part_cases example_db_attached 1 example_part eq_refl).
    vm_compute. reflexivity.
  - destruct (delete_part_cases example_db 1 example_part eq_refl) as [_ Hok].
    destruct (Hok ltac:(vm_compute; reflexivity)) as (Hs & Hget & _).
    split; [exact Hs|exact Hget].
Defined.

Lemma ticket_parts_have_parts_kept_witness :
  ticket_parts_have_parts (InventoryParts.delete_part example_db_attached 1).2
  ∧ ticket_parts_have_parts
      (Inventory.adjust_part_quantity (H := example_external)
         example_db_attached 1 (example_adjust (-20))).2.
Proof.
  assert (Hinv : ticket_parts_have_parts example_db_attached).
  { intros t p tp Hl. unfold example_db_attached in Hl.
    cbn [ticket_parts set_ticket_parts] in Hl.
    apply lookup_singleton_Some in Hl as [[= <- <-] _].
    eexists. reflexivity. }
  destruct (ticket_parts_have_parts_kept (H := example_external)
              example_db_attached Hinv) as (Hadjust & _ & Hdelete).
  split; [apply Hdelete|apply Hadjust].
Defined.

Lemma add_part_to_ticket_conserves_units_witness :
  let r := ServiceTicketRoutes.add_part_to_ticket (H := example_external)
             example_db 1 1
             (example_request (Py.PDict [("quantity_used", Py.PInt 6)])) in
  ∃ p', parts r.2 !! 1 = Some p'
        ∧ Part.quantity_in_stock p' + units_on_tickets r.2 1
          = Part.quantity_in_stock example_part + units_on_tickets example_db 1.
Proof.
  apply (add_part_to_ticket_conserves_units (H := example_external)
           example_db 1 1
           (example_request (Py.PDict [("quantity_used", Py.PInt 6)]))
           1 example_part).
  reflexivity.
Defined.

Lemma low_stock_listing_after_adjust_witness :
  let listing := query_of [("low_stock", "TRUE")] in
  let db' := (Inventory.adjust_part_quantity (H := example_external)
                example_db 1 (example_adjust (-20))).2 in
  let p' := Part.set_quantity_in_stock 5 example_part in
  parts db' !! 1 = Some p'
  ∧ (InventoryParts.get_parts db' listing).1
    = {| body := Py.PList (Inventory.part_schema_dump
                             <$> InventoryParts.listed_parts db' listing);
         status := 200 |}
  ∧ (p' ∈ InventoryParts.listed_parts db' listing
     ↔ Part.quantity_in_stock example_part + -20 ≤ Part.reorder_level example_part).
Proof.
  apply (low_stock_listing_after_adjust (H := example_external)
           example_db 1 example_part (example_adjust (-20))
           (query_of [("low_stock", "TRUE")]) (-20)).
  - reflexivity.
  - do 2 eexists. split_and!; reflexivity.
  - reflexivity.
  - reflexivity.
  - reflexivity.
Defined.

Lemma assign_then_remove_mechanic_witness :
  let r := ServiceTicketAssign.assign_mechanic example_db 1 5
             (request_of (assign_body "Lead" 30)) in
  let r' := ServiceTicketAssign.remove_mechanic r.2 1 5 in
  status r.1 = 200
  ∧ ticket_mechanics r.2 !! (1, 5) = Some (new_row 1 "Lead" 30 5)
  ∧ status r'.1 = 200 ∧ r'.2 = example_db.
Proof.
  split; [reflexivity|]. split; [reflexivity|].
  apply (assign_then_remove_mechanic example_db 1 5
           (request_of (assign_body "Lead" 30))).
  reflexivity.
Defined.

Lemma assign_mechanic_twice_witness :
  let r := ServiceTicketAssign.assign_mechanic example_db 1 5 (request_of Py.PNone) in
  ServiceTicketAssign.assign_mechanic r.2 1 5 (request_of (assign_body "Lead" 30))
  = (error "Mechanic is already assigned to this ticket." 400, r.2).
Proof.
  apply (assign_mechanic_twice example_db 1 5 (request_of Py.PNone)
           (request_of (assign_body "Lead" 30))).
  reflexivity.
Defined.

Lemma assign_mechanic_agrees_with_edit_witness :
  (ServiceTicketAssign.assign_mechanic example_db 1 5
     (request_of (assign_body "Lead" 30))).2
  = (ServiceTicketEdit.edit_ticket_mechanics (H := example_external) example_db 1
       (request_of (edit_add_body 5 "Lead" 30))).2.
Proof.
  apply (assign_mechanic_agrees_with_edit (H := example_external)
           example_db 1 5 (request_of (assign_body "Lead" 30)) "Lead" 30).
  - eexists. reflexivity.
  - reflexivity.
Defined.

Lemma remove_mechanic_agrees_with_edit_witness :
  (ServiceTicketAssign.remove_mechanic example_db_assigned 1 5).2
  = (ServiceTicketEdit.edit_ticket_mechanics (H := example_external)
       example_db_assigned 1 (request_of (edit_remove_body 5))).2.
Proof.
  apply (remove_mechanic_agrees_with_edit (H := example_external)
           example_db_assigned 1 5).
  - eexists. reflexivity.
  - eexists. reflexivity.
Defined.

Lemma edit_ticket_mechanics_idempotent_witness :
  let r := ServiceTicketEdit.edit_ticket_mechanics (H := example_external)
             example_db_assigned 1 (example_request example_swap_body) in
  (ServiceTicketEdit.edit_ticket_mechanics (H := example_external)
     r.2 1 (example_request example_swap_body)).2 = r.2.
Proof.
  apply (edit_ticket_mechanics_idempotent (H := example_external)
           example_db_assigned 1 (example_request example_swap_body)
           example_swap_data).
  - eexists. reflexivity.
  - reflexivity.
  - reflexivity.
Defined.

Lemma edit_ticket_mechanics_empty_witness :
  ServiceTicketEdit.edit_ticket_mechanics (H := example_external)
    example_db_assigned 1 (request_of (Py.PDict []))
  = (error "No JSON data provided" 400, example_db_assigned)
  ∧ ServiceTicketEdit.edit_ticket_mechanics (H := example_external)
      example_db_assigned 1 (request_of (Py.PDict [("add_ids", Py.PList [])]))
    = ({| body := Py.PDict [
            ("message", Py.PStr "Ticket mechanics updated successfully");
            ("ticket_id", Py.PInt 1);
            ("added_mechanics", Py.PList []);
            ("removed_mechanics", Py.PList [])
          ];
          status := 200 |}, example_db_assigned).
Proof.
  destruct (edit_ticket_mechanics_empty (H := example_external)
              example_db_assigned 1 ltac:(eexists; reflexivity))
    as [Hfalse Hempty].
  split.
  - apply Hfalse. reflexivity.
  - apply (Hempty _ {| EditTicketMechanicsSchema.add_ids := Some [];
                       EditTicketMechanicsSchema.remove_ids := Some [];
                       EditTicketMechanicsSchema.role := Some "Technician";
                       EditTicketMechanicsSchema.minutes_worked := Some 0 |});
      reflexivity.
Defined.

Lemma get_customers_pages_cover_witness :
  let db := example_db_customers in
  let r := CustomerListing.get_customers (H := example_external_ids) db
             (query_of [("page", "2"); ("per_page", "2")]) in
  length (CustomerListing.rows db) = 5%nat
  ∧ CustomerListing.total_pages db 2 = 3
  ∧ length (CustomerListing.page_rows db 2 2) = 2%nat
  ∧ r.2 = db
  ∧ status r.1 = 200
  ∧ Py.getitem (body r.1) "customers"
    = Py.Ok (Py.PList (CustomerSchema.dump <$> CustomerListing.page_rows db 2 2))
  ∧ pages_upto db 2 3 = CustomerListing.rows db.
Proof.
  intros db r.
  split; [reflexivity|]. split; [reflexivity|]. split; [reflexivity|].
  destruct (get_customers_pages_cover (H := example_external_ids)
              example_db_customers
              (query_of [("page", "2"); ("per_page", "2")])
              ltac:(vm_compute; discriminate)
              ltac:(split; vm_compute; discriminate)
              ltac:(split; [vm_compute; discriminate|reflexivity]))
    as (H1 & H2 & H3 & _ & H5).
  split; [exact H1|]. split; [exact H2|]. split; [exact H3|exact H5].
Defined.

Lemma get_customers_flags_witness :
  let db := example_db_customers in
  (let r := CustomerListing.get_customers (H := example_external_ids) db
              (query_of [("page", "2"); ("per_page", "2")]) in
   ∃ pagination,
     Py.getitem (body r.1) "pagination" = Py.Ok pagination
     ∧ Py.getitem pagination "has_next" = Py.Ok (Py.PBool true)
     ∧ Py.getitem pagination "has_prev" = Py.Ok (Py.PBool true)
     ∧ Py.getitem pagination "total_customers" = Py.Ok (Py.PInt 5)
     ∧ CustomerListing.page_rows db 3 2 ≠ [])
  ∧ (let r := CustomerListing.get_customers (H := example_external_ids) db
                (query_of [("page", "4"); ("per_page", "2")]) in
     ∃ pagination,
       Py.getitem (body r.1) "pagination" = Py.Ok pagination
       ∧ Py.getitem pagination "has_next" = Py.Ok (Py.PBool false)
       ∧ CustomerListing.total_pages db 2 < 4
       ∧ CustomerListing.page_rows db 4 2 = []).
Proof.
  intros db. split.
  - destruct (get_customers_flags (H := example_external_ids)
                example_db_customers
                (query_of [("page", "2"); ("per_page", "2")])
                ltac:(vm_compute; discriminate)
                ltac:(split; vm_compute; discriminate)
                ltac:(split; [vm_compute; discriminate|reflexivity]))
      as (pagination & Hp & Hnext & Hprev & Htotal & _).
    assert (Hrows : CustomerListing.page_rows example_db_customers 3 2 ≠ [])
      by (vm_compute; discriminate).
    exists pagination. split; [exact Hp|].
    split; [rewrite Hnext, bool_decide_eq_true_2; [reflexivity|exact Hrows]|].
    split; [rewrite Hprev, bool_decide_eq_true_2; [reflexivity|]|].
    + vm_compute. reflexivity.
    + split; [exact Htotal|exact Hrows].
  - destruct (get_customers_flags (H := example_external_ids)
                example_db_customers
                (query_of [("page", "4"); ("per_page", "2")])
                ltac:(vm_compute; discriminate)
                ltac:(split; vm_compute; discriminate)
                ltac:(split; [vm_compute; discriminate|reflexivity]))
      as (pagination & Hp & Hnext & _ & _ & Hlast).
    assert (Hlt : CustomerListing.total_pages example_db_customers 2 < 4)
      by (vm_compute; reflexivity).
    exists pagination. split; [exact Hp|].
    split; [rewrite Hnext, bool_decide_eq_false_2; [reflexivity|]|].
    + intros Hne. apply Hne. vm_compute. reflexivity.
    + split; [exact Hlt|exact (Hlast Hlt)].
Defined.

Lemma vins_unique_kept_witness :
  vins_unique
    (CustomerRoutes.create_vehicle (H := example_external)
       example_db_vehicle 5 (example_request example_vehicle_body)).2
  ∧ vins_unique
      (VehicleRoutes.update_vehicle (H := example_external)
         example_db_vehicle 5 1 (example_request example_vehicle_update)).2.
Proof.
  assert (Hu : vins_unique example_db_vehicle).
  { intros i j vi vj Hi Hj _. unfold example_db_vehicle in Hi, Hj.
    cbn [vehicles set_vehicles] in Hi, Hj.
    apply lookup_singleton_Some in Hi as [<- _].
    apply lookup_singleton_Some in Hj as [<- _]. reflexivity. }
  destruct (vins_unique_kept (H := example_external) example_db_vehicle Hu)
    as (Hcreate & Hupdate & _).
  split; [apply Hcreate|apply Hupdate].
Defined.

Lemma tickets_have_vehicles_kept_witness :
  tickets_have_vehicles
    (VehicleRoutes.delete_vehicle (H := example_external)
       example_db_vehicle 5 1 (example_request Py.PNone)).2.
Proof.
  assert (Hinv : tickets_have_vehicles example_db_vehicle).
  { intros t ticket Ht.
    unfold example_db_vehicle, example_db_customer, example_db in Ht.
    cbn [service_tickets set_vehicles set_customers] in Ht.
    apply lookup_singleton_Some in Ht as [_ <-].
    eexists. reflexivity. }
  destruct (tickets_have_vehicles_kept (H := example_external)
              example_db_vehicle Hinv) as (_ & _ & Hdelete).
  apply Hdelete.
Defined.

Lemma create_vehicle_then_get_witness :
  let r := CustomerRoutes.create_vehicle (H := example_external)
             example_db_vehicle 5 (example_request example_vehicle_body) in
  ∃ v, body r.1 = VehicleSchema.dump v
       ∧ VehicleRoutes.get_vehicle r.2 5 (Vehicle.vehicle_id v)
         = ({| body := body r.1; status := 200 |}, r.2)
       ∧ (VehicleRoutes.get_customer_vehicles r.2 5).1
         = {| body := Py.PList (VehicleSchema.dump
                                  <$> VehicleRoutes.vehicles_of r.2 5);
              status := 200 |}
       ∧ v ∈ VehicleRoutes.vehicles_of r.2 5
       ∧ ∀ other, other ≠ 5 → v ∉ VehicleRoutes.vehicles_of r.2 other.
Proof.
  apply (create_vehicle_then_get (H := example_external)
           example_db_vehicle 5 (example_request example_vehicle_body)).
  vm_compute. reflexivity.
Defined.

Lemma register_then_login_witness :
  let r := AuthRegister.register (H := example_external)
             (H0 := example_password_hash)
             example_db_customer (request_of example_register_body) "salt" in
  ∃ c, customers r.2 !! Customer.customer_id c = Some c
       ∧ customers example_db_customer !! Customer.customer_id c = None
       ∧ Customer.email c = "bob.brown@email.com"
       ∧ Py.getitem (body r.1) "customer" = Py.Ok (CustomerSchema.dump c)
       ∧ AuthRoutes.login (H := example_external) r.2
           {| json := login_body "bob.brown@email.com" "secret1"; args := [];
              jwt_identity := ""; utcnow := 7 |}
         = ({| body := Py.PDict [
                 ("message", Py.PStr "Login successful");
                 ("access_token",
                  Py.PStr (create_access_token (External := example_external)
                             (pretty (Customer.customer_id c)) 7));
                 ("customer", CustomerSchema.dump c)
               ];
               status := 200 |}, r.2).
Proof.
  apply (register_then_login (H := example_external)
           (H0 := example_password_hash)
           example_db_customer (request_of example_register_body) "salt"
           "bob.brown@email.com" "secret1" 7).
  - vm_compute. reflexivity.
  - reflexivity.
  - reflexivity.
  - reflexivity.
Defined.

Lemma register_replay_refused_witness :
  let r := AuthRegister.register (H := example_external)
             (H0 := example_password_hash)
             example_db_customer (request_of example_register_body) "salt" in
  AuthRegister.register (H := example_external) (H0 := example_password_hash)
    r.2 (request_of example_register_body) "pepper"
  = (error "Email already registered" 400, r.2).
Proof.
  apply (register_replay_refused (H := example_external)
           (H0 := example_password_hash)
           example_db_customer (request_of example_register_body)
           "salt" "pepper").
  vm_compute. reflexivity.
Defined.

Lemma register_then_get_current_user_witness :
  let r := AuthRegister.register (H := example_external_ids)
             (H0 := example_password_hash)
             example_db_customer (request_of example_register_body) "salt" in
  ∃ c, Py.getitem (body r.1) "customer" = Py.Ok (CustomerSchema.dump c)
       ∧ AuthRegister.get_current_user (H := example_external_ids) r.2
           (request_as (Customer.customer_id c))
         = ({| body := CustomerSchema.dump c; status := 200 |}, r.2).
Proof.
  destruct (register_then_get_current_user (H := example_external_ids)
              (H0 := example_password_hash)
              example_db_customer (request_of example_register_body) "salt"
              ltac:(vm_compute; reflexivity))
    as (c & Hbody & Htoken & Hme).
  exists c. split; [exact Hbody|]. apply Hme.
  assert (Hid : Customer.customer_id c = 6).
  { vm_compute in Hbody. destruct c. cbn in Hbody |- *. congruence. }
  rewrite Hid. reflexivity.
Defined.

Lemma emails_unique_kept_witness :
  emails_unique
    (AuthRegister.register (H := example_external) (H0 := example_password_hash)
       example_db_customer (request_of example_register_body) "salt").2
  ∧ emails_unique
      (CustomerRoutes.update_customer (H := example_external)
         example_db_customer 5 (example_request example_customer_update)).2.
Proof.
  assert (Hu : emails_unique example_db_customer).
  { intros i j ci cj Hi Hj _. unfold example_db_customer in Hi, Hj.
    cbn [customers set_customers] in Hi, Hj.
    apply lookup_singleton_Some in Hi as [<- _].
    apply lookup_singleton_Some in Hj as [<- _]. reflexivity. }
  destruct (emails_unique_kept (H := example_external)
              (H0 := example_password_hash) example_db_customer Hu)
    as (Hregister & Hupdate & _).
  split; [apply Hregister|apply Hupdate].
Defined.

Lemma update_customer_then_get_witness :
  let r := CustomerRoutes.update_customer (H := example_external)
             example_db_customer 5 (example_request example_customer_update) in
  ∃ c, body r.1 = CustomerSchema.dump c
       ∧ CustomerListing.get_customer r.2 (Customer.customer_id c) = (r.1, r.2)
       ∧ (Customer.customer_id c ≠ 5 →
          CustomerListing.get_customer r.2 5
          = (error "Customer not found." 404, r.2)).
Proof.
  apply (update_customer_then_get (H := example_external)
           example_db_customer 5 (example_request example_customer_update)).
  vm_compute. reflexivity.
Defined.

Lemma update_mechanic_resets_is_active_witness :
  let req := request_of (mechanic_body "John Smith" "john.smith@mechanicshop.com"
                                       "555-0101" 70000) in
  let r := MechanicCrud.update_mechanic (H := example_external)
             (H0 := example_formats) example_db_inactive 5 req in
  (Mechanic.is_active <$> get_mechanic example_db_inactive 5) = Some false
  ∧ ∃ m', get_mechanic r.2 5 = Some m'
          ∧ Mechanic.is_active m' = true
          ∧ body r.1 = Py.PDict (MechanicSchema.dump m').
Proof.
  split; [reflexivity|].
  apply (update_mechanic_resets_is_active (H := example_external)
           (H0 := example_formats) example_db_inactive 5
           (request_of (mechanic_body "John Smith" "john.smith@mechanicshop.com"
                                      "555-0101" 70000))
           [("full_name", Py.PStr "John Smith");
            ("email", Py.PStr "john.smith@mechanicshop.com");
            ("phone", Py.PStr "555-0101");
            ("salary", Py.PInt 70000)]).
  - vm_compute. reflexivity.
  - reflexivity.
  - reflexivity.
Defined.

Lemma mechanic_legacy_names_witness :
  let legacy :=
    request_of (legacy_mechanic_body "Robert" "Wilson"
                  "robert.wilson@mechanicshop.com" "555-0106" 62000) in
  let current :=
    request_of (mechanic_body "Robert Wilson"
                  "robert.wilson@mechanicshop.com" "555-0106" 62000) in
  MechanicCrud.create_mechanic (H := example_external) (H0 := example_formats)
    example_db legacy
  = MechanicCrud.create_mechanic (H := example_external) (H0 := example_formats)
      example_db current
  ∧ MechanicCrud.update_mechanic (H := example_external) (H0 := example_formats)
      example_db 5 legacy
    = MechanicCrud.update_mechanic (H := example_external) (H0 := example_formats)
        example_db 5 current.
Proof.
  apply (mechanic_legacy_names (H := example_external) (H0 := example_formats)
           example_db 5 "Robert" "Wilson" "robert.wilson@mechanicshop.com"
           "555-0106" 62000).
  intros s. reflexivity.
Defined.

Lemma mechanics_unique_kept_witness :
  let req := request_of (mechanic_body "Robert Wilson"
                           "robert.wilson@mechanicshop.com" "555-0106" 62000) in
  mechanics_unique
    (MechanicCrud.create_mechanic (H := example_external) (H0 := example_formats)
       example_db req).2
  ∧ mechanics_unique
      (MechanicCrud.update_mechanic (H := example_external) (H0 := example_formats)
         example_db 5 req).2.
Proof.
  assert (Hu : mechanics_unique example_db)
    by (split; apply NoDup_singleton).
  destruct (mechanics_unique_kept (H := example_external) (H0 := example_formats)
              example_db Hu) as [Hcreate Hupdate].
  split; [apply Hcreate|apply Hupdate].
Defined.

Lemma create_mechanic_then_get_witness :
  let r := MechanicCrud.create_mechanic (H := example_external)
             (H0 := example_formats) example_db_assigned
             (request_of (mechanic_body "Robert Wilson"
                            "robert.wilson@mechanicshop.com" "555-0106" 62000)) in
  ∃ m, body r.1 = Py.PDict (MechanicSchema.dump m)
       ∧ get_mechanic example_db_assigned (Mechanic.mechanic_id m) = None
       ∧ MechanicCrud.get_mechanic r.2 (Mechanic.mechanic_id m)
         = ({| body := Py.PDict (MechanicSchema.dump m
                                 ++ [("ticket_count", Py.PInt 0)]);
               status := 200 |}, r.2).
Proof.
  apply (create_mechanic_then_get (H := example_external) (H0 := example_formats)
           example_db_assigned
           (request_of (mechanic_body "Robert Wilson"
                          "robert.wilson@mechanicshop.com" "555-0106" 62000))).
  - vm_compute. reflexivity.
  - intros k row Hl. unfold example_db_assigned in Hl.
    cbn [ticket_mechanics set_ticket_mechanics] in Hl.
    apply lookup_singleton_Some in Hl as [<- _].
    eexists. reflexivity.
Defined.
